(** * Offline-first synchronisation engine of the note application

    A shallow embedding of the client-side synchronisation code:

    - [Api]            the REST client ([services/api.ts]),
    - [OfflineStorage] the IndexedDB wrapper ([services/offline.ts]),
    - [ContentStore]   the zustand content store with its optimistic
                       mutations ([stores/contentStore.ts]),
    - [SyncQueue]      the queue processor ([services/syncQueue.ts]),
    - [WebSocket]      the push-channel handlers ([services/websocket.ts]).

    JavaScript objects used as maps are [gmap string _]; numbers are [Z];
    exceptions and mutable singletons are threaded through the monad [M]
    over the record [World].  An [async] function is run to completion in
    one piece: the value an awaited remote call produces is read from the
    oracle [Remote], and every request is appended to the world's call
    log. *)

From Stdlib Require Import ZArith List Bool String Ascii Decimal DecimalString DecimalZ.
From Stdlib Require Import Sorted Permutation Lia.
From stdpp Require Import base option list gmap strings fin_maps.

(** ** JavaScript values *)

(** The values that occur as properties of the [any]-typed payloads. *)
Inductive JsVal :=
| JUndefined
| JNull
| JString (s : string)
| JNumber (n : Z).

#[global] Instance JsVal_eq_dec : EqDecision JsVal.
Proof. solve_decision. Defined.

(** A plain object: the first binding of a key is the live one. *)
Definition JsObject := list (string * JsVal).

Fixpoint js_get (o : JsObject) (k : string) : JsVal :=
  match o with
  | [] => JUndefined
  | (k', v) :: o' => if String.eqb k k' then v else js_get o' k
  end.

(** [JSON.stringify] leaves out the properties whose value is [undefined]. *)
Definition JSON_stringify (o : JsObject) : JsObject :=
  List.filter (fun kv => match snd kv with JUndefined => false | _ => true end) o.

(** [string | null] and optional ([?:]) properties. *)
Definition js_nullable (o : option string) : JsVal :=
  match o with Some s => JString s | None => JNull end.

Definition js_optional {A} (f : A -> JsVal) (o : option A) : JsVal :=
  match o with Some a => f a | None => JUndefined end.

(** [x || d] on an optional number: [undefined] and [0] are falsy. *)
Definition num_or (x : option Z) (d : Z) : Z :=
  match x with
  | Some v => if (v =? 0)%Z then d else v
  | None => d
  end.

(** [x || d] on an optional string: [undefined] and the empty string are falsy. *)
Definition str_or (x : option string) (d : string) : string :=
  match x with
  | Some s => if String.eqb s "" then d else s
  | None => d
  end.

(** A template literal prints an integer in decimal. *)
Definition string_of_Z (z : Z) : string := NilZero.string_of_int (Z.to_int z).

(** [Array.prototype.sort(compareFn)] is stable; insertion from the right,
    placing an element before the first one it does not exceed, computes
    that unique stable order. *)
Section JsSort.
Context {A : Type} (compareFn : A -> A -> Z).

Fixpoint sort_insert (x : A) (l : list A) : list A :=
  match l with
  | [] => [x]
  | y :: l' =>
      if (compareFn x y <=? 0)%Z then x :: y :: l' else y :: sort_insert x l'
  end.

Fixpoint js_sort (l : list A) : list A :=
  match l with
  | [] => []
  | x :: l' => sort_insert x (js_sort l')
  end.
End JsSort.

(** ** Entities ([types/note.ts], [types/folder.ts]) *)

Record Note := mkNote {
  note_id : string;
  note_title : string;
  note_content : string;
  note_folder_id : option string;
  note_user_id : string;
  note_version : Z;
  note_created_at : string;
  note_updated_at : string;
  note_size_bytes : option Z
}.

Record CreateNoteRequest := mkCreateNoteRequest {
  cn_title : string;
  cn_content : string;
  cn_folder_id : option (option string)
}.

Record UpdateNoteRequest := mkUpdateNoteRequest {
  un_title : option string;
  un_content : option string;
  un_folder_id : option (option string);
  un_version : Z
}.

Record Folder := mkFolder {
  folder_id : string;
  folder_name : string;
  folder_parent_id : option string;
  folder_path : string;
  folder_user_id : string;
  folder_created_at : string;
  folder_updated_at : string;
  folder_note_count : option Z;
  folder_subfolder_count : option Z
}.

Record CreateFolderRequest := mkCreateFolderRequest {
  cf_name : string;
  cf_parent_id : option (option string)
}.

Record UpdateFolderRequest := mkUpdateFolderRequest {
  uf_name : option string;
  uf_parent_id : option (option string)
}.

(** [Partial<Note>] and [Partial<Folder>]: the properties a patch carries. *)
Record NotePatch := mkNotePatch {
  np_id : option string;
  np_title : option string;
  np_content : option string;
  np_folder_id : option (option string);
  np_user_id : option string;
  np_version : option Z;
  np_created_at : option string;
  np_updated_at : option string;
  np_size_bytes : option Z
}.

Record FolderPatch := mkFolderPatch {
  fp_id : option string;
  fp_name : option string;
  fp_parent_id : option (option string);
  fp_path : option string;
  fp_user_id : option string;
  fp_created_at : option string;
  fp_updated_at : option string;
  fp_note_count : option Z;
  fp_subfolder_count : option Z
}.

(** [Object.assign(target, source)]: every property of the source
    overwrites the target's. *)
Definition assign_note (n : Note) (p : NotePatch) : Note :=
  {| note_id := default (note_id n) (np_id p);
     note_title := default (note_title n) (np_title p);
     note_content := default (note_content n) (np_content p);
     note_folder_id := default (note_folder_id n) (np_folder_id p);
     note_user_id := default (note_user_id n) (np_user_id p);
     note_version := default (note_version n) (np_version p);
     note_created_at := default (note_created_at n) (np_created_at p);
     note_updated_at := default (note_updated_at n) (np_updated_at p);
     note_size_bytes :=
       match np_size_bytes p with Some s => Some s | None => note_size_bytes n end |}.

Definition assign_folder (f : Folder) (p : FolderPatch) : Folder :=
  {| folder_id := default (folder_id f) (fp_id p);
     folder_name := default (folder_name f) (fp_name p);
     folder_parent_id := default (folder_parent_id f) (fp_parent_id p);
     folder_path := default (folder_path f) (fp_path p);
     folder_user_id := default (folder_user_id f) (fp_user_id p);
     folder_created_at := default (folder_created_at f) (fp_created_at p);
     folder_updated_at := default (folder_updated_at f) (fp_updated_at p);
     folder_note_count :=
       match fp_note_count p with Some s => Some s | None => folder_note_count f end;
     folder_subfolder_count :=
       match fp_subfolder_count p with
       | Some s => Some s
       | None => folder_subfolder_count f
       end |}.

(** A whole [Note] (or [Folder]) passed where a [Partial] is expected. *)
Definition patch_of_note (n : Note) : NotePatch :=
  {| np_id := Some (note_id n);
     np_title := Some (note_title n);
     np_content := Some (note_content n);
     np_folder_id := Some (note_folder_id n);
     np_user_id := Some (note_user_id n);
     np_version := Some (note_version n);
     np_created_at := Some (note_created_at n);
     np_updated_at := Some (note_updated_at n);
     np_size_bytes := note_size_bytes n |}.

Definition patch_of_folder (f : Folder) : FolderPatch :=
  {| fp_id := Some (folder_id f);
     fp_name := Some (folder_name f);
     fp_parent_id := Some (folder_parent_id f);
     fp_path := Some (folder_path f);
     fp_user_id := Some (folder_user_id f);
     fp_created_at := Some (folder_created_at f);
     fp_updated_at := Some (folder_updated_at f);
     fp_note_count := folder_note_count f;
     fp_subfolder_count := folder_subfolder_count f |}.

(** ** Operations of the durable log ([OfflineOperation]) *)

Inductive OpType := OpCreate | OpUpdate | OpDelete | OpMove.
Inductive EntityType := EntNote | EntFolder.
Inductive OpStatus := Pending | Syncing | Synced | Failed.

Record OfflineOperation := mkOfflineOperation {
  op_id : string;
  op_type : OpType;
  op_entityType : EntityType;
  op_entityId : string;
  op_data : JsObject;
  op_timestamp : Z;
  op_userId : string;
  op_status : OpStatus;
  op_retryCount : Z;
  op_lastError : option string
}.

(** The [Partial<OfflineOperation>] patches of the call sites: they set
    [status], [retryCount] and [lastError] only ([lastError: undefined]
    is [Some None]). *)
Record OperationPatch := mkOperationPatch {
  opp_status : option OpStatus;
  opp_retryCount : option Z;
  opp_lastError : option (option string)
}.

Definition apply_patch (o : OfflineOperation) (p : OperationPatch) : OfflineOperation :=
  {| op_id := op_id o;
     op_type := op_type o;
     op_entityType := op_entityType o;
     op_entityId := op_entityId o;
     op_data := op_data o;
     op_timestamp := op_timestamp o;
     op_userId := op_userId o;
     op_status := default (op_status o) (opp_status p);
     op_retryCount := default (op_retryCount o) (opp_retryCount p);
     op_lastError := default (op_lastError o) (opp_lastError p) |}.

(** What a caller hands to [queueOperation].  The parameter type omits
    [id], [timestamp], [status] and [retryCount]; an object that carries
    them all the same is spread into the stored operation first, so they
    are kept here as optional properties. *)
Record QueueInput := mkQueueInput {
  qi_type : OpType;
  qi_entityType : EntityType;
  qi_entityId : string;
  qi_data : JsObject;
  qi_userId : string;
  qi_lastError : option string;
  qi_id : option string;
  qi_timestamp : option Z;
  qi_status : option OpStatus;
  qi_retryCount : option Z
}.

#[global] Instance OpType_eq_dec : EqDecision OpType.
Proof. solve_decision. Defined.
#[global] Instance EntityType_eq_dec : EqDecision EntityType.
Proof. solve_decision. Defined.
#[global] Instance OpStatus_eq_dec : EqDecision OpStatus.
Proof. solve_decision. Defined.
#[global] Instance OfflineOperation_eq_dec : EqDecision OfflineOperation.
Proof. solve_decision. Defined.

(** ** Errors, events, timers, requests *)

(** A thrown value: [new Error(message)] has neither [status] nor [data];
    an [ApiError] has both. *)
Record JsError := mkJsError {
  err_message : string;
  err_status : option Z;
  err_data : option JsObject
}.

Definition Error (message : string) : JsError :=
  {| err_message := message; err_status := None; err_data := None |}.

Definition ApiError (message : string) (status : Z) (data : JsObject) : JsError :=
  {| err_message := message; err_status := Some status; err_data := Some data |}.

(** How an awaited call ends: with a value, or with a thrown value. *)
Inductive Outcome (A : Type) :=
| Ok (a : A)
| Throw (e : JsError).
Arguments Ok {A} a.
Arguments Throw {A} e.

(** A call of [processOperation] whose promise has not settled.  The call
    itself runs up to its first write, which the database takes before
    anything that is asked of it later; [st_begun] is how that write
    ended. *)
Record Started := mkStarted {
  st_operation : OfflineOperation;
  st_begun : Outcome unit
}.

#[global] Instance JsError_eq_dec : EqDecision JsError.
Proof. solve_decision. Defined.
#[global] Instance Outcome_eq_dec {A} `{EqDecision A} : EqDecision (Outcome A).
Proof. solve_decision. Defined.
#[global] Instance Started_eq_dec : EqDecision Started.
Proof. solve_decision. Defined.

Record ConflictData := mkConflictData {
  cd_operationId : string;
  cd_localData : JsObject;
  cd_remoteData : option JsObject;
  cd_field : string
}.

Record SyncResult := mkSyncResult {
  sr_success : bool;
  sr_error : option string;
  sr_conflicts : option (list ConflictData)
}.

(** The events of [SyncQueueService.emit]. *)
Inductive Event :=
| EvOnline
| EvOffline
| EvOperationQueued (operation : OfflineOperation)
| EvSyncStarted
| EvSyncCompleted (success : bool) (processed : Z) (failed : option Z)
| EvSyncError (error : JsError)
| EvOperationSynced (operation : OfflineOperation)
| EvOperationFailed (operation : OfflineOperation) (error : JsError)
| EvConflict (operation : OfflineOperation) (conflicts : list ConflictData)
| EvOperationCancelled (operationId : string)
| EvFailedOperationsCleared (count : Z).

(** The callbacks handed to [setTimeout] and [setImmediate]. *)
Inductive TimerAction :=
| TProcessPendingOperations
| TDeleteOperation (operationId : string)
| TRemoveOptimisticOp (opId : string).

Record Timer := mkTimer {
  t_delay : option Z;      (* [None]: [setImmediate] *)
  t_action : TimerAction
}.

Inductive HttpMethod := GET | POST | PUT | DELETE.

Record HttpRequest := mkHttpRequest {
  req_method : HttpMethod;
  req_endpoint : string;
  req_headers : list (string * string);
  req_body : option JsObject
}.

(** ** The content store's state ([ContentState]) *)

Inductive OptStatus := OptPending | OptSuccess | OptError.

(** The [any]-typed snapshots an optimistic operation carries. *)
Inductive AnyData :=
| DNote (n : Note)
| DFolder (f : Folder)
| DObject (o : JsObject).

Record OptimisticOperation := mkOptimisticOperation {
  oo_id : string;
  oo_type : OpType;
  oo_entityType : EntityType;
  oo_entityId : string;
  oo_timestamp : Z;
  oo_originalData : option AnyData;
  oo_newData : option AnyData;
  oo_status : OptStatus;
  oo_error : option string
}.

Record ContentState := mkContentState {
  notes : gmap string Note;
  folders : gmap string Folder;
  selectedNoteId : option string;
  selectedFolderId : option string;
  searchQuery : string;
  isLoading : bool;
  error : option string;
  optimisticOps : list OptimisticOperation
}.

Definition initialState : ContentState :=
  {| notes := ∅; folders := ∅; selectedNoteId := None; selectedFolderId := None;
     searchQuery := ""; isLoading := false; error := None; optimisticOps := [] |}.

(** ** The IndexedDB database ([OfflineStorageService]) *)

(** Object stores keyed by [id]; a stored entity carries the
    [_offlineUpdated] stamp next to it.  [db_available] tells that
    [this.db] is set or that [initialize] sets it.  When it is false,
    [db_open_fails] tells why no handle can be obtained: [indexedDB.open]
    fails, or (false) the window has no IndexedDB.  The requests made to
    an open database succeed. *)
Record OfflineDB := mkOfflineDB {
  db_available : bool;
  db_open_fails : bool;
  db_notes : gmap string (Note * Z);
  db_folders : gmap string (Folder * Z);
  db_operations : gmap string OfflineOperation;
  db_metadata : gmap string (Z * Z)
}.

(** ** The queue service's fields ([SyncQueueService]) *)

Record SyncQueueOptions := mkSyncQueueOptions {
  opt_maxRetries : option Z;
  opt_retryDelayMs : option Z;
  opt_maxConcurrentSync : option Z;
  opt_syncIntervalMs : option Z
}.

Record SyncQueueService := mkSyncQueueService {
  maxRetries : Z;
  retryDelayMs : Z;
  maxConcurrentSync : Z;
  syncIntervalMs : Z;
  activeSyncCount : Z;
  isOnline : bool;
  isSyncing : bool
}.

(** ** The world *)

(** What the awaited remote calls produce: the record of the response, or
    the [ApiError] that [ApiClient.request] throws. *)
Record Remote := mkRemote {
  remote_notes_list : JsError + list Note;
  remote_notes_create : JsObject -> JsError + Note;
  remote_notes_update : string -> JsObject -> JsError + Note;
  remote_notes_delete : string -> JsError + unit;
  remote_notes_move : string -> JsObject -> JsError + Note;
  remote_folders_list : JsError + list Folder;
  remote_folders_create : JsObject -> JsError + Folder;
  remote_folders_update : string -> JsObject -> JsError + Folder;
  remote_folders_delete : string -> JsError + unit;
  remote_folders_move : string -> JsObject -> JsError + Folder
}.

(** The host: [Date.now()], the successive values of
    [Math.random().toString(36).substr(2, 9)], [Date.prototype.toISOString]
    and the remote service. *)
Record Runtime := mkRuntime {
  rt_now : Z;
  rt_random : nat -> string;
  rt_toISOString : Z -> string;
  rt_remote : Remote
}.

Record World := mkWorld {
  runtime : Runtime;
  random_next : nat;                       (* draws of [Math.random] so far *)
  content : ContentState;                  (* [useContentStore] *)
  offline : OfflineDB;                     (* [offlineStorage] *)
  queue : SyncQueueService;                (* [syncQueue] *)
  auth_user_id : option string;            (* [useAuthStore.getState().user?.id] *)
  accessToken : option string;             (* [ApiClient.accessToken] *)
  timers : list Timer;                     (* pending [setTimeout]/[setImmediate] *)
  emitted : list Event;                    (* what [emit] delivered, oldest first *)
  requests : list HttpRequest;             (* what [fetch] was called with *)
  promises : list Started                  (* unsettled [processOperation] promises *)
}.

(** The operations in flight: those of the unsettled promises. *)
Definition running (w : World) : list OfflineOperation :=
  st_operation <$> promises w.

Definition with_content (f : ContentState -> ContentState) (w : World) : World :=
  mkWorld (runtime w) (random_next w) (f (content w)) (offline w) (queue w)
    (auth_user_id w) (accessToken w) (timers w) (emitted w) (requests w) (promises w).

Definition with_offline (f : OfflineDB -> OfflineDB) (w : World) : World :=
  mkWorld (runtime w) (random_next w) (content w) (f (offline w)) (queue w)
    (auth_user_id w) (accessToken w) (timers w) (emitted w) (requests w) (promises w).

Definition with_queue (f : SyncQueueService -> SyncQueueService) (w : World) : World :=
  mkWorld (runtime w) (random_next w) (content w) (offline w) (f (queue w))
    (auth_user_id w) (accessToken w) (timers w) (emitted w) (requests w) (promises w).

Definition with_timers (f : list Timer -> list Timer) (w : World) : World :=
  mkWorld (runtime w) (random_next w) (content w) (offline w) (queue w)
    (auth_user_id w) (accessToken w) (f (timers w)) (emitted w) (requests w) (promises w).

Definition with_emitted (f : list Event -> list Event) (w : World) : World :=
  mkWorld (runtime w) (random_next w) (content w) (offline w) (queue w)
    (auth_user_id w) (accessToken w) (timers w) (f (emitted w)) (requests w) (promises w).

Definition with_requests (f : list HttpRequest -> list HttpRequest) (w : World) : World :=
  mkWorld (runtime w) (random_next w) (content w) (offline w) (queue w)
    (auth_user_id w) (accessToken w) (timers w) (emitted w) (f (requests w)) (promises w).

Definition with_promises (f : list Started -> list Started) (w : World) : World :=
  mkWorld (runtime w) (random_next w) (content w) (offline w) (queue w)
    (auth_user_id w) (accessToken w) (timers w) (emitted w) (requests w) (f (promises w)).

Definition with_random_next (f : nat -> nat) (w : World) : World :=
  mkWorld (runtime w) (f (random_next w)) (content w) (offline w) (queue w)
    (auth_user_id w) (accessToken w) (timers w) (emitted w) (requests w) (promises w).

(** ** The monad of stateful code that may throw *)

Definition M (A : Type) : Type := World -> Outcome A * World.

#[global] Instance M_ret : MRet M := fun A a w => (Ok a, w).

#[global] Instance M_bind : MBind M := fun A B f m w =>
  match m w with
  | (Ok a, w') => f a w'
  | (Throw e, w') => (Throw e, w')
  end.

Definition throw {A} (e : JsError) : M A := fun w => (Throw e, w).

Definition get_world : M World := fun w => (Ok w, w).

Definition modify (f : World -> World) : M unit := fun w => (Ok tt, f w).

(** [try { body } catch (e) { handler }] *)
Definition try_catch {A} (body : M A) (handler : JsError -> M A) : M A := fun w =>
  match body w with
  | (Ok a, w') => (Ok a, w')
  | (Throw e, w') => handler e w'
  end.

(** [try { body } finally { fin }] *)
Definition try_finally {A} (body : M A) (fin : M unit) : M A := fun w =>
  let '(r, w') := body w in
  match fin w' with
  | (Ok _, w'') => (r, w'')
  | (Throw e, w'') => (Throw e, w'')
  end.

(** The outcome of [m] as a value, and an outcome that is known already. *)
Definition attempt {A} (m : M A) : M (Outcome A) := fun w =>
  let '(r, w') := m w in (Ok r, w').

Definition replay {A} (r : Outcome A) : M A := fun w => (r, w).

Definition Date_now : M Z := fun w => (Ok (rt_now (runtime w)), w).

Definition Date_toISOString : M string := fun w =>
  (Ok (rt_toISOString (runtime w) (rt_now (runtime w))), w).

(** [Math.random().toString(36).substr(2, 9)] *)
Definition Math_random_suffix : M string := fun w =>
  (Ok (rt_random (runtime w) (random_next w)), with_random_next S w).

Definition setTimeout (action : TimerAction) (delay : Z) : M unit :=
  modify (with_timers (fun ts => ts ++ [mkTimer (Some delay) action])).

Definition setImmediate (action : TimerAction) : M unit :=
  modify (with_timers (fun ts => ts ++ [mkTimer None action])).

(** [for (const x of l) { await f(x) }] *)
Fixpoint forEach {A} (f : A -> M unit) (l : list A) : M unit :=
  match l with
  | [] => mret tt
  | x :: l' => f x;; forEach f l'
  end.

Definition exec {A} (m : M A) (w : World) : World := snd (m w).
Definition result {A} (m : M A) (w : World) : Outcome A := fst (m w).

(** ** Promises that may stay pending *)

(** What awaiting a promise gives: the outcome it settles with, or [None]
    when it never settles. *)
Definition Promise (A : Type) : Type := World -> option (Outcome A) * World.

(** The promise of an [async] function of [M]: it settles. *)
Definition settles {A} (m : M A) : Promise A := fun w =>
  let '(r, w') := m w in (Some r, w').

(** [await Promise.all(ps)] for promises that are started in the order of
    the array, do not wait for one another and reject, when they do, in
    that order: every one of them runs; the result is the first
    rejection, and without a rejection it is pending as soon as one of
    them is. *)
Fixpoint Promise_all (ps : list (Promise unit)) (w : World)
    : option (Outcome unit) * World :=
  match ps with
  | [] => (Some (Ok tt), w)
  | p :: ps' =>
      let '(r, w1) := p w in
      let '(rs, w2) := Promise_all ps' w1 in
      (match r, rs with
       | Some (Throw e), _ => Some (Throw e)
       | _, Some (Throw e) => Some (Throw e)
       | None, _ => None
       | Some (Ok _), _ => rs
       end, w2)
  end.

(** ** [services/api.ts] *)

Module Api.

(** [ApiClient.request]: the JSON content type, the caller's method and
    body, and the bearer token when one is held.  The call is logged
    and its outcome read from the remote oracle; the token refresh on a
    401 belongs to the transport and is not followed. *)
Definition build_request (method : HttpMethod) (endpoint : string)
    (body : option JsObject) (token : option string) : HttpRequest :=
  {| req_method := method;
     req_endpoint := endpoint;
     req_headers :=
       ("Content-Type", "application/json") ::
       match token with
       | Some t => [("Authorization", "Bearer " +:+ t)]
       | None => []
       end;
     req_body := JSON_stringify <$> body |}.

Definition request {T} (method : HttpMethod) (endpoint : string)
    (body : option JsObject) (answer : Remote -> JsError + T) : M T := fun w =>
  let w' := with_requests
              (fun rs => rs ++ [build_request method endpoint body (accessToken w)]) w in
  match answer (rt_remote (runtime w)) with
  | inl e => (Throw e, w')
  | inr r => (Ok r, w')
  end.

Definition notes_list : M (list Note) :=
  request GET "/notes" None remote_notes_list.

Definition notes_create (data : JsObject) : M Note :=
  request POST "/notes" (Some data) (fun r => remote_notes_create r data).

Definition notes_update (id : string) (data : JsObject) : M Note :=
  request PUT ("/notes/" +:+ id) (Some data) (fun r => remote_notes_update r id data).

Definition notes_delete (id : string) : M unit :=
  request DELETE ("/notes/" +:+ id) None (fun r => remote_notes_delete r id).

Definition notes_move (id : string) (data : JsObject) : M Note :=
  request POST ("/notes/" +:+ id +:+ "/move") (Some data)
    (fun r => remote_notes_move r id data).

Definition folders_list : M (list Folder) :=
  request GET "/folders" None remote_folders_list.

Definition folders_create (data : JsObject) : M Folder :=
  request POST "/folders" (Some data) (fun r => remote_folders_create r data).

Definition folders_update (id : string) (data : JsObject) : M Folder :=
  request PUT ("/folders/" +:+ id) (Some data)
    (fun r => remote_folders_update r id data).

Definition folders_delete (id : string) : M unit :=
  request DELETE ("/folders/" +:+ id) None (fun r => remote_folders_delete r id).

Definition folders_move (id : string) (data : JsObject) : M Folder :=
  request POST ("/folders/" +:+ id +:+ "/move") (Some data)
    (fun r => remote_folders_move r id data).

(** The typed request objects as the plain objects that are serialised. *)
Definition obj_of_CreateNoteRequest (d : CreateNoteRequest) : JsObject :=
  [("title", JString (cn_title d));
   ("content", JString (cn_content d));
   ("folder_id", js_optional js_nullable (cn_folder_id d))].

Definition obj_of_UpdateNoteRequest (d : UpdateNoteRequest) : JsObject :=
  [("title", js_optional JString (un_title d));
   ("content", js_optional JString (un_content d));
   ("folder_id", js_optional js_nullable (un_folder_id d));
   ("version", JNumber (un_version d))].

Definition obj_of_CreateFolderRequest (d : CreateFolderRequest) : JsObject :=
  [("name", JString (cf_name d));
   ("parent_id", js_optional js_nullable (cf_parent_id d))].

Definition obj_of_UpdateFolderRequest (d : UpdateFolderRequest) : JsObject :=
  [("name", js_optional JString (uf_name d));
   ("parent_id", js_optional js_nullable (uf_parent_id d))].

End Api.

(** ** [services/offline.ts] *)

Module OfflineStorage.

Definition with_notes (f : gmap string (Note * Z) -> gmap string (Note * Z))
    (d : OfflineDB) : OfflineDB :=
  mkOfflineDB (db_available d) (db_open_fails d) (f (db_notes d)) (db_folders d)
    (db_operations d) (db_metadata d).

Definition with_folders (f : gmap string (Folder * Z) -> gmap string (Folder * Z))
    (d : OfflineDB) : OfflineDB :=
  mkOfflineDB (db_available d) (db_open_fails d) (db_notes d) (f (db_folders d))
    (db_operations d) (db_metadata d).

Definition with_operations
    (f : gmap string OfflineOperation -> gmap string OfflineOperation)
    (d : OfflineDB) : OfflineDB :=
  mkOfflineDB (db_available d) (db_open_fails d) (db_notes d) (db_folders d)
    (f (db_operations d)) (db_metadata d).

(** [getObjectStore]: without [this.db] it awaits [initialize], which
    rejects when [indexedDB.open] fails and returns without a handle in
    a window without IndexedDB. *)
Definition getObjectStore : M unit := fun w =>
  if db_available (offline w) then (Ok tt, w)
  else if db_open_fails (offline w)
  then (Throw (Error "Failed to open IndexedDB"), w)
  else (Throw (Error "Database not initialized"), w).

(** [IDBObjectStore.getAll]: the records in ascending key order. *)
Definition key_compare {V} (a b : string * V) : Z :=
  match String.compare (fst a) (fst b) with
  | Lt => (-1)%Z
  | Eq => 0%Z
  | Gt => 1%Z
  end.

Definition store_getAll {V} (m : gmap string V) : list V :=
  snd <$> js_sort key_compare (map_to_list m).

Definition saveNote (note : Note) : M unit :=
  getObjectStore;;
  now ← Date_now;
  modify (with_offline (with_notes (insert (note_id note) (note, now)))).

Definition deleteNote (id : string) : M unit :=
  getObjectStore;;
  modify (with_offline (with_notes (delete id))).

Definition saveFolder (folder : Folder) : M unit :=
  getObjectStore;;
  now ← Date_now;
  modify (with_offline (with_folders (insert (folder_id folder) (folder, now)))).

Definition deleteFolder (id : string) : M unit :=
  getObjectStore;;
  modify (with_offline (with_folders (delete id))).

Definition saveOperation (operation : OfflineOperation) : M unit :=
  getObjectStore;;
  modify (with_offline (with_operations (insert (op_id operation) operation))).

(** [getOperations(status?)]: all of them, or those the [status] index
    lists under one status, in key order. *)
Definition getOperations (status : option OpStatus) : M (list OfflineOperation) :=
  getObjectStore;;
  w ← get_world;
  let all := store_getAll (db_operations (offline w)) in
  mret match status with
       | Some s => List.filter (fun o => bool_decide (op_status o = s)) all
       | None => all
       end.

Definition updateOperation (id : string) (updates : OperationPatch) : M unit :=
  getObjectStore;;
  w ← get_world;
  match db_operations (offline w) !! id with
  | Some operation =>
      let updatedOperation := apply_patch operation updates in
      modify (with_offline (with_operations
                (insert (op_id updatedOperation) updatedOperation)))
  | None => throw (Error "Operation not found")
  end.

Definition deleteOperation (id : string) : M unit :=
  getObjectStore;;
  modify (with_offline (with_operations (delete id))).

Definition with_metadata (f : gmap string (Z * Z) -> gmap string (Z * Z))
    (d : OfflineDB) : OfflineDB :=
  mkOfflineDB (db_available d) (db_open_fails d) (db_notes d) (db_folders d)
    (db_operations d) (f (db_metadata d)).

(** [saveNotes]: one [put] for each note.  The promise is resolved by
    the handler of the last [put], so without a note nothing resolves
    it. *)
Definition saveNotes (notes : list Note) : Promise unit := fun w =>
  match getObjectStore w with
  | (Throw e, w') => (Some (Throw e), w')
  | (Ok _, w') =>
      let now := rt_now (runtime w') in
      (match notes with [] => None | _ :: _ => Some (Ok tt) end,
       with_offline
         (with_notes (fun m =>
            foldl (fun acc note => <[note_id note := (note, now)]> acc) m notes))
         w')
  end.

(** [const { _offlineUpdated, ...note } = result] *)
Definition getNote (id : string) : M (option Note) :=
  getObjectStore;;
  w ← get_world;
  mret (fst <$> db_notes (offline w) !! id).

(** [getNotes(folderId?)]: the notes the [folder_id] index lists under
    [folderId], or all of them when [folderId] is falsy; in key order. *)
Definition getNotes (folderId : option string) : M (list Note) :=
  getObjectStore;;
  w ← get_world;
  let all := fst <$> store_getAll (db_notes (offline w)) in
  mret (if String.eqb (str_or folderId "") "" then all
        else List.filter
               (fun note => bool_decide (note_folder_id note = folderId)) all).

Definition saveFolders (folders : list Folder) : Promise unit := fun w =>
  match getObjectStore w with
  | (Throw e, w') => (Some (Throw e), w')
  | (Ok _, w') =>
      let now := rt_now (runtime w') in
      (match folders with [] => None | _ :: _ => Some (Ok tt) end,
       with_offline
         (with_folders (fun m =>
            foldl (fun acc folder => <[folder_id folder := (folder, now)]> acc)
              m folders))
         w')
  end.

Definition getFolder (id : string) : M (option Folder) :=
  getObjectStore;;
  w ← get_world;
  mret (fst <$> db_folders (offline w) !! id).

Definition getFolders : M (list Folder) :=
  getObjectStore;;
  w ← get_world;
  mret (fst <$> store_getAll (db_folders (offline w))).

(** [clearSyncedOperations]: one [delete] for each synced operation; with
    none, the promise is resolved at once. *)
Definition clearSyncedOperations : M unit :=
  operations ← getOperations (Some Synced);
  getObjectStore;;
  modify (with_offline (with_operations (fun m =>
    foldl (fun acc op => delete (op_id op) acc) m operations))).

(** The metadata store holds [{ key, value, timestamp }]; the values the
    callers store are numbers. *)
Definition setMetadata (key : string) (value : Z) : M unit :=
  getObjectStore;;
  now ← Date_now;
  modify (with_offline (with_metadata (insert key (value, now)))).

Definition getMetadata (key : string) : M (option Z) :=
  getObjectStore;;
  w ← get_world;
  mret (fst <$> db_metadata (offline w) !! key).

(** [clearAll]: unlike the other methods it does not open the database.
    [db] tells whether the handle [this.db] is set; without it the
    method returns at once.  The [attachments] store, which nothing
    writes, is left out. *)
Definition clearAll (db : bool) : M unit :=
  if db
  then modify (with_offline
                 (fun d => mkOfflineDB (db_available d) (db_open_fails d) ∅ ∅ ∅ ∅))
  else mret tt.

Record OfflineData := mkOfflineData {
  od_notes : gmap string Note;
  od_folders : gmap string Folder;
  od_operations : list OfflineOperation;
  od_lastSync : Z;
  od_version : Z
}.

(** [exportData]; [dbVersion] is 1. *)
Definition exportData : M OfflineData :=
  notes ← getNotes None;
  folders ← getFolders;
  operations ← getOperations None;
  let notesMap := foldl (fun acc note => <[note_id note := note]> acc) ∅ notes in
  let foldersMap :=
    foldl (fun acc folder => <[folder_id folder := folder]> acc) ∅ folders in
  lastSync ← getMetadata "lastSync";
  mret {| od_notes := notesMap;
          od_folders := foldersMap;
          od_operations := operations;
          od_lastSync := num_or lastSync 0;
          od_version := 1 |}.

(** [importData(data)]; [notes] and [folders] are
    [Object.values(data.notes)] and [Object.values(data.folders)], whose
    order the maps of [data] do not keep. *)
Definition importData (db : bool) (notes : list Note) (folders : list Folder)
    (data : OfflineData) : Promise unit := fun w =>
  match clearAll db w with
  | (Throw e, w') => (Some (Throw e), w')
  | (Ok _, w') =>
      Promise_all
        ([saveNotes notes; saveFolders folders] ++
         ((fun op => settles (saveOperation op)) <$> od_operations data) ++
         [settles (setMetadata "lastSync" (od_lastSync data))]) w'
  end.

End OfflineStorage.

(** ** [stores/contentStore.ts] *)

Module ContentStore.

Definition with_notes (f : gmap string Note -> gmap string Note)
    (s : ContentState) : ContentState :=
  mkContentState (f (notes s)) (folders s) (selectedNoteId s) (selectedFolderId s)
    (searchQuery s) (isLoading s) (error s) (optimisticOps s).

Definition with_folders (f : gmap string Folder -> gmap string Folder)
    (s : ContentState) : ContentState :=
  mkContentState (notes s) (f (folders s)) (selectedNoteId s) (selectedFolderId s)
    (searchQuery s) (isLoading s) (error s) (optimisticOps s).

Definition with_selectedNoteId (f : option string -> option string)
    (s : ContentState) : ContentState :=
  mkContentState (notes s) (folders s) (f (selectedNoteId s)) (selectedFolderId s)
    (searchQuery s) (isLoading s) (error s) (optimisticOps s).

Definition with_selectedFolderId (f : option string -> option string)
    (s : ContentState) : ContentState :=
  mkContentState (notes s) (folders s) (selectedNoteId s) (f (selectedFolderId s))
    (searchQuery s) (isLoading s) (error s) (optimisticOps s).

Definition with_isLoading (b : bool) (s : ContentState) : ContentState :=
  mkContentState (notes s) (folders s) (selectedNoteId s) (selectedFolderId s)
    (searchQuery s) b (error s) (optimisticOps s).

Definition with_error (e : option string) (s : ContentState) : ContentState :=
  mkContentState (notes s) (folders s) (selectedNoteId s) (selectedFolderId s)
    (searchQuery s) (isLoading s) e (optimisticOps s).

Definition with_optimisticOps
    (f : list OptimisticOperation -> list OptimisticOperation)
    (s : ContentState) : ContentState :=
  mkContentState (notes s) (folders s) (selectedNoteId s) (selectedFolderId s)
    (searchQuery s) (isLoading s) (error s) (f (optimisticOps s)).

(** [set((state) => ...)] *)
Definition set (f : ContentState -> ContentState) : M unit :=
  modify (with_content f).

Definition get : M ContentState := fun w => (Ok (content w), w).

Definition deselect (id : string) (sel : option string) : option string :=
  match sel with
  | Some s => if String.eqb s id then None else Some s
  | None => None
  end.

(** *** Notes *)

Definition setNotes (ns : list Note) : M unit :=
  set (with_notes (fun _ => foldl (fun acc note => <[note_id note := note]> acc) ∅ ns)).

Definition addNote (note : Note) : M unit :=
  set (with_notes (insert (note_id note) note)).

Definition updateNote (id : string) (updates : NotePatch) : M unit :=
  set (with_notes (alter (fun n => assign_note n updates) id)).

Definition removeNote (id : string) : M unit :=
  set (fun s => with_selectedNoteId (deselect id) (with_notes (delete id) s)).

(** *** Folders *)

Definition setFolders (fs : list Folder) : M unit :=
  set (with_folders (fun _ =>
    foldl (fun acc folder => <[folder_id folder := folder]> acc) ∅ fs)).

Definition addFolder (folder : Folder) : M unit :=
  set (with_folders (insert (folder_id folder) folder)).

Definition updateFolder (id : string) (updates : FolderPatch) : M unit :=
  set (with_folders (alter (fun f => assign_folder f updates) id)).

Definition removeFolder (id : string) : M unit :=
  set (fun s => with_selectedFolderId (deselect id) (with_folders (delete id) s)).

Definition setLoading (loading : bool) : M unit := set (with_isLoading loading).

Definition setError (e : option string) : M unit := set (with_error e).

(** *** Optimistic operations *)

(** [Omit<OptimisticOperation, 'timestamp'>] *)
Record OptimisticOpInput := mkOptimisticOpInput {
  ooi_id : string;
  ooi_type : OpType;
  ooi_entityType : EntityType;
  ooi_entityId : string;
  ooi_originalData : option AnyData;
  ooi_newData : option AnyData;
  ooi_status : OptStatus;
  ooi_error : option string
}.

(** The [Partial<OptimisticOperation>] patches of the call sites. *)
Record OptPatch := mkOptPatch {
  oop_status : option OptStatus;
  oop_error : option string
}.

Definition assign_op (o : OptimisticOperation) (p : OptPatch) : OptimisticOperation :=
  {| oo_id := oo_id o;
     oo_type := oo_type o;
     oo_entityType := oo_entityType o;
     oo_entityId := oo_entityId o;
     oo_timestamp := oo_timestamp o;
     oo_originalData := oo_originalData o;
     oo_newData := oo_newData o;
     oo_status := default (oo_status o) (oop_status p);
     oo_error := match oop_error p with Some e => Some e | None => oo_error o end |}.

(** [Object.assign] on the first element [Array.prototype.find] returns. *)
Fixpoint assign_first (id : string) (p : OptPatch) (l : list OptimisticOperation)
    : list OptimisticOperation :=
  match l with
  | [] => []
  | o :: l' =>
      if String.eqb (oo_id o) id then assign_op o p :: l'
      else o :: assign_first id p l'
  end.

Definition addOptimisticOp (op : OptimisticOpInput) : M unit :=
  now ← Date_now;
  set (with_optimisticOps (fun l => l ++ [
    {| oo_id := ooi_id op;
       oo_type := ooi_type op;
       oo_entityType := ooi_entityType op;
       oo_entityId := ooi_entityId op;
       oo_timestamp := now;
       oo_originalData := ooi_originalData op;
       oo_newData := ooi_newData op;
       oo_status := ooi_status op;
       oo_error := ooi_error op |}])).

Definition updateOptimisticOp (id : string) (updates : OptPatch) : M unit :=
  set (with_optimisticOps (assign_first id updates)).

Definition removeOptimisticOp (id : string) : M unit :=
  set (with_optimisticOps
         (List.filter (fun op => negb (String.eqb (oo_id op) id)))).


Definition generateId : M string :=
  now ← Date_now;
  suffix ← Math_random_suffix;
  mret ("temp_" +:+ string_of_Z now +:+ "_" +:+ suffix).

Definition mark_success : OptPatch := mkOptPatch (Some OptSuccess) None.

Definition mark_error (message : string) : OptPatch :=
  mkOptPatch (Some OptError) (Some message).

(** [data.folder_id || null] *)
Definition or_null (x : option (option string)) : option string :=
  match x with
  | Some (Some s) => if String.eqb s "" then None else Some s
  | _ => None
  end.

(** *** Optimistic API operations: notes *)

Definition createNoteOptimistic (data : CreateNoteRequest) : M Note :=
  tempId ← generateId;
  opId ← generateId;
  created_at ← Date_toISOString;
  updated_at ← Date_toISOString;
  let optimisticNote :=
    {| note_id := tempId;
       note_title := cn_title data;
       note_content := cn_content data;
       note_folder_id := or_null (cn_folder_id data);
       note_user_id := "current_user";
       note_version := 1;
       note_created_at := created_at;
       note_updated_at := updated_at;
       note_size_bytes := None |} in
  addNote optimisticNote;;
  addOptimisticOp
    (mkOptimisticOpInput opId OpCreate EntNote tempId None
       (Some (DNote optimisticNote)) OptPending None);;
  try_catch
    (createdNote ← Api.notes_create (Api.obj_of_CreateNoteRequest data);
     removeNote tempId;;
     addNote createdNote;;
     updateOptimisticOp opId mark_success;;
     setTimeout (TRemoveOptimisticOp opId) 1000;;
     mret createdNote)
    (fun e =>
       removeNote tempId;;
       updateOptimisticOp opId (mark_error (err_message e));;
       setTimeout (TRemoveOptimisticOp opId) 5000;;
       throw e).

(** [{ ...currentNote, ...data, updated_at, version: data.version }] *)
Definition patch_of_UpdateNoteRequest (data : UpdateNoteRequest) : NotePatch :=
  {| np_id := None;
     np_title := un_title data;
     np_content := un_content data;
     np_folder_id := un_folder_id data;
     np_user_id := None;
     np_version := Some (un_version data);
     np_created_at := None;
     np_updated_at := None;
     np_size_bytes := None |}.

Definition with_updated_at (n : Note) (t : string) : Note :=
  mkNote (note_id n) (note_title n) (note_content n) (note_folder_id n)
    (note_user_id n) (note_version n) (note_created_at n) t (note_size_bytes n).

Definition with_version (n : Note) (v : Z) : Note :=
  mkNote (note_id n) (note_title n) (note_content n) (note_folder_id n)
    (note_user_id n) v (note_created_at n) (note_updated_at n) (note_size_bytes n).

Definition with_folder_id (n : Note) (fid : option string) : Note :=
  mkNote (note_id n) (note_title n) (note_content n) fid
    (note_user_id n) (note_version n) (note_created_at n) (note_updated_at n)
    (note_size_bytes n).

Definition updateNoteOptimistic (id : string) (data : UpdateNoteRequest) : M Note :=
  opId ← generateId;
  s ← get;
  match notes s !! id with
  | None => throw (Error "Note not found")
  | Some currentNote =>
      updated_at ← Date_toISOString;
      let optimisticNote :=
        with_version
          (with_updated_at
             (assign_note currentNote (patch_of_UpdateNoteRequest data)) updated_at)
          (un_version data) in
      updateNote id (patch_of_note optimisticNote);;
      addOptimisticOp
        (mkOptimisticOpInput opId OpUpdate EntNote id (Some (DNote currentNote))
           (Some (DNote optimisticNote)) OptPending None);;
      try_catch
        (updatedNote ← Api.notes_update id (Api.obj_of_UpdateNoteRequest data);
         updateNote id (patch_of_note updatedNote);;
         updateOptimisticOp opId mark_success;;
         setTimeout (TRemoveOptimisticOp opId) 1000;;
         mret updatedNote)
        (fun e =>
           updateNote id (patch_of_note currentNote);;
           updateOptimisticOp opId (mark_error (err_message e));;
           setTimeout (TRemoveOptimisticOp opId) 5000;;
           throw e)
  end.

Definition deleteNoteOptimistic (id : string) : M unit :=
  opId ← generateId;
  s ← get;
  match notes s !! id with
  | None => throw (Error "Note not found")
  | Some currentNote =>
      removeNote id;;
      addOptimisticOp
        (mkOptimisticOpInput opId OpDelete EntNote id (Some (DNote currentNote))
           None OptPending None);;
      try_catch
        (Api.notes_delete id;;
         updateOptimisticOp opId mark_success;;
         setTimeout (TRemoveOptimisticOp opId) 1000)
        (fun e =>
           addNote currentNote;;
           updateOptimisticOp opId (mark_error (err_message e));;
           setTimeout (TRemoveOptimisticOp opId) 5000;;
           throw e)
  end.

Definition moveNoteOptimistic (id : string) (folderId : option string) : M Note :=
  opId ← generateId;
  s ← get;
  match notes s !! id with
  | None => throw (Error "Note not found")
  | Some currentNote =>
      updated_at ← Date_toISOString;
      let optimisticNote :=
        with_updated_at (with_folder_id currentNote folderId) updated_at in
      updateNote id (patch_of_note optimisticNote);;
      addOptimisticOp
        (mkOptimisticOpInput opId OpMove EntNote id (Some (DNote currentNote))
           (Some (DNote optimisticNote)) OptPending None);;
      try_catch
        (movedNote ← Api.notes_move id [("folder_id", js_nullable folderId)];
         updateNote id (patch_of_note movedNote);;
         updateOptimisticOp opId mark_success;;
         setTimeout (TRemoveOptimisticOp opId) 1000;;
         mret movedNote)
        (fun e =>
           updateNote id (patch_of_note currentNote);;
           updateOptimisticOp opId (mark_error (err_message e));;
           setTimeout (TRemoveOptimisticOp opId) 5000;;
           throw e)
  end.

(** *** Optimistic API operations: folders *)

Definition createFolderOptimistic (data : CreateFolderRequest) : M Folder :=
  tempId ← generateId;
  opId ← generateId;
  created_at ← Date_toISOString;
  updated_at ← Date_toISOString;
  let optimisticFolder :=
    {| folder_id := tempId;
       folder_name := cf_name data;
       folder_parent_id := or_null (cf_parent_id data);
       folder_path :=
         match or_null (cf_parent_id data) with
         | Some _ => "/" +:+ cf_name data
         | None => cf_name data
         end;
       folder_user_id := "current_user";
       folder_created_at := created_at;
       folder_updated_at := updated_at;
       folder_note_count := None;
       folder_subfolder_count := None |} in
  addFolder optimisticFolder;;
  addOptimisticOp
    (mkOptimisticOpInput opId OpCreate EntFolder tempId None
       (Some (DFolder optimisticFolder)) OptPending None);;
  try_catch
    (createdFolder ← Api.folders_create (Api.obj_of_CreateFolderRequest data);
     removeFolder tempId;;
     addFolder createdFolder;;
     updateOptimisticOp opId mark_success;;
     setTimeout (TRemoveOptimisticOp opId) 1000;;
     mret createdFolder)
    (fun e =>
       removeFolder tempId;;
       updateOptimisticOp opId (mark_error (err_message e));;
       setTimeout (TRemoveOptimisticOp opId) 5000;;
       throw e).

(** [{ ...currentFolder, ...data, updated_at }] *)
Definition patch_of_UpdateFolderRequest (data : UpdateFolderRequest) : FolderPatch :=
  {| fp_id := None;
     fp_name := uf_name data;
     fp_parent_id := uf_parent_id data;
     fp_path := None;
     fp_user_id := None;
     fp_created_at := None;
     fp_updated_at := None;
     fp_note_count := None;
     fp_subfolder_count := None |}.

Definition folder_with_updated_at (f : Folder) (t : string) : Folder :=
  mkFolder (folder_id f) (folder_name f) (folder_parent_id f) (folder_path f)
    (folder_user_id f) (folder_created_at f) t (folder_note_count f)
    (folder_subfolder_count f).

Definition folder_with_parent_id (f : Folder) (p : option string) : Folder :=
  mkFolder (folder_id f) (folder_name f) p (folder_path f)
    (folder_user_id f) (folder_created_at f) (folder_updated_at f)
    (folder_note_count f) (folder_subfolder_count f).

Definition updateFolderOptimistic (id : string) (data : UpdateFolderRequest)
    : M Folder :=
  opId ← generateId;
  s ← get;
  match folders s !! id with
  | None => throw (Error "Folder not found")
  | Some currentFolder =>
      updated_at ← Date_toISOString;
      let optimisticFolder :=
        folder_with_updated_at
          (assign_folder currentFolder (patch_of_UpdateFolderRequest data))
          updated_at in
      updateFolder id (patch_of_folder optimisticFolder);;
      addOptimisticOp
        (mkOptimisticOpInput opId OpUpdate EntFolder id (Some (DFolder currentFolder))
           (Some (DFolder optimisticFolder)) OptPending None);;
      try_catch
        (updatedFolder ←
           Api.folders_update id (Api.obj_of_UpdateFolderRequest data);
         updateFolder id (patch_of_folder updatedFolder);;
         updateOptimisticOp opId mark_success;;
         setTimeout (TRemoveOptimisticOp opId) 1000;;
         mret updatedFolder)
        (fun e =>
           updateFolder id (patch_of_folder currentFolder);;
           updateOptimisticOp opId (mark_error (err_message e));;
           setTimeout (TRemoveOptimisticOp opId) 5000;;
           throw e)
  end.

Definition deleteFolderOptimistic (id : string) : M unit :=
  opId ← generateId;
  s ← get;
  match folders s !! id with
  | None => throw (Error "Folder not found")
  | Some currentFolder =>
      removeFolder id;;
      addOptimisticOp
        (mkOptimisticOpInput opId OpDelete EntFolder id (Some (DFolder currentFolder))
           None OptPending None);;
      try_catch
        (Api.folders_delete id;;
         updateOptimisticOp opId mark_success;;
         setTimeout (TRemoveOptimisticOp opId) 1000)
        (fun e =>
           addFolder currentFolder;;
           updateOptimisticOp opId (mark_error (err_message e));;
           setTimeout (TRemoveOptimisticOp opId) 5000;;
           throw e)
  end.

Definition moveFolderOptimistic (id : string) (parentId : option string)
    : M Folder :=
  opId ← generateId;
  s ← get;
  match folders s !! id with
  | None => throw (Error "Folder not found")
  | Some currentFolder =>
      updated_at ← Date_toISOString;
      let optimisticFolder :=
        folder_with_updated_at (folder_with_parent_id currentFolder parentId)
          updated_at in
      updateFolder id (patch_of_folder optimisticFolder);;
      addOptimisticOp
        (mkOptimisticOpInput opId OpMove EntFolder id (Some (DFolder currentFolder))
           (Some (DFolder optimisticFolder)) OptPending None);;
      try_catch
        (movedFolder ← Api.folders_move id [("parent_id", js_nullable parentId)];
         updateFolder id (patch_of_folder movedFolder);;
         updateOptimisticOp opId mark_success;;
         setTimeout (TRemoveOptimisticOp opId) 1000;;
         mret movedFolder)
        (fun e =>
           updateFolder id (patch_of_folder currentFolder);;
           updateOptimisticOp opId (mark_error (err_message e));;
           setTimeout (TRemoveOptimisticOp opId) 5000;;
           throw e)
  end.

(** *** Sync operations *)

Definition syncNotes : M unit :=
  try_finally
    (try_catch
       (setLoading true;;
        ns ← Api.notes_list;
        setNotes ns;;
        setError None)
       (fun e => setError (Some (err_message e));; throw e))
    (setLoading false).

Definition syncFolders : M unit :=
  try_finally
    (try_catch
       (setLoading true;;
        fs ← Api.folders_list;
        setFolders fs;;
        setError None)
       (fun e => setError (Some (err_message e));; throw e))
    (setLoading false).

Inductive Resolution := Accept | Reject.

(** The properties of an [any]-typed snapshot that [Object.assign] can
    copy into a note (or a folder): those the entity's interface has,
    with a value of the right type. *)
Definition as_string (v : JsVal) : option string :=
  match v with JString s => Some s | _ => None end.

Definition as_number (v : JsVal) : option Z :=
  match v with JNumber n => Some n | _ => None end.

Definition as_nullable (v : JsVal) : option (option string) :=
  match v with JString s => Some (Some s) | JNull => Some None | _ => None end.

Definition note_patch_of_any (d : AnyData) : NotePatch :=
  match d with
  | DNote n => patch_of_note n
  | DFolder f =>
      mkNotePatch (Some (folder_id f)) None None None (Some (folder_user_id f)) None
        (Some (folder_created_at f)) (Some (folder_updated_at f)) None
  | DObject o =>
      mkNotePatch (as_string (js_get o "id")) (as_string (js_get o "title"))
        (as_string (js_get o "content")) (as_nullable (js_get o "folder_id"))
        (as_string (js_get o "user_id")) (as_number (js_get o "version"))
        (as_string (js_get o "created_at")) (as_string (js_get o "updated_at"))
        (as_number (js_get o "size_bytes"))
  end.

Definition folder_patch_of_any (d : AnyData) : FolderPatch :=
  match d with
  | DFolder f => patch_of_folder f
  | DNote n =>
      mkFolderPatch (Some (note_id n)) None None None (Some (note_user_id n))
        (Some (note_created_at n)) (Some (note_updated_at n)) None None
  | DObject o =>
      mkFolderPatch (as_string (js_get o "id")) (as_string (js_get o "name"))
        (as_nullable (js_get o "parent_id")) (as_string (js_get o "path"))
        (as_string (js_get o "user_id")) (as_string (js_get o "created_at"))
        (as_string (js_get o "updated_at")) (as_number (js_get o "note_count"))
        (as_number (js_get o "subfolder_count"))
  end.

Definition resolveConflict (opId : string) (resolution : Resolution) : M unit :=
  s ← get;
  match List.find (fun o => String.eqb (oo_id o) opId) (optimisticOps s) with
  | None => mret tt
  | Some op =>
      match resolution with
      | Accept => updateOptimisticOp opId mark_success
      | Reject =>
          match oo_originalData op with
          | Some originalData =>
              match oo_entityType op with
              | EntNote => updateNote (oo_entityId op) (note_patch_of_any originalData)
              | EntFolder =>
                  updateFolder (oo_entityId op) (folder_patch_of_any originalData)
              end
          | None => mret tt
          end;;
          updateOptimisticOp opId (mark_error "Rejected by user")
      end;;
      setTimeout (TRemoveOptimisticOp opId) 1000
  end.

End ContentStore.

(** ** [services/syncQueue.ts] *)

Module SyncQueue.

Definition with_activeSyncCount (f : Z -> Z) (q : SyncQueueService) : SyncQueueService :=
  mkSyncQueueService (maxRetries q) (retryDelayMs q) (maxConcurrentSync q)
    (syncIntervalMs q) (f (activeSyncCount q)) (isOnline q) (isSyncing q).

Definition with_isOnline (b : bool) (q : SyncQueueService) : SyncQueueService :=
  mkSyncQueueService (maxRetries q) (retryDelayMs q) (maxConcurrentSync q)
    (syncIntervalMs q) (activeSyncCount q) b (isSyncing q).

Definition with_isSyncing (b : bool) (q : SyncQueueService) : SyncQueueService :=
  mkSyncQueueService (maxRetries q) (retryDelayMs q) (maxConcurrentSync q)
    (syncIntervalMs q) (activeSyncCount q) (isOnline q) b.

(** [constructor(options = {})]; [online] is [navigator.onLine]. *)
Definition constructor (options : SyncQueueOptions) (online : bool)
    : SyncQueueService :=
  {| maxRetries := num_or (opt_maxRetries options) 3;
     retryDelayMs := num_or (opt_retryDelayMs options) 5000;
     maxConcurrentSync := num_or (opt_maxConcurrentSync options) 3;
     syncIntervalMs := num_or (opt_syncIntervalMs options) 30000;
     activeSyncCount := 0;
     isOnline := online;
     isSyncing := false |}.

Definition no_options : SyncQueueOptions := mkSyncQueueOptions None None None None.

(** [emit]: the event reaches the registered handlers, whose own
    exceptions are caught. *)
Definition emit (e : Event) : M unit := modify (with_emitted (fun l => l ++ [e])).

Definition this : M SyncQueueService := fun w => (Ok (queue w), w).

(** [{ ...operation, id, timestamp, status: 'pending', retryCount: 0 }] *)
Definition fullOperation (operation : QueueInput) (id : string) (timestamp : Z)
    : OfflineOperation :=
  {| op_id := id;
     op_type := qi_type operation;
     op_entityType := qi_entityType operation;
     op_entityId := qi_entityId operation;
     op_data := qi_data operation;
     op_timestamp := timestamp;
     op_userId := qi_userId operation;
     op_status := Pending;
     op_retryCount := 0;
     op_lastError := qi_lastError operation |}.

Definition operation_id (now : Z) (suffix : string) : string :=
  "op_" +:+ string_of_Z now +:+ "_" +:+ suffix.

Definition queueOperation (operation : QueueInput) : M string :=
  now ← Date_now;
  suffix ← Math_random_suffix;
  let id := operation_id now suffix in
  timestamp ← Date_now;
  let full := fullOperation operation id timestamp in
  OfflineStorage.saveOperation full;;
  emit (EvOperationQueued full);;
  q ← this;
  (if isOnline q && (activeSyncCount q <? maxConcurrentSync q)%Z
   then setImmediate TProcessPendingOperations
   else mret tt);;
  mret id.

(** The first [await] of [processOperation]: the write of 'syncing'. *)
Definition first_write (operation : OfflineOperation) : M unit :=
  OfflineStorage.updateOperation (op_id operation)
    (mkOperationPatch (Some Syncing) None (Some None)).

(** The call [this.processOperation(operation)] of the loop: the promise
    is created and its first write is made.  What follows that write
    runs when the promise settles ([settle]). *)
Definition start (operation : OfflineOperation) : M unit :=
  begun ← attempt (first_write operation);
  modify (with_promises (fun ps => ps ++ [mkStarted operation begun])).

(** The loop of [processPendingOperations]. *)
Fixpoint dispatch (allOps : list OfflineOperation) : M unit :=
  match allOps with
  | [] => mret tt
  | operation :: rest =>
      q ← this;
      if (maxConcurrentSync q <=? activeSyncCount q)%Z then mret tt
      else if (maxRetries q <=? op_retryCount operation)%Z then dispatch rest
      else
        modify (with_queue (with_activeSyncCount Z.succ));;
        start operation;;
        dispatch rest
  end.

Definition by_timestamp (a b : OfflineOperation) : Z :=
  (op_timestamp a - op_timestamp b)%Z.

Definition processPendingOperations : M unit :=
  q ← this;
  if negb (isOnline q) || isSyncing q then mret tt
  else
    modify (with_queue (with_isSyncing true));;
    emit EvSyncStarted;;
    try_finally
      (try_catch
         (pendingOps ← OfflineStorage.getOperations (Some Pending);
          failedOps ← OfflineStorage.getOperations (Some Failed);
          let allOps := js_sort by_timestamp (pendingOps ++ failedOps) in
          match allOps with
          | [] => emit (EvSyncCompleted true 0 None)
          | _ :: _ =>
              dispatch allOps;;
              emit (EvSyncCompleted true 0 (Some 0%Z))
          end)
         (fun e => emit (EvSyncError e)))
      (modify (with_queue (with_isSyncing false))).

Definition handleConflict (operation : OfflineOperation)
    (conflictData : option JsObject) : M SyncResult :=
  let conflicts :=
    [ {| cd_operationId := op_id operation;
         cd_localData := op_data operation;
         cd_remoteData := conflictData;
         cd_field := "content" |} ] in
  emit (EvConflict operation conflicts);;
  mret {| sr_success := false;
          sr_error := Some "Conflict detected";
          sr_conflicts := Some conflicts |}.

Definition success : SyncResult := mkSyncResult true None None.

Definition executeNoteOperation (type : OpType) (entityId : string)
    (data : JsObject) (userId : string) : M SyncResult :=
  match type with
  | OpCreate =>
      let createData :=
        [("title", js_get data "title");
         ("content", js_get data "content");
         ("folder_id", js_get data "folder_id")] in
      createdNote ← Api.notes_create createData;
      ContentStore.removeNote entityId;;
      ContentStore.addNote createdNote;;
      OfflineStorage.deleteNote entityId;;
      OfflineStorage.saveNote createdNote;;
      mret success
  | OpUpdate =>
      let updateData :=
        [("title", js_get data "title");
         ("content", js_get data "content");
         ("folder_id", js_get data "folder_id");
         ("version", js_get data "version")] in
      updatedNote ← Api.notes_update entityId updateData;
      ContentStore.updateNote entityId (patch_of_note updatedNote);;
      OfflineStorage.saveNote updatedNote;;
      mret success
  | OpDelete =>
      Api.notes_delete entityId;;
      ContentStore.removeNote entityId;;
      OfflineStorage.deleteNote entityId;;
      mret success
  | OpMove =>
      let moveData := [("folder_id", js_get data "folder_id")] in
      movedNote ← Api.notes_move entityId moveData;
      ContentStore.updateNote entityId (patch_of_note movedNote);;
      OfflineStorage.saveNote movedNote;;
      mret success
  end.

Definition executeFolderOperation (type : OpType) (entityId : string)
    (data : JsObject) (userId : string) : M SyncResult :=
  match type with
  | OpCreate =>
      let createData :=
        [("name", js_get data "name");
         ("parent_id", js_get data "parent_id")] in
      createdFolder ← Api.folders_create createData;
      ContentStore.removeFolder entityId;;
      ContentStore.addFolder createdFolder;;
      OfflineStorage.deleteFolder entityId;;
      OfflineStorage.saveFolder createdFolder;;
      mret success
  | OpUpdate =>
      let updateData :=
        [("name", js_get data "name");
         ("parent_id", js_get data "parent_id")] in
      updatedFolder ← Api.folders_update entityId updateData;
      ContentStore.updateFolder entityId (patch_of_folder updatedFolder);;
      OfflineStorage.saveFolder updatedFolder;;
      mret success
  | OpDelete =>
      Api.folders_delete entityId;;
      ContentStore.removeFolder entityId;;
      OfflineStorage.deleteFolder entityId;;
      mret success
  | OpMove =>
      let moveData := [("parent_id", js_get data "parent_id")] in
      movedFolder ← Api.folders_move entityId moveData;
      ContentStore.updateFolder entityId (patch_of_folder movedFolder);;
      OfflineStorage.saveFolder movedFolder;;
      mret success
  end.

Definition executeOperation (operation : OfflineOperation) : M SyncResult :=
  try_catch
    (match op_entityType operation with
     | EntNote =>
         executeNoteOperation (op_type operation) (op_entityId operation)
           (op_data operation) (op_userId operation)
     | EntFolder =>
         executeFolderOperation (op_type operation) (op_entityId operation)
           (op_data operation) (op_userId operation)
     end)
    (fun e =>
       if bool_decide (err_status e = Some 409%Z)
       then handleConflict operation (err_data e)
       else throw e).

(** [processOperation]; [begin] is its first [await]. *)
Definition processOperation_from (begin : M unit) (operation : OfflineOperation)
    : M unit :=
  try_catch
    (begin;;
     res ← executeOperation operation;
     if sr_success res then
       OfflineStorage.updateOperation (op_id operation)
         (mkOperationPatch (Some Synced) None None);;
       setTimeout (TDeleteOperation (op_id operation)) 60000
     else
       throw (Error (str_or (sr_error res) "Operation failed")))
    (fun e =>
       q ← this;
       let newRetryCount := (op_retryCount operation + 1)%Z in
       let status :=
         if (maxRetries q <=? newRetryCount)%Z then Failed else Pending in
       OfflineStorage.updateOperation (op_id operation)
         (mkOperationPatch (Some status) (Some newRetryCount)
            (Some (Some (err_message e))));;
       (if bool_decide (status = Pending)
        then setTimeout TProcessPendingOperations (retryDelayMs q * newRetryCount)
        else mret tt);;
       throw e).

Definition processOperation (operation : OfflineOperation) : M unit :=
  processOperation_from (first_write operation) operation.

Fixpoint remove_started (s : Started) (l : list Started) : list Started :=
  match l with
  | [] => []
  | x :: l' => if decide (x = s) then l' else x :: remove_started s l'
  end.

(** A started promise settles: [processOperation] goes on from its
    first write, and the chain [.then(..).catch(..).finally(..)]
    attached to it runs. *)
Definition settle (s : Started) : M unit :=
  let operation := st_operation s in
  try_finally
    (try_catch
       (processOperation_from (replay (st_begun s)) operation;;
        emit (EvOperationSynced operation))
       (fun e => emit (EvOperationFailed operation e)))
    (modify (with_queue (with_activeSyncCount Z.pred));;
     modify (with_promises (remove_started s))).

(** [String.prototype.includes] *)
Fixpoint includes (s sub : string) : bool :=
  String.prefix sub s ||
  match s with
  | EmptyString => false
  | String _ s' => includes s' sub
  end.

Definition resolvePendingConflicts : M unit :=
  failedOps ← OfflineStorage.getOperations (Some Failed);
  let conflictOps :=
    List.filter (fun op =>
      match op_lastError op with
      | Some m => includes m "conflict"
      | None => false
      end) failedOps in
  modify (with_emitted (fun l => l ++
    ((fun operation =>
        EvConflict operation
          [ {| cd_operationId := op_id operation;
               cd_localData := op_data operation;
               cd_remoteData := None;
               cd_field := "content" |} ]) <$> conflictOps))).

Definition retryOperation (operationId : string) : M unit :=
  ops ← OfflineStorage.getOperations None;
  match List.find (fun op => String.eqb (op_id op) operationId) ops with
  | None => throw (Error "Operation not found")
  | Some _ =>
      OfflineStorage.updateOperation operationId
        (mkOperationPatch (Some Pending) (Some 0%Z) (Some None));;
      q ← this;
      if isOnline q then processPendingOperations else mret tt
  end.

Definition cancelOperation (operationId : string) : M unit :=
  ops ← OfflineStorage.getOperations None;
  match List.find (fun op => String.eqb (op_id op) operationId) ops with
  | Some operation =>
      match op_type operation, op_entityType operation with
      | OpCreate, EntNote =>
          ContentStore.removeNote (op_entityId operation);;
          OfflineStorage.deleteNote (op_entityId operation)
      | OpCreate, EntFolder =>
          ContentStore.removeFolder (op_entityId operation);;
          OfflineStorage.deleteFolder (op_entityId operation)
      | _, _ => mret tt
      end
  | None => mret tt
  end;;
  OfflineStorage.deleteOperation operationId;;
  emit (EvOperationCancelled operationId).

Definition clearFailedOperations : M unit :=
  failedOps ← OfflineStorage.getOperations (Some Failed);
  forEach (fun operation => OfflineStorage.deleteOperation (op_id operation)) failedOps;;
  emit (EvFailedOperationsCleared (Z.of_nat (length failedOps))).

(** The [online] and [offline] listeners of the window. *)
Definition on_online : M unit :=
  modify (with_queue (with_isOnline true));;
  emit EvOnline;;
  processPendingOperations.

Definition on_offline : M unit :=
  modify (with_queue (with_isOnline false));;
  emit EvOffline.

Record SyncStats := mkSyncStats {
  pendingOperations : Z;
  failedOperations : Z;
  lastSyncTime : option Z;
  stats_isOnline : bool;
  stats_isSyncing : bool
}.

Definition getSyncStats : M SyncStats :=
  pendingOps ← OfflineStorage.getOperations (Some Pending);
  failedOps ← OfflineStorage.getOperations (Some Failed);
  lastSyncTime ← OfflineStorage.getMetadata "lastSyncTime";
  q ← this;
  mret {| pendingOperations := Z.of_nat (length pendingOps);
          failedOperations := Z.of_nat (length failedOps);
          lastSyncTime := lastSyncTime;
          stats_isOnline := isOnline q;
          stats_isSyncing := isSyncing q |}.

(** The events of [fullSync], which are not among [Event]. *)
Inductive FullSyncEvent :=
| EvFullSyncStarted
| EvFullSyncCompleted (notesCount foldersCount : Z)
| EvFullSyncError (error : JsError).

(** [fullSync]: the events it emits, in order, what its promise settles
    with, and the world it leaves.  Both list calls are made before
    either is awaited; [notes_first] tells which of them is answered
    first, which decides the error when both fail. *)
Definition fullSync (notes_first : bool) (w : World)
    : list FullSyncEvent * option (Outcome unit) * World :=
  if negb (isOnline (queue w))
  then ([], Some (Throw (Error "Cannot sync while offline")), w)
  else
    let failed (e : JsError) (w' : World) :=
      ([EvFullSyncStarted; EvFullSyncError e], Some (Throw e), w') in
    let '(notes_answer, w1) := Api.notes_list w in
    let '(folders_answer, w2) := Api.folders_list w1 in
    match notes_answer, folders_answer with
    | Throw e1, Throw e2 => failed (if notes_first then e1 else e2) w2
    | Throw e, Ok _ => failed e w2
    | Ok _, Throw e => failed e w2
    | Ok remoteNotes, Ok remoteFolders =>
        let w3 :=
          exec (ContentStore.setNotes remoteNotes;;
                ContentStore.setFolders remoteFolders) w2 in
        match
          Promise_all
            [OfflineStorage.saveNotes remoteNotes;
             OfflineStorage.saveFolders remoteFolders;
             settles (now ← Date_now;
                      OfflineStorage.setMetadata "lastSyncTime" now)] w3
        with
        | (None, w4) => ([EvFullSyncStarted], None, w4)
        | (Some (Throw e), w4) => failed e w4
        | (Some (Ok _), w4) =>
            match
              (processPendingOperations;;
               OfflineStorage.clearSyncedOperations) w4
            with
            | (Throw e, w5) => failed e w5
            | (Ok _, w5) =>
                ([EvFullSyncStarted;
                  EvFullSyncCompleted (Z.of_nat (length remoteNotes))
                    (Z.of_nat (length remoteFolders))],
                 Some (Ok tt), w5)
            end
        end
    end.

(** The callback of [setInterval] in [startPeriodicSync]. *)
Definition on_interval : M unit :=
  q ← this;
  if isOnline q && negb (isSyncing q) then processPendingOperations else mret tt.

(** The [visibilitychange] listener; [visible] is
    [document.visibilityState === 'visible']. *)
Definition on_visibilitychange (visible : bool) : M unit :=
  q ← this;
  if visible && isOnline q then processPendingOperations else mret tt.

(** The subscription to [isAuthenticated] at the end of the module. *)
Definition on_authenticated (isAuthenticated : bool) : M unit :=
  if isAuthenticated then setTimeout TProcessPendingOperations 1000 else mret tt.

End SyncQueue.

(** ** [services/websocket.ts] *)

Module WebSocket.

Record NoteUpdateMessage := mkNoteUpdateMessage {
  num_note_id : string;
  num_title : option string;
  num_content : option string;
  num_version : Z;
  num_user_id : string;
  num_operation : OpType
}.

Record FolderUpdateMessage := mkFolderUpdateMessage {
  fum_folder_id : string;
  fum_name : option string;
  fum_parent_id : option (option string);
  fum_user_id : string;
  fum_operation : OpType
}.

Record SyncMessage := mkSyncMessage {
  sm_entity_type : EntityType;
  sm_entity_id : string;
  sm_operation : OpType;
  sm_data : JsObject;
  sm_version : option Z;
  sm_conflict : option bool
}.

(** A store action that returns a promise nobody awaits: its effects
    happen, its rejection reaches no one. *)
Definition unawaited (m : M unit) : M unit := fun w => (Ok tt, snd (m w)).

(** [data.user_id === authStore.user?.id] *)
Definition is_local_user (user_id : string) (w : World) : bool :=
  match auth_user_id w with
  | Some u => String.eqb user_id u
  | None => false
  end.

Definition handleNoteUpdate (data : NoteUpdateMessage) : M unit :=
  w ← get_world;
  if is_local_user (num_user_id data) w then mret tt
  else
    match num_operation data with
    | OpCreate => unawaited ContentStore.syncNotes
    | OpUpdate =>
        match notes (content w) !! num_note_id data with
        | Some currentNote =>
            if (note_version currentNote <? num_version data)%Z
            then unawaited ContentStore.syncNotes
            else mret tt
        | None => mret tt
        end
    | OpDelete => ContentStore.removeNote (num_note_id data)
    | OpMove => unawaited ContentStore.syncNotes
    end.

Definition handleFolderUpdate (data : FolderUpdateMessage) : M unit :=
  w ← get_world;
  if is_local_user (fum_user_id data) w then mret tt
  else
    match fum_operation data with
    | OpCreate | OpUpdate | OpDelete | OpMove => unawaited ContentStore.syncFolders
    end.

Definition handleSync (data : SyncMessage) : M unit :=
  match sm_conflict data with
  | Some true =>
      now ← Date_now;
      ContentStore.addOptimisticOp
        (ContentStore.mkOptimisticOpInput ("conflict_" +:+ string_of_Z now)
           (sm_operation data) (sm_entity_type data) (sm_entity_id data)
           None (Some (DObject (sm_data data))) OptError
           (Some "Sync conflict detected"))
  | _ =>
      match sm_entity_type data with
      | EntNote => unawaited ContentStore.syncNotes
      | EntFolder => unawaited ContentStore.syncFolders
      end
  end.

(** *** The connection ([WebSocketService]) *)

Record WebSocketOptions := mkWebSocketOptions {
  wo_url : option string;
  wo_reconnectAttempts : option Z;
  wo_reconnectInterval : option Z;
  wo_heartbeatInterval : option Z;
  wo_connectionTimeout : option Z
}.

(** The fields of the service.  Of [ws], [heartbeatTimer] and
    [connectionTimer] only whether they are set is kept. *)
Record WebSocketService := mkWebSocketService {
  url : string;
  reconnectAttempts : Z;
  maxReconnectAttempts : Z;
  reconnectInterval : Z;
  heartbeatInterval : Z;
  connectionTimeout : Z;
  isConnected : bool;
  isConnecting : bool;
  shouldReconnect : bool;
  ws : bool;
  heartbeatTimer : bool;
  connectionTimer : bool
}.

(** [constructor(options = {})]; [env_url] is
    [process.env.NEXT_PUBLIC_WS_URL]. *)
Definition ws_constructor (options : WebSocketOptions) (env_url : option string)
    : WebSocketService :=
  {| url := str_or (wo_url options) (str_or env_url "ws://localhost:3001/ws");
     reconnectAttempts := 0;
     maxReconnectAttempts := num_or (wo_reconnectAttempts options) 5;
     reconnectInterval := num_or (wo_reconnectInterval options) 3000;
     heartbeatInterval := num_or (wo_heartbeatInterval options) 30000;
     connectionTimeout := num_or (wo_connectionTimeout options) 10000;
     isConnected := false;
     isConnecting := false;
     shouldReconnect := true;
     ws := false;
     heartbeatTimer := false;
     connectionTimer := false |}.

Inductive WsCallback := ConnectionTimeout | Reconnect | Heartbeat.

Inductive WsEvent :=
| EvConnect
| EvDisconnect (code : Z) (reason : string)
| EvError.

(** What the service does to the browser and to its listeners. *)
Inductive Effect :=
| NewWebSocket (wsUrl : string)
| Close
| SetTimeout (callback : WsCallback) (delay : Z)
| ClearTimeout
| SetInterval (callback : WsCallback) (delay : Z)
| ClearInterval
| Emit (event : WsEvent)
| SendPing.

(** The promise [connect] returns, as it is when [connect] returns. *)
Inductive Connecting :=
| Resolved
| Rejected (e : JsError)
| Waiting.

Definition with_flags (connected connecting : bool) (s : WebSocketService)
    : WebSocketService :=
  mkWebSocketService (url s) (reconnectAttempts s) (maxReconnectAttempts s)
    (reconnectInterval s) (heartbeatInterval s) (connectionTimeout s)
    connected connecting (shouldReconnect s) (ws s) (heartbeatTimer s)
    (connectionTimer s).

Definition with_reconnectAttempts (n : Z) (s : WebSocketService)
    : WebSocketService :=
  mkWebSocketService (url s) n (maxReconnectAttempts s)
    (reconnectInterval s) (heartbeatInterval s) (connectionTimeout s)
    (isConnected s) (isConnecting s) (shouldReconnect s) (ws s) (heartbeatTimer s)
    (connectionTimer s).

Definition with_shouldReconnect (b : bool) (s : WebSocketService)
    : WebSocketService :=
  mkWebSocketService (url s) (reconnectAttempts s) (maxReconnectAttempts s)
    (reconnectInterval s) (heartbeatInterval s) (connectionTimeout s)
    (isConnected s) (isConnecting s) b (ws s) (heartbeatTimer s)
    (connectionTimer s).

Definition with_handles (socket heartbeat connection : bool) (s : WebSocketService)
    : WebSocketService :=
  mkWebSocketService (url s) (reconnectAttempts s) (maxReconnectAttempts s)
    (reconnectInterval s) (heartbeatInterval s) (connectionTimeout s)
    (isConnected s) (isConnecting s) (shouldReconnect s) socket heartbeat
    connection.

(** [connect()].  [accessToken] is the token of the auth store;
    [refused] is the exception [new WebSocket(wsUrl)] throws, if it does. *)
Definition connect (accessToken : option string) (refused : option JsError)
    (s : WebSocketService) : Connecting * WebSocketService * list Effect :=
  if isConnected s || isConnecting s then (Resolved, s, [])
  else
    let s1 := with_flags (isConnected s) true s in
    if String.eqb (str_or accessToken "") ""
    then (Rejected (Error "No access token available"), s1, [])
    else
      let wsUrl := url s +:+ "?token=" +:+ str_or accessToken "" in
      match refused with
      | Some e => (Rejected e, with_flags (isConnected s) false s1, [])
      | None =>
          (Waiting,
           with_handles true (heartbeatTimer s1) true s1,
           [NewWebSocket wsUrl;
            SetTimeout ConnectionTimeout (connectionTimeout s)])
      end.

(** The callback of the connection timer; [connecting] is
    [this.ws.readyState === WebSocket.CONNECTING]. *)
Definition on_connection_timeout (connecting : bool) (s : WebSocketService)
    : WebSocketService * list Effect :=
  (s, if ws s && connecting then [Close] else []).

Definition startHeartbeat (s : WebSocketService) : WebSocketService * list Effect :=
  (with_handles (ws s) true (connectionTimer s) s,
   (if heartbeatTimer s then [ClearInterval] else []) ++
   [SetInterval Heartbeat (heartbeatInterval s)]).

Definition stopHeartbeat (s : WebSocketService) : WebSocketService * list Effect :=
  if heartbeatTimer s
  then (with_handles (ws s) false (connectionTimer s) s, [ClearInterval])
  else (s, []).

Definition clearConnectionTimer (s : WebSocketService)
    : WebSocketService * list Effect :=
  if connectionTimer s
  then (with_handles (ws s) (heartbeatTimer s) false s, [ClearTimeout])
  else (s, []).

(** [ws.onopen] *)
Definition onopen (s : WebSocketService) : WebSocketService * list Effect :=
  let s1 := with_reconnectAttempts 0 (with_flags true false s) in
  let '(s2, e2) := clearConnectionTimer s1 in
  let '(s3, e3) := startHeartbeat s2 in
  (s3, e2 ++ e3 ++ [Emit EvConnect]).

(** [ws.onclose] *)
Definition onclose (code : Z) (reason : string) (s : WebSocketService)
    : WebSocketService * list Effect :=
  let s1 := with_flags false false s in
  let '(s2, e2) := stopHeartbeat s1 in
  let '(s3, e3) := clearConnectionTimer s2 in
  (s3,
   e2 ++ e3 ++ [Emit (EvDisconnect code reason)] ++
   (if shouldReconnect s3 && (reconnectAttempts s3 <? maxReconnectAttempts s3)%Z
    then [SetTimeout Reconnect (reconnectInterval s3 * reconnectAttempts s3)]
    else [])).

(** [ws.onerror]: the event is passed on; the promise of [connect], if
    it is still pending, is rejected. *)
Definition onerror (s : WebSocketService) : WebSocketService * list Effect :=
  (s, [Emit EvError]).

(** The callback of the reconnection timer. *)
Definition on_reconnect (accessToken : option string) (refused : option JsError)
    (s : WebSocketService) : WebSocketService * list Effect :=
  let '(_, s', e) :=
    connect accessToken refused
      (with_reconnectAttempts (reconnectAttempts s + 1) s) in
  (s', e).

(** [disconnect()] *)
Definition disconnect (s : WebSocketService) : WebSocketService * list Effect :=
  let s1 := with_shouldReconnect false s in
  let e1 := if ws s1 then [Close] else [] in
  let '(s2, e2) := stopHeartbeat s1 in
  let '(s3, e3) := clearConnectionTimer s2 in
  (s3, e1 ++ e2 ++ e3).

(** The callback of the heartbeat: when connected, [ws.send] is called
    with a ping. *)
Definition on_heartbeat (s : WebSocketService) : WebSocketService * list Effect :=
  (s, if isConnected s && ws s then [SendPing] else []).

Inductive ConnectionState := StConnecting | StConnected | StDisconnected.

Definition getConnectionState (s : WebSocketService) : ConnectionState :=
  if isConnecting s then StConnecting
  else if isConnected s then StConnected
  else StDisconnected.

(** The listeners of the window at the end of the module: [online]
    connects when the user is signed in, [offline] and [beforeunload]
    disconnect, and so does signing out. *)
Definition on_window_online (isAuthenticated : bool) (accessToken : option string)
    (refused : option JsError) (s : WebSocketService)
    : WebSocketService * list Effect :=
  if isAuthenticated
  then let '(_, s', e) := connect accessToken refused s in (s', e)
  else (s, []).

Definition on_window_offline (s : WebSocketService)
    : WebSocketService * list Effect :=
  disconnect s.

End WebSocket.

(** ** The transport of [services/api.ts] ([ApiClient.request]) *)

Module ApiClient.

(** Truthiness and [String(v)] of the values a token can be at run time. *)
Definition truthy (v : JsVal) : bool :=
  match v with
  | JString s => negb (String.eqb s "")
  | JNumber n => negb (n =? 0)%Z
  | JNull | JUndefined => false
  end.

Definition to_string (v : JsVal) : string :=
  match v with
  | JString s => s
  | JNumber n => string_of_Z n
  | JNull => "null"
  | JUndefined => "undefined"
  end.

(** What [fetch] resolves with.  [json] is what [response.json()] gives:
    an object with primitive properties, or [None] when it throws. *)
Record Response := mkResponse {
  status : Z;
  statusText : string;
  json : option JsObject
}.

(** [response.ok] *)
Definition ok (r : Response) : bool :=
  (200 <=? status r)%Z && (status r <=? 299)%Z.

(** The server and the network: the answer to a request, given the
    requests made before; [None] when [fetch] rejects. *)
Definition Server : Type := list HttpRequest -> HttpRequest -> option Response.

(** The fields of the client, [localStorage], and the calls of [fetch] so
    far.  [window] tells that the code runs in a browser. *)
Record Client := mkClient {
  accessToken : JsVal;
  refreshToken : JsVal;
  window : bool;
  localStorage : gmap string string;
  fetched : list HttpRequest
}.

(** [constructor]: the tokens are read from [localStorage]. *)
Definition constructor (window : bool) (localStorage : gmap string string) : Client :=
  {| accessToken :=
       if window then js_nullable (localStorage !! "access_token") else JNull;
     refreshToken :=
       if window then js_nullable (localStorage !! "refresh_token") else JNull;
     window := window;
     localStorage := localStorage;
     fetched := [] |}.

Definition setTokens (access refresh : JsVal) (c : Client) : Client :=
  {| accessToken := access;
     refreshToken := refresh;
     window := window c;
     localStorage :=
       if window c
       then <["refresh_token" := to_string refresh]>
              (<["access_token" := to_string access]> (localStorage c))
       else localStorage c;
     fetched := fetched c |}.

Definition clearTokens (c : Client) : Client :=
  {| accessToken := JNull;
     refreshToken := JNull;
     window := window c;
     localStorage :=
       if window c
       then delete "refresh_token" (delete "access_token" (localStorage c))
       else localStorage c;
     fetched := fetched c |}.

Definition isAuthenticated (c : Client) : bool := truthy (accessToken c).

Definition setAuthToken (access refresh : string) (c : Client) : Client :=
  setTokens (JString access) (JString refresh) c.

Definition clearAuth (c : Client) : Client := clearTokens c.

(** The request [fetch] is called with: the content type, the caller's
    method and body, and the bearer token when there is one. *)
Definition config (method : HttpMethod) (endpoint : string) (body : option JsObject)
    (c : Client) : HttpRequest :=
  Api.build_request method endpoint body
    (if truthy (accessToken c) then Some (to_string (accessToken c)) else None).

(** The request of the second attempt: the [Authorization] header is set
    from the token as it is after the refresh, whatever it is. *)
Definition retry_config (method : HttpMethod) (endpoint : string)
    (body : option JsObject) (c : Client) : HttpRequest :=
  Api.build_request method endpoint body (Some (to_string (accessToken c))).

(** [await fetch(url, config)] *)
Definition fetch (server : Server) (r : HttpRequest) (c : Client)
    : option Response * Client :=
  (server (fetched c) r,
   mkClient (accessToken c) (refreshToken c) (window c) (localStorage c)
     (fetched c ++ [r])).

(** [new ApiError('Network error', 0, error)]; the exception it carries
    as data is not kept. *)
Definition network_error : JsError := mkJsError "Network error" (Some 0%Z) None.

(** [errorData.error || `HTTP ${response.status}`], as the message of an
    error. *)
Definition message_of (errorData : JsObject) (status : Z) : string :=
  if truthy (js_get errorData "error") then to_string (js_get errorData "error")
  else "HTTP " +:+ string_of_Z status.

(** [request], with the call of [refreshAccessToken] in it.  The two call
    each other; [fuel] bounds the depth, and [None] tells that it did not
    suffice. *)
Fixpoint request (fuel : nat) (server : Server) (method : HttpMethod)
    (endpoint : string) (body : option JsObject) (c : Client)
    : option (Outcome (option JsObject) * Client) :=
  match fuel with
  | O => None
  | S fuel' =>
      let '(answer, c1) := fetch server (config method endpoint body c) c in
      match answer with
      | None => Some (Throw network_error, c1)
      | Some response =>
          if ok response then
            if (status response =? 204)%Z then Some (Ok None, c1)
            else
              match json response with
              | Some value => Some (Ok (Some value), c1)
              | None => Some (Throw network_error, c1)
              end
          else
            let errorData :=
              default [("error", JString (statusText response))] (json response) in
            let failure :=
              ApiError (message_of errorData (status response)) (status response)
                errorData in
            let authentication_failed (c' : Client) :=
              Some (Throw (ApiError "Authentication failed" 401 errorData),
                    clearTokens c') in
            if (status response =? 401)%Z && truthy (refreshToken c1) then
              match
                request fuel' server POST "/auth/refresh"
                  (Some [("refresh_token", refreshToken c1)]) c1
              with
              | None => None
              | Some (Throw _, c2) => authentication_failed c2
              | Some (Ok None, c2) => authentication_failed c2
              | Some (Ok (Some tokens), c2) =>
                  let c3 :=
                    setTokens (js_get tokens "access_token")
                      (js_get tokens "refresh_token") c2 in
                  let '(retry, c4) :=
                    fetch server (retry_config method endpoint body c3) c3 in
                  match retry with
                  | None => authentication_failed c4
                  | Some retryResponse =>
                      if ok retryResponse then
                        match json retryResponse with
                        | Some value => Some (Ok (Some value), c4)
                        | None => authentication_failed c4
                        end
                      else Some (Throw failure, c4)
                  end
              end
            else Some (Throw failure, c1)
      end
  end.

(** [auth.logout]: the tokens are cleared in the [finally], whatever the
    request did. *)
Definition logout (fuel : nat) (server : Server) (c : Client)
    : option (Outcome unit * Client) :=
  match request fuel server POST "/auth/logout" None c with
  | None => None
  | Some (Ok _, c') => Some (Ok tt, clearTokens c')
  | Some (Throw e, c') => Some (Throw e, clearTokens c')
  end.

End ApiClient.

(** * Identifiers *)

(** [s] holds no underscore. *)
Fixpoint no_underscore (s : string) : bool :=
  match s with
  | EmptyString => true
  | String c s' => negb (Ascii.eqb c "_") && no_underscore s'
  end.

(** The identifier [generateId] returns at the [k]-th draw after now. *)
Definition temp_id (w : World) (k : nat) : string :=
  "temp_" +:+ string_of_Z (rt_now (runtime w)) +:+ "_" +:+
  rt_random (runtime w) (random_next w + k).

(** * What a computation leaves alone *)

(** [m] leaves the component [proj] of the world alone. *)
Definition keeps {X A} (proj : World -> X) (m : M A) : Prop :=
  forall w, proj (snd (m w)) = proj w.

(** The counters of the queue service and the promises in flight. *)
Definition load (w : World) : Z * Z * Z * list OfflineOperation :=
  (activeSyncCount (queue w), maxConcurrentSync (queue w), maxRetries (queue w),
   running w).

(** All that a drain and the bookkeeping of [processOperation] read and
    write: the log, the timers, the queue service, the promises in
    flight. *)
Definition log_view (w : World) :=
  (db_available (offline w), db_operations (offline w), timers w, queue w, running w).

(** * Draining the log *)

(** What [getOperations] returns for a status. *)
Definition operations_with (s : OpStatus) (w : World) : list OfflineOperation :=
  List.filter (fun o => bool_decide (op_status o = s))
    (OfflineStorage.store_getAll (db_operations (offline w))).

(** [a] was created no later than [b]. *)
Definition older (a b : OfflineOperation) : Prop :=
  (op_timestamp a <= op_timestamp b)%Z.

(** The [allOperations] of [processPendingOperations]: pending then
    failed operations, sorted by timestamp. *)
Definition candidates (w : World) : list OfflineOperation :=
  js_sort SyncQueue.by_timestamp (operations_with Pending w ++ operations_with Failed w).

(** The operation has not used up its retries: the loop of
    [processPendingOperations] does not skip it. *)
Definition retryable (q : SyncQueueService) (o : OfflineOperation) : bool :=
  (op_retryCount o <? maxRetries q)%Z.

(** How many more operations may be started before [activeSyncCount]
    reaches [maxConcurrentSync]. *)
Definition capacity (q : SyncQueueService) : nat :=
  Z.to_nat (maxConcurrentSync q - activeSyncCount q).

(** The operations the loop of [processPendingOperations] starts from
    [allOps]: the first retryable ones that fit. *)
Definition selected (q : SyncQueueService) (allOps : list OfflineOperation)
    : list OfflineOperation :=
  firstn (capacity q) (List.filter (retryable q) allOps).

(** What one call of [processPendingOperations] starts. *)
Definition drain_selection (w : World) : list OfflineOperation :=
  if isOnline (queue w) && negb (isSyncing (queue w)) && db_available (offline w)
  then selected (queue w) (candidates w)
  else [].

(** The error of [getObjectStore] when no handle of the database can be
    obtained: [indexedDB.open] fails, or the window has no IndexedDB. *)
Definition open_error (d : OfflineDB) : JsError :=
  if db_open_fails d then Error "Failed to open IndexedDB"
  else Error "Database not initialized".

(** The world once the operations [sel] have been started: they are in
    flight and counted. *)
Definition started (sel : list OfflineOperation) (w : World) : World :=
  foldl (fun acc o =>
           exec (SyncQueue.start o)
             (with_queue (SyncQueue.with_activeSyncCount Z.succ) acc)) w sel.

(** A drain adds to [running] what it starts, counts it in
    [activeSyncCount], and starts no more than there is room for. *)
Definition grows (w w' : World) : Prop :=
  exists sel,
    running w' = running w ++ sel /\
    activeSyncCount (queue w') = (activeSyncCount (queue w) + Z.of_nat (length sel))%Z /\
    maxConcurrentSync (queue w') = maxConcurrentSync (queue w) /\
    maxRetries (queue w') = maxRetries (queue w) /\
    (length sel <= capacity (queue w))%nat.

(** The same operation aimed at another entity. *)
Definition retarget (f : string -> string) (o : OfflineOperation) : OfflineOperation :=
  mkOfflineOperation (op_id o) (op_type o) (op_entityType o) (f (op_entityId o))
    (op_data o) (op_timestamp o) (op_userId o) (op_status o) (op_retryCount o)
    (op_lastError o).

(** * The client as a transition system *)


(** A callback of [setTimeout] runs. *)
Definition fire (a : TimerAction) : M unit :=
  match a with
  | TProcessPendingOperations => SyncQueue.processPendingOperations
  | TDeleteOperation id =>
      try_catch (OfflineStorage.deleteOperation id) (fun _ => mret tt)
  | TRemoveOptimisticOp id => ContentStore.removeOptimisticOp id
  end.

(** A call whose result the caller drops. *)
Definition discard {A} (m : M A) : M unit := m ≫= fun _ => mret tt.

(** What can happen next in the client: a call of one of the entry
    points, a timer, a notification, the settling of a started promise. *)
Inductive Action :=
| AQueueOperation (operation : QueueInput)
| AProcessPendingOperations
| ASettle (s : Started)
| ARetryOperation (operationId : string)
| ACancelOperation (operationId : string)
| AResolvePendingConflicts
| AClearFailedOperations
| AOnline
| AOffline
| ATimer (i : nat)
| ANoteUpdate (data : WebSocket.NoteUpdateMessage)
| AFolderUpdate (data : WebSocket.FolderUpdateMessage)
| ASync (data : WebSocket.SyncMessage)
| ACreateNote (data : CreateNoteRequest)
| AUpdateNote (id : string) (data : UpdateNoteRequest)
| ADeleteNote (id : string)
| AMoveNote (id : string) (folderId : option string)
| ACreateFolder (data : CreateFolderRequest)
| AUpdateFolder (id : string) (data : UpdateFolderRequest)
| ADeleteFolder (id : string)
| AMoveFolder (id : string) (parentId : option string)
| AResolveConflict (opId : string) (resolution : ContentStore.Resolution).

(** What an action runs.  [fullSync] is left out: it reaches the queue
    through [processPendingOperations] only, which is an action of its
    own. *)
Definition perform (a : Action) : M unit :=
  match a with
  | AQueueOperation operation => discard (SyncQueue.queueOperation operation)
  | AProcessPendingOperations => SyncQueue.processPendingOperations
  | ASettle s => SyncQueue.settle s
  | ARetryOperation operationId => SyncQueue.retryOperation operationId
  | ACancelOperation operationId => SyncQueue.cancelOperation operationId
  | AResolvePendingConflicts => SyncQueue.resolvePendingConflicts
  | AClearFailedOperations => SyncQueue.clearFailedOperations
  | AOnline => SyncQueue.on_online
  | AOffline => SyncQueue.on_offline
  | ATimer i => fun w =>
      match timers w !! i with
      | Some t => fire (t_action t) (with_timers (delete i) w)
      | None => (Ok tt, w)
      end
  | ANoteUpdate data => WebSocket.handleNoteUpdate data
  | AFolderUpdate data => WebSocket.handleFolderUpdate data
  | ASync data => WebSocket.handleSync data
  | ACreateNote data => discard (ContentStore.createNoteOptimistic data)
  | AUpdateNote id data => discard (ContentStore.updateNoteOptimistic id data)
  | ADeleteNote id => ContentStore.deleteNoteOptimistic id
  | AMoveNote id folderId => discard (ContentStore.moveNoteOptimistic id folderId)
  | ACreateFolder data => discard (ContentStore.createFolderOptimistic data)
  | AUpdateFolder id data => discard (ContentStore.updateFolderOptimistic id data)
  | ADeleteFolder id => ContentStore.deleteFolderOptimistic id
  | AMoveFolder id parentId => discard (ContentStore.moveFolderOptimistic id parentId)
  | AResolveConflict opId resolution => ContentStore.resolveConflict opId resolution
  end.





(** The number of started promises that have not settled. *)
Definition in_flight (w : World) : nat := length (running w).

(** [activeSyncCount] counts the promises in flight and is within
    [maxConcurrentSync]. *)
Definition balanced (w : World) : Prop :=
  Z.of_nat (in_flight w) = activeSyncCount (queue w) /\
  (activeSyncCount (queue w) <= maxConcurrentSync (queue w))%Z.

(** The actions of [l] one after the other. *)
Definition run_actions (l : list Action) (w : World) : World :=
  foldl (fun acc a => exec (perform a) acc) w l.

(** * Processing one operation *)

(** Every record of the log sits under its own [id] (the key path of the
    object store). *)
Definition keyed (m : gmap string OfflineOperation) : Prop :=
  map_Forall (fun k o => op_id o = k) m.

(** [store.put] on the operation log. *)
Definition put_operation (o : OfflineOperation) (w : World) : World :=
  with_offline (OfflineStorage.with_operations (insert (op_id o) o)) w.

(** The [createData] objects [executeNoteOperation] and
    [executeFolderOperation] build from a payload. *)
Definition note_createData (data : JsObject) : JsObject :=
  [("title", js_get data "title");
   ("content", js_get data "content");
   ("folder_id", js_get data "folder_id")].

Definition folder_createData (data : JsObject) : JsObject :=
  [("name", js_get data "name");
   ("parent_id", js_get data "parent_id")].

(** The answer of the Remote Service to the one call [operation] issues. *)
Definition remote_call (operation : OfflineOperation) (r : Remote) : option JsError :=
  let data := op_data operation in
  let id := op_entityId operation in
  let rejection {T} (a : JsError + T) : option JsError :=
    match a with inl e => Some e | inr _ => None end in
  match op_entityType operation, op_type operation with
  | EntNote, OpCreate =>
      rejection (remote_notes_create r
        [("title", js_get data "title"); ("content", js_get data "content");
         ("folder_id", js_get data "folder_id")])
  | EntNote, OpUpdate =>
      rejection (remote_notes_update r id
        [("title", js_get data "title"); ("content", js_get data "content");
         ("folder_id", js_get data "folder_id"); ("version", js_get data "version")])
  | EntNote, OpDelete => rejection (remote_notes_delete r id)
  | EntNote, OpMove =>
      rejection (remote_notes_move r id [("folder_id", js_get data "folder_id")])
  | EntFolder, OpCreate =>
      rejection (remote_folders_create r
        [("name", js_get data "name"); ("parent_id", js_get data "parent_id")])
  | EntFolder, OpUpdate =>
      rejection (remote_folders_update r id
        [("name", js_get data "name"); ("parent_id", js_get data "parent_id")])
  | EntFolder, OpDelete => rejection (remote_folders_delete r id)
  | EntFolder, OpMove =>
      rejection (remote_folders_move r id [("parent_id", js_get data "parent_id")])
  end.

(** What [processOperation] throws for an outcome of [executeOperation]. *)
Definition failure (r : Outcome SyncResult) : option JsError :=
  match r with
  | Ok res =>
      if sr_success res then None
      else Some (Error (str_or (sr_error res) "Operation failed"))
  | Throw e => Some e
  end.

(** The rejection has status 409. *)
Definition is_conflict (e : JsError) : bool := bool_decide (err_status e = Some 409%Z).

(** The one conflict [handleConflict] builds. *)
Definition conflict_of (operation : OfflineOperation) (e : JsError) : ConflictData :=
  {| cd_operationId := op_id operation;
     cd_localData := op_data operation;
     cd_remoteData := err_data e;
     cd_field := "content" |}.

(** What [handleConflict] returns. *)
Definition conflict_result (operation : OfflineOperation) (e : JsError) : SyncResult :=
  {| sr_success := false;
     sr_error := Some "Conflict detected";
     sr_conflicts := Some [conflict_of operation e] |}.

(** The updates [processOperation] writes before and after a successful
    call. *)
Definition mark_syncing : OperationPatch := mkOperationPatch (Some Syncing) None (Some None).
Definition mark_synced : OperationPatch := mkOperationPatch (Some Synced) None None.

(** The status [processOperation] writes after a failure: [Failed] once
    the new retry count reaches [maxRetries]. *)
Definition status_after_failure (q : SyncQueueService) (operation : OfflineOperation)
    : OpStatus :=
  if (maxRetries q <=? op_retryCount operation + 1)%Z then Failed else Pending.

(** The update [processOperation] writes in its [catch]. *)
Definition mark_failed (q : SyncQueueService) (operation : OfflineOperation)
    (e : JsError) : OperationPatch :=
  mkOperationPatch (Some (status_after_failure q operation))
    (Some (op_retryCount operation + 1)%Z) (Some (Some (err_message e))).

(** The timer [processOperation] sets for another attempt. *)
Definition retry_timer (q : SyncQueueService) (operation : OfflineOperation) : Timer :=
  mkTimer (Some (retryDelayMs q * (op_retryCount operation + 1))%Z)
    TProcessPendingOperations.

(** The timers a failure adds: one below [maxRetries], none from there
    on. *)
Definition retry_timers (q : SyncQueueService) (operation : OfflineOperation)
    : list Timer :=
  match status_after_failure q operation with
  | Pending => [retry_timer q operation]
  | _ => []
  end.

(** The record of the log after a failed attempt. *)
Definition failed_record (q : SyncQueueService) (operation stored : OfflineOperation)
    (e : JsError) : OfflineOperation :=
  apply_patch (apply_patch stored mark_syncing) (mark_failed q operation e).

(** The update [retryOperation] writes. *)
Definition reset_patch : OperationPatch :=
  mkOperationPatch (Some Pending) (Some 0%Z) (Some None).

(** The log once the first write of each operation of [sel] is made. *)
Definition syncing_marked (sel : list OfflineOperation)
    (m : gmap string OfflineOperation) : gmap string OfflineOperation :=
  foldl (fun acc o => <[op_id o := apply_patch o mark_syncing]> acc) m sel.

(** The promises of operations whose first write succeeded. *)
Definition begun_well (sel : list OfflineOperation) : list Started :=
  (fun o => mkStarted o (Ok tt)) <$> sel.

(** * Optimistic mutations *)

(** The optimistic operation [opId] is marked failed with the message of
    [e]: [find] is the one of [updateOptimisticOp]. *)
Definition marked_error (opId : string) (message : string) (w : World) : Prop :=
  exists op,
    List.find (fun o => String.eqb (oo_id o) opId) (optimisticOps (content w)) = Some op /\
    oo_status op = OptError /\ oo_error op = Some message.

(** The optimistic operation [opId] is marked successful. *)
Definition marked_success (opId : string) (w : World) : Prop :=
  exists op,
    List.find (fun o => String.eqb (oo_id o) opId) (optimisticOps (content w)) = Some op /\
    oo_status op = OptSuccess.

(** How an optimistic mutation [run] ends in [w], given the [answer] of
    the remote call it awaits: what it returns, what the projection shows
    and how the optimistic operation [opId] is marked. *)
Definition ends_as {T R} (run : M R) (w : World) (answer : JsError + T)
    (opId : string) (returned : T -> R)
    (confirmed : T -> World -> Prop) (rolled_back : World -> Prop) : Prop :=
  let w' := exec run w in
  match answer with
  | inr srv =>
      result run w = Ok (returned srv) /\ confirmed srv w' /\ marked_success opId w'
  | inl e =>
      result run w = Throw e /\ rolled_back w' /\ marked_error opId (err_message e) w'
  end.

(** * Notifications *)

(** The requests of [syncNotes] and [syncFolders]. *)
Definition refetch_notes (w : World) : HttpRequest :=
  Api.build_request GET "/notes" None (accessToken w).

Definition refetch_folders (w : World) : HttpRequest :=
  Api.build_request GET "/folders" None (accessToken w).

(** The version cached for a note is older than the one announced. *)
Definition stale (data : WebSocket.NoteUpdateMessage) (w : World) : bool :=
  match notes (content w) !! WebSocket.num_note_id data with
  | Some currentNote => (note_version currentNote <? WebSocket.num_version data)%Z
  | None => false
  end.

(** * Sample data *)

(** A remote service that rejects every call with [e]. *)
Definition rejecting (e : JsError) : Remote :=
  {| remote_notes_list := inl e;
     remote_notes_create := fun _ => inl e;
     remote_notes_update := fun _ _ => inl e;
     remote_notes_delete := fun _ => inl e;
     remote_notes_move := fun _ _ => inl e;
     remote_folders_list := inl e;
     remote_folders_create := fun _ => inl e;
     remote_folders_update := fun _ _ => inl e;
     remote_folders_delete := fun _ => inl e;
     remote_folders_move := fun _ _ => inl e |}.

(** A remote service that answers every note call with [n] and knows no
    folder. *)
Definition creating (n : Note) : Remote :=
  {| remote_notes_list := inr [n];
     remote_notes_create := fun _ => inr n;
     remote_notes_update := fun _ _ => inr n;
     remote_notes_delete := fun _ => inr tt;
     remote_notes_move := fun _ _ => inr n;
     remote_folders_list := inr [];
     remote_folders_create := fun _ => inl (ApiError "Not Found" 404 []);
     remote_folders_update := fun _ _ => inl (ApiError "Not Found" 404 []);
     remote_folders_delete := fun _ => inr tt;
     remote_folders_move := fun _ _ => inl (ApiError "Not Found" 404 []) |}.

(** A host whose clock stands still and whose random source counts. *)
Definition sample_runtime (r : Remote) : Runtime :=
  {| rt_now := 1700000000000;
     rt_random := fun k => string_of_Z (Z.of_nat k);
     rt_toISOString := fun _ => "2023-11-14T22:13:20.000Z";
     rt_remote := r |}.

(** An online client, signed in as user-1, with nothing in flight. *)
Definition sample_world (r : Remote) (c : ContentState)
    (log : gmap string OfflineOperation) : World :=
  {| runtime := sample_runtime r;
     random_next := 0;
     content := c;
     offline := mkOfflineDB true false ∅ ∅ log ∅;
     queue := SyncQueue.constructor SyncQueue.no_options true;
     auth_user_id := Some "user-1";
     accessToken := Some "token";
     timers := [];
     emitted := [];
     requests := [];
     promises := [] |}.

(** A projection that shows the notes [ns]. *)
Definition with_notes_of (ns : list Note) : ContentState :=
  ContentStore.with_notes
    (fun _ => foldl (fun acc note => <[note_id note := note]> acc) ∅ ns) initialState.

(** Note n1 as the client loaded it, as another client changed it on the
    server, and as the local edit made it. *)
Definition note_v3 : Note :=
  mkNote "n1" "Hello" "first text" None "user-1" 3 "2023-11-01T00:00:00.000Z"
    "2023-11-10T00:00:00.000Z" None.

Definition note_v4 : Note :=
  mkNote "n1" "Hello" "their text" None "user-1" 4 "2023-11-01T00:00:00.000Z"
    "2023-11-12T00:00:00.000Z" None.

Definition note_mine : Note :=
  mkNote "n1" "Hello" "my text" None "user-1" 3 "2023-11-01T00:00:00.000Z"
    "2023-11-14T22:13:20.000Z" None.

(** The local edit, based on version 3. *)
Definition edit_v3 : UpdateNoteRequest :=
  mkUpdateNoteRequest None (Some "my text") None 3.

(** The rejections of the remote service: a version conflict and a
    server error. *)
Definition conflict_409 : JsError :=
  ApiError "Version conflict" 409
    [("id", JString "n1"); ("content", JString "their text"); ("version", JNumber 4)].

Definition server_500 : JsError :=
  ApiError "Internal Server Error" 500 [("error", JString "Internal Server Error")].

(** The local edit of n1 as an operation of the log. *)
Definition update_op (id : string) (timestamp retryCount : Z) : OfflineOperation :=
  {| op_id := id;
     op_type := OpUpdate;
     op_entityType := EntNote;
     op_entityId := "n1";
     op_data := [("content", JString "my text"); ("version", JNumber 3)];
     op_timestamp := timestamp;
     op_userId := "user-1";
     op_status := Pending;
     op_retryCount := retryCount;
     op_lastError := None |}.

Definition op1 : OfflineOperation := update_op "op1" 1699999999000 0.

Definition op2 : OfflineOperation := update_op "op2" 1699999999500 0.

(** The same operation with one retry left. *)
Definition op_exhausted : OfflineOperation := update_op "op1" 1699999999000 2.

(** The edit waits in the log and the server will answer 409. *)
Definition conflict_world : World :=
  sample_world (rejecting conflict_409) (with_notes_of [note_mine]) {[ "op1" := op1 ]}.

(** Two edits of n1 wait in the log. *)
Definition two_edits_world : World :=
  sample_world (rejecting server_500) (with_notes_of [note_mine])
    (<["op2" := op2]> {[ "op1" := op1 ]}).


(** The client shows version 3 and the server will reject the update. *)
Definition editing_world : World :=
  sample_world (rejecting conflict_409) (with_notes_of [note_v3]) ∅.

(** A create as the callers of [queueOperation] pass it. *)
Definition create_input (k : Z) : QueueInput :=
  {| qi_type := OpCreate;
     qi_entityType := EntNote;
     qi_entityId := "temp_" +:+ string_of_Z k;
     qi_data := [("title", JString "Draft"); ("content", JString "")];
     qi_userId := "user-1";
     qi_lastError := None;
     qi_id := None;
     qi_timestamp := None;
     qi_status := None;
     qi_retryCount := None |}.

(** Nothing is stored and nothing waits. *)
Definition empty_world : World :=
  sample_world (rejecting server_500) initialState ∅.

(** Five creates are queued, then drained. *)
Definition five_queued : list Action :=
  [AQueueOperation (create_input 1); AQueueOperation (create_input 2);
   AQueueOperation (create_input 3); AQueueOperation (create_input 4);
   AQueueOperation (create_input 5)].

Definition five_draining : World :=
  run_actions (five_queued ++ [AProcessPendingOperations]) empty_world.

(** The optimistic operation of the local edit that ran into the
    conflict: it remembers version 3 as it was before the edit. *)
Definition conflicting_edit : OptimisticOperation :=
  {| oo_id := "temp_1";
     oo_type := OpUpdate;
     oo_entityType := EntNote;
     oo_entityId := "n1";
     oo_timestamp := 1699999999000;
     oo_originalData := Some (DNote note_v3);
     oo_newData := Some (DNote note_mine);
     oo_status := OptError;
     oo_error := Some "Version conflict" |}.

(** The client shows its own edit of version 3, the server holds
    version 4, and the rejected update waits in the log. *)
Definition discard_world : World :=
  sample_world (creating note_v4)
    (ContentStore.with_optimisticOps (fun _ => [conflicting_edit])
       (with_notes_of [note_mine]))
    {[ "op1" := op1 ]}.

(** Two creates that differ in their ids, provisional ids and
    timestamps. *)
Definition create_op (id entityId : string) (timestamp : Z) : OfflineOperation :=
  {| op_id := id;
     op_type := OpCreate;
     op_entityType := EntNote;
     op_entityId := entityId;
     op_data := [("title", JString "Draft"); ("content", JString "")];
     op_timestamp := timestamp;
     op_userId := "user-1";
     op_status := Pending;
     op_retryCount := 0;
     op_lastError := None |}.

Definition create_a : OfflineOperation := create_op "op_a" "tmp-1" 1699999999000.
Definition create_b : OfflineOperation := create_op "op_b" "tmp-2" 1699999999900.

(** The record the server creates, and the provisional one. *)
Definition note_42 : Note :=
  mkNote "n-42" "Draft" "" None "user-1" 1 "2023-11-14T22:13:21.000Z"
    "2023-11-14T22:13:21.000Z" None.

Definition draft_tmp : Note :=
  mkNote "tmp-1" "Draft" "" None "current_user" 1 "2023-11-14T22:13:20.000Z"
    "2023-11-14T22:13:20.000Z" None.

(** [tmp-1] was created offline; the server is about to answer the create
    with [n-42]. *)
Definition draft_world : World :=
  with_offline (OfflineStorage.with_notes (insert "tmp-1" (draft_tmp, 1699999999000%Z)))
    (sample_world (creating note_42) (with_notes_of [draft_tmp]) {[ "op_a" := create_a ]}).

(** A folder of the projection and a notification about it from another
    user. *)
Definition folder_1 : Folder :=
  mkFolder "f1" "Work" None "Work" "user-1" "2023-11-01T00:00:00.000Z"
    "2023-11-01T00:00:00.000Z" None None.

Definition folder_world : World :=
  sample_world (rejecting server_500)
    (ContentStore.with_folders (fun _ => {[ "f1" := folder_1 ]}) initialState) ∅.

Definition folder_changed (operation : OpType) : WebSocket.FolderUpdateMessage :=
  WebSocket.mkFolderUpdateMessage "f1" None None "user-2" operation.

(** A caller that passes the fields [queueOperation] sets. *)
Definition injected : QueueInput :=
  {| qi_type := OpUpdate;
     qi_entityType := EntNote;
     qi_entityId := "n1";
     qi_data := [("content", JString "my text"); ("version", JNumber 3)];
     qi_userId := "user-1";
     qi_lastError := None;
     qi_id := Some "op1";
     qi_timestamp := Some 0%Z;
     qi_status := Some Synced;
     qi_retryCount := Some 7%Z |}.

(** A host on which [Math.random] gives the same digits twice. *)
Definition repeating_world : World :=
  {| runtime := {| rt_now := 1700000000000;
                  rt_random := fun _ => "k3j9x2a1b";
                  rt_toISOString := fun _ => "2023-11-14T22:13:20.000Z";
                  rt_remote := rejecting server_500 |};
     random_next := 0;
     content := initialState;
     offline := mkOfflineDB true false ∅ ∅ ∅ ∅;
     queue := SyncQueue.constructor SyncQueue.no_options true;
     auth_user_id := Some "user-1";
     accessToken := Some "token";
     timers := [];
     emitted := [];
     requests := [];
     promises := [] |}.

(** * Notions about the log, the storage and the store *)

(** The last error of the operation contains "conflict": the filter of
    [resolvePendingConflicts]. *)
Definition mentions_conflict (o : OfflineOperation) : bool :=
  match op_lastError o with
  | Some m => SyncQueue.includes m "conflict"
  | None => false
  end.

(** The event [resolvePendingConflicts] emits for an operation. *)
Definition announced (o : OfflineOperation) : Event :=
  EvConflict o [mkConflictData (op_id o) (op_data o) None "content"].

(** The log without the operations of [l]. *)
Definition without (l : list OfflineOperation) (m : gmap string OfflineOperation)
    : gmap string OfflineOperation :=
  foldl (fun acc op => delete (op_id op) acc) m l.

(** The record of the log after a successful attempt. *)
Definition synced_record (stored : OfflineOperation) : OfflineOperation :=
  apply_patch (apply_patch stored mark_syncing) mark_synced.

(** [m] throws [e] and leaves the world as it was. *)
Definition fails_with {A} (e : JsError) (m : M A) (w : World) : Prop :=
  m w = (Throw e, w).

(** Every stored note sits under its own [id] (the key path of the
    object store). *)
Definition notes_keyed (m : gmap string (Note * Z)) : Prop :=
  map_Forall (fun k v => note_id (fst v) = k) m.

(** Every stored folder sits under its own [id]. *)
Definition folders_keyed (m : gmap string (Folder * Z)) : Prop :=
  map_Forall (fun k v => folder_id (fst v) = k) m.

(** The notes [getNotes] returns. *)
Definition listed (folderId : option string) (w : World) : list Note :=
  match OfflineStorage.getNotes folderId w with
  | (Ok l, _) => l
  | (Throw _, _) => []
  end.

(** What [exportData] returns. *)
Definition exported (w : World) : option OfflineStorage.OfflineData :=
  match OfflineStorage.exportData w with
  | (Ok d, _) => Some d
  | (Throw _, _) => None
  end.

(** [store.put] of [g v] under the key of [v]. *)
Definition put_under {V W : Type} (key : V -> string) (g : V -> W)
    (acc : gmap string W) (v : V) : gmap string W :=
  <[key v := g v]> acc.

(** The database [importData] leaves. *)
Definition imported_db (fails : bool) (now : Z) (notes : list Note)
    (folders : list Folder) (data : OfflineStorage.OfflineData) : OfflineDB :=
  {| db_available := true;
     db_open_fails := fails;
     db_notes := foldl (fun acc note => <[note_id note := (note, now)]> acc) ∅ notes;
     db_folders :=
       foldl (fun acc folder => <[folder_id folder := (folder, now)]> acc) ∅ folders;
     db_operations :=
       foldl (fun acc op => <[op_id op := op]> acc) ∅ (OfflineStorage.od_operations data);
     db_metadata := {[ "lastSync" := (OfflineStorage.od_lastSync data, now) ]} |}.

(** The projection [setNotes] and [setFolders] build from the lists of the
    server. *)
Definition notes_of (ns : list Note) : gmap string Note :=
  foldl (fun acc note => <[note_id note := note]> acc) ∅ ns.

Definition folders_of (fs : list Folder) : gmap string Folder :=
  foldl (fun acc folder => <[folder_id folder := folder]> acc) ∅ fs.

(** The two requests of [fullSync]. *)
Definition list_requests (w : World) : list HttpRequest :=
  [refetch_notes w; refetch_folders w].

(** The identifier [handleSync] gives the conflict it records. *)
Definition pushed_conflict_id (w : World) : string :=
  "conflict_" +:+ string_of_Z (rt_now (runtime w)).

(** No optimistic operation has the identifier [id]. *)
Definition unused_op_id (id : string) (w : World) : Prop :=
  Forall (fun o => oo_id o <> id) (optimisticOps (content w)).

(** The optimistic mutation [run] records one optimistic operation under
    [opId] and schedules its removal, one second after a success and
    five after a failure; once the timer has fired the optimistic
    operations are those of before. *)
Definition tracked_once {R} (run : M R) (w : World) (opId : string) : Prop :=
  let w' := exec run w in
  let delay := match result run w with Ok _ => 1000%Z | Throw _ => 5000%Z end in
  (exists op,
     oo_id op = opId /\
     optimisticOps (content w') = optimisticOps (content w) ++ [op]) /\
  timers w' = timers w ++ [mkTimer (Some delay) (TRemoveOptimisticOp opId)] /\
  optimisticOps (content (exec (fire (TRemoveOptimisticOp opId)) w')) =
    optimisticOps (content w).

(** * The connection as a transition system *)

(** What can happen to the connection service: a call of [connect] or
    [disconnect], an event of a socket, a timer, a listener of the window. *)
Inductive WsAction :=
| WConnect (accessToken : option string) (refused : option JsError)
| WOpen
| WClose (code : Z) (reason : string)
| WError
| WTimeout (connecting : bool)
| WReconnect (accessToken : option string) (refused : option JsError)
| WDisconnect
| WHeartbeat
| WOnline (isAuthenticated : bool) (accessToken : option string)
    (refused : option JsError)
| WOffline.

Definition ws_perform (a : WsAction) (s : WebSocket.WebSocketService)
    : WebSocket.WebSocketService * list WebSocket.Effect :=
  match a with
  | WConnect accessToken refused =>
      let '(_, s', e) := WebSocket.connect accessToken refused s in (s', e)
  | WOpen => WebSocket.onopen s
  | WClose code reason => WebSocket.onclose code reason s
  | WError => WebSocket.onerror s
  | WTimeout connecting => WebSocket.on_connection_timeout connecting s
  | WReconnect accessToken refused => WebSocket.on_reconnect accessToken refused s
  | WDisconnect => WebSocket.disconnect s
  | WHeartbeat => WebSocket.on_heartbeat s
  | WOnline isAuthenticated accessToken refused =>
      WebSocket.on_window_online isAuthenticated accessToken refused s
  | WOffline => WebSocket.on_window_offline s
  end.

(** The actions of [l] one after the other, with all their effects. *)
Fixpoint ws_run (l : list WsAction) (s : WebSocket.WebSocketService)
    : WebSocket.WebSocketService * list WebSocket.Effect :=
  match l with
  | [] => (s, [])
  | a :: l' =>
      let '(s1, e1) := ws_perform a s in
      let '(s2, e2) := ws_run l' s1 in
      (s2, e1 ++ e2)
  end.

(** An event of a socket. *)
Definition socket_event (a : WsAction) : bool :=
  match a with
  | WOpen | WClose _ _ | WError => true
  | _ => false
  end.

(** The effect opens a socket. *)
Definition opens_socket (e : WebSocket.Effect) : bool :=
  match e with WebSocket.NewWebSocket _ => true | _ => false end.

(** The effect schedules a reconnection. *)
Definition schedules_reconnect (e : WebSocket.Effect) : bool :=
  match e with WebSocket.SetTimeout WebSocket.Reconnect _ => true | _ => false end.

(** No token: [null] or the empty string. *)
Definition no_token (accessToken : option string) : Prop :=
  accessToken = None \/ accessToken = Some "".

(** The connection drops and the reconnection timer fires, [n] times in
    a row. *)
Fixpoint drops (n : nat) (accessToken : option string) (s : WebSocket.WebSocketService)
    : WebSocket.WebSocketService :=
  match n with
  | O => s
  | S n' =>
      fst (WebSocket.on_reconnect accessToken None
             (fst (WebSocket.onclose 1006 "" (drops n' accessToken s))))
  end.

(** * Servers and clients of the transport *)

(** The refresh endpoint never answers 401. *)
Definition refresh_is_answered (server : ApiClient.Server) : Prop :=
  forall history r response,
    req_endpoint r = "/auth/refresh" ->
    server history r = Some response -> ApiClient.status response <> 401%Z.

(** The server answers 401 to everything. *)
Definition always_401 (server : ApiClient.Server) : Prop :=
  forall history r,
    exists response,
      server history r = Some response /\ ApiClient.status response = 401%Z.

(** A thrown value is an [ApiError]: it has a status. *)
Definition is_ApiError (r : Outcome (option JsObject)) : Prop :=
  match r with
  | Ok _ => True
  | Throw e => is_Some (err_status e)
  end.

(** The client after [fetch] was called with [r]. *)
Definition logged (r : HttpRequest) (c : ApiClient.Client) : ApiClient.Client :=
  ApiClient.mkClient (ApiClient.accessToken c) (ApiClient.refreshToken c)
    (ApiClient.window c) (ApiClient.localStorage c) (ApiClient.fetched c ++ [r]).

(** The request of [refreshAccessToken]. *)
Definition refresh_request (c : ApiClient.Client) : HttpRequest :=
  ApiClient.config POST "/auth/refresh"
    (Some [("refresh_token", ApiClient.refreshToken c)]) c.

(** The [errorData] of a response that is not ok. *)
Definition errorData_of (response : ApiClient.Response) : JsObject :=
  default [("error", JString (ApiClient.statusText response))]
    (ApiClient.json response).

(** [c'] runs in the same place as [c] and differs in [localStorage] at
    most in the two tokens. *)
Definition same_but_tokens (c c' : ApiClient.Client) : Prop :=
  ApiClient.window c' = ApiClient.window c /\
  forall key,
    key <> "access_token" -> key <> "refresh_token" ->
    ApiClient.localStorage c' !! key = ApiClient.localStorage c !! key.

(** * More sample data *)

(** A failed operation whose last attempt was a conflict. *)
Definition op_conflicted : OfflineOperation :=
  mkOfflineOperation "op1" OpUpdate EntNote "n1"
    [("content", JString "my text"); ("version", JNumber 3)]
    1699999999000 "user-1" Failed 3 (Some "Conflict detected").

(** The conflicted operation is all the log holds. *)
Definition conflicted_world : World :=
  sample_world (rejecting conflict_409) (with_notes_of [note_mine])
    {[ "op1" := op_conflicted ]}.

(** A log with one operation of each status. *)
Definition mixed_world : World :=
  sample_world (rejecting server_500) initialState
    (<["op3" := apply_patch (update_op "op3" 1699999999700 3)
                  (mkOperationPatch (Some Failed) None (Some (Some "Network error")))]>
       (<["op2" := op2]> {[ "op1" := op_exhausted ]})).

(** The window has no IndexedDB. *)
Definition without_database : World :=
  with_offline (fun d => mkOfflineDB false false (db_notes d) (db_folders d)
                           (db_operations d) (db_metadata d)) conflict_world.

(** [indexedDB.open] fails. *)
Definition unopened_database : World :=
  with_offline (fun d => mkOfflineDB false true (db_notes d) (db_folders d)
                           (db_operations d) (db_metadata d)) conflict_world.

(** The lists are answered but [indexedDB.open] fails. *)
Definition draft_unopened : World :=
  with_offline (fun d => mkOfflineDB false true (db_notes d) (db_folders d)
                           (db_operations d) (db_metadata d)) draft_world.

(** The server reports a conflict on note n1. *)
Definition conflict_pushed : WebSocket.SyncMessage :=
  WebSocket.mkSyncMessage EntNote "n1" OpUpdate
    [("content", JString "their text"); ("version", JNumber 4)] (Some 4%Z) (Some true).

(** The backup of [draft_world]: one note, no folder, one operation. *)
Definition draft_backup : OfflineStorage.OfflineData :=
  OfflineStorage.mkOfflineData {[ "tmp-1" := draft_tmp ]} ∅ [create_a] 0 1.

(** The service as the module creates it. *)
Definition sample_service : WebSocket.WebSocketService :=
  WebSocket.ws_constructor (WebSocket.mkWebSocketOptions None None None None None) None.

(** Sample servers: one that accepts everything, one that refuses
    everything, and one whose first answer is 401 and that renews tokens. *)
Definition accepting_server : ApiClient.Server := fun _ _ =>
  Some (ApiClient.mkResponse 200 "OK" (Some [("id", JString "n1")])).

Definition refusing_server : ApiClient.Server := fun _ _ =>
  Some (ApiClient.mkResponse 401 "Unauthorized" None).

Definition renewing_server : ApiClient.Server := fun history r =>
  if String.eqb (req_endpoint r) "/auth/refresh" then
    Some (ApiClient.mkResponse 200 "OK"
            (Some [("access_token", JString "a2"); ("refresh_token", JString "r2")]))
  else
    match history with
    | [] => Some (ApiClient.mkResponse 401 "Unauthorized" None)
    | _ => Some (ApiClient.mkResponse 204 "No Content" None)
    end.

(** A server that accepts a refresh and refuses everything else. *)
Definition refusing_logout : ApiClient.Server := fun _ r =>
  if String.eqb (req_endpoint r) "/auth/refresh" then
    Some (ApiClient.mkResponse 200 "OK"
            (Some [("access_token", JString "a2"); ("refresh_token", JString "r2")]))
  else Some (ApiClient.mkResponse 500 "Internal Server Error" None).

Definition signed_in_client : ApiClient.Client :=
  ApiClient.constructor true
    (<["refresh_token" := "r1"]> (<["access_token" := "a1"]> ∅)).

(** * Identifiers are read back *)

Lemma string_of_uint_no_underscore d :
  no_underscore (NilEmpty.string_of_uint d) = true.
Proof. induction d; simpl; auto. Qed.

Lemma string_of_Z_no_underscore z : no_underscore (string_of_Z z) = true.
Proof.
  unfold string_of_Z, NilZero.string_of_int, NilZero.string_of_uint.
  destruct (Z.to_int z) as [d|d]; destruct d; simpl;
    auto using string_of_uint_no_underscore.
Qed.

(** The decimal writing of an integer determines it. *)
Lemma string_of_Z_inj z z' : string_of_Z z = string_of_Z z' -> z = z'.
Proof.
  unfold string_of_Z. intros H.
  apply DecimalZ.to_int_inj.
  assert (Hnn : forall x, Z.to_int x <> Pos Nil /\ Z.to_int x <> Neg Nil).
  { intros [|p|p]; simpl; split; try discriminate;
      intros [= Hp]; exact (DecimalPos.Unsigned.to_uint_nonnil p Hp). }
  destruct (Hnn z) as [H1 H2], (Hnn z') as [H1' H2'].
  pose proof (NilZero.isi _ H1 H2) as E.
  pose proof (NilZero.isi _ H1' H2') as E'.
  rewrite H in E. rewrite E in E'. by injection E'.
Qed.

(** A string without underscore, then an underscore: the split is unique. *)
Lemma split_at_underscore a a' t t' :
  no_underscore a = true -> no_underscore a' = true ->
  a +:+ "_" +:+ t = a' +:+ "_" +:+ t' -> a = a' /\ t = t'.
Proof.
  revert a'. induction a as [|c a IH]; intros [|c' a'] Ha Ha' E; simpl in *.
  - by injection E.
  - injection E as Ec _. subst c'. simpl in Ha'. discriminate.
  - injection E as Ec _. subst c. simpl in Ha. discriminate.
  - injection E as Ec E. subst c'.
    apply andb_prop in Ha as [_ Ha]. apply andb_prop in Ha' as [_ Ha'].
    destruct (IH a' Ha Ha' E) as [-> ->]. done.
Qed.

(** An operation id determines the clock reading and the random suffix
    it was made of. *)
Lemma operation_id_inj now suffix now' suffix' :
  SyncQueue.operation_id now suffix = SyncQueue.operation_id now' suffix' ->
  now = now' /\ suffix = suffix'.
Proof.
  unfold SyncQueue.operation_id. intros E.
  injection E as E.
  apply split_at_underscore in E as [E1 E2];
    auto using string_of_Z_no_underscore.
  split; [by apply string_of_Z_inj | done].
Qed.

(** * Running the code, and frame rules *)

(** Runs a computation on a world: unfolds the monad and computes,
    leaving the decimal writing of numbers folded. *)
Ltac run :=
  unfold exec, result; cbn -[String.append string_of_Z];
  unfold mbind, M_bind, mret, M_ret; cbn -[String.append string_of_Z].

(** What each construct of [M] and each primitive leaves alone. *)
Section Frame.
Context {X : Type} (proj : World -> X).

Lemma keeps_ret {A} (a : A) : keeps proj (mret a).
Proof. intros w. reflexivity. Qed.

Lemma keeps_throw {A} e : keeps proj (@throw A e).
Proof. intros w. reflexivity. Qed.

Lemma keeps_bind {A B} (m : M A) (f : A -> M B) :
  keeps proj m -> (forall a, keeps proj (f a)) -> keeps proj (m ≫= f).
Proof.
  intros Hm Hf w. unfold mbind, M_bind. specialize (Hm w).
  destruct (m w) as [[a|e] w1]; cbn in *; [rewrite Hf|]; done.
Qed.

Lemma keeps_try_catch {A} (m : M A) (h : JsError -> M A) :
  keeps proj m -> (forall e, keeps proj (h e)) -> keeps proj (try_catch m h).
Proof.
  intros Hm Hh w. unfold try_catch. specialize (Hm w).
  destruct (m w) as [[a|e] w1]; cbn in *; [|rewrite Hh]; done.
Qed.

Lemma keeps_try_finally {A} (m : M A) (fin : M unit) :
  keeps proj m -> keeps proj fin -> keeps proj (try_finally m fin).
Proof.
  intros Hm Hf w. unfold try_finally. specialize (Hm w).
  destruct (m w) as [r w1]. specialize (Hf w1).
  destruct (fin w1) as [[[]|e] w2]; cbn in *; congruence.
Qed.

Lemma keeps_forEach {A} (f : A -> M unit) (l : list A) :
  (forall x, keeps proj (f x)) -> keeps proj (forEach f l).
Proof.
  intros Hf. induction l as [|x l IH]; cbn [forEach].
  - apply keeps_ret.
  - apply keeps_bind; [apply Hf | intros _; exact IH].
Qed.

Lemma keeps_modify (f : World -> World) :
  (forall w, proj (f w) = proj w) -> keeps proj (modify f).
Proof. intros H w. apply H. Qed.

Lemma keeps_unawaited (m : M unit) :
  keeps proj m -> keeps proj (WebSocket.unawaited m).
Proof. intros H w. apply H. Qed.

Lemma keeps_replay {A} (r : Outcome A) : keeps proj (replay r).
Proof. intros w. reflexivity. Qed.

Lemma keeps_attempt {A} (m : M A) : keeps proj m -> keeps proj (attempt m).
Proof. intros H w. unfold attempt. specialize (H w). by destruct (m w). Qed.

Lemma keeps_get_world : keeps proj get_world.
Proof. intros w. reflexivity. Qed.

Lemma keeps_this : keeps proj SyncQueue.this.
Proof. intros w. reflexivity. Qed.

Lemma keeps_get : keeps proj ContentStore.get.
Proof. intros w. reflexivity. Qed.

Lemma keeps_Date_now : keeps proj Date_now.
Proof. intros w. reflexivity. Qed.

Lemma keeps_Date_toISOString : keeps proj Date_toISOString.
Proof. intros w. reflexivity. Qed.

Lemma keeps_getObjectStore : keeps proj OfflineStorage.getObjectStore.
Proof.
  intros w. unfold OfflineStorage.getObjectStore.
  destruct (db_available (offline w)); [reflexivity|].
  destruct (db_open_fails (offline w)); reflexivity.
Qed.

Lemma keeps_Math_random_suffix :
  (forall f w, proj (with_random_next f w) = proj w) ->
  keeps proj Math_random_suffix.
Proof. intros H w. apply H. Qed.

Lemma keeps_request {T} method endpoint body (answer : Remote -> JsError + T) :
  (forall f w, proj (with_requests f w) = proj w) ->
  keeps proj (Api.request method endpoint body answer).
Proof.
  intros H w. unfold Api.request.
  destruct (answer _); cbn; apply H.
Qed.
End Frame.

(** [frame] proves [keeps proj m] by going through the code of [m];
    [frame_all] also goes through the actions and the handlers. *)
Ltac frame_step :=
  lazymatch goal with
  | |- keeps _ (match ?x with _ => _ end) => destruct x
  | |- keeps _ (let _ := _ in _) => cbv zeta
  | |- keeps _ (_ ≫= _) => apply keeps_bind
  | |- keeps _ (try_catch _ _) => apply keeps_try_catch
  | |- keeps _ (try_finally _ _) => apply keeps_try_finally
  | |- keeps _ (forEach _ _) => apply keeps_forEach
  | |- keeps _ (WebSocket.unawaited _) => apply keeps_unawaited
  | |- keeps _ (attempt _) => apply keeps_attempt
  | |- keeps _ (modify _) => apply keeps_modify; intros; reflexivity
  | |- keeps _ (Api.request _ _ _ _) => apply keeps_request; intros; reflexivity
  | |- keeps _ Math_random_suffix =>
      apply keeps_Math_random_suffix; intros; reflexivity
  | |- keeps _ _ =>
      first
        [ apply keeps_ret | apply keeps_throw | apply keeps_replay
        | apply keeps_get_world
        | apply keeps_this | apply keeps_get | apply keeps_Date_now
        | apply keeps_Date_toISOString | apply keeps_getObjectStore ]
  end.

Ltac unfold_code :=
  unfold
    Api.notes_list, Api.notes_create, Api.notes_update, Api.notes_delete,
    Api.notes_move, Api.folders_list, Api.folders_create, Api.folders_update,
    Api.folders_delete, Api.folders_move,
    OfflineStorage.saveNote, OfflineStorage.deleteNote, OfflineStorage.saveFolder,
    OfflineStorage.deleteFolder, OfflineStorage.saveOperation,
    OfflineStorage.getOperations, OfflineStorage.updateOperation,
    OfflineStorage.deleteOperation,
    ContentStore.setNotes, ContentStore.addNote, ContentStore.updateNote,
    ContentStore.removeNote, ContentStore.setFolders, ContentStore.addFolder,
    ContentStore.updateFolder, ContentStore.removeFolder, ContentStore.setLoading,
    ContentStore.setError, ContentStore.addOptimisticOp,
    ContentStore.updateOptimisticOp, ContentStore.removeOptimisticOp,
    ContentStore.generateId, ContentStore.set,
    ContentStore.syncNotes, ContentStore.syncFolders,
    SyncQueue.emit, SyncQueue.handleConflict, SyncQueue.executeOperation,
    SyncQueue.executeNoteOperation, SyncQueue.executeFolderOperation,
    SyncQueue.processOperation, SyncQueue.processOperation_from,
    SyncQueue.first_write, setTimeout, setImmediate in *.

Ltac frame := intros; repeat (progress unfold_code); repeat (intros; frame_step).



(** * Sorting *)

(** The insertion sort that stands for [Array.prototype.sort] permutes
    the list, and sorts it when the comparison is the difference of a
    key. *)
Section SortPerm.
Context {A : Type} (compareFn : A -> A -> Z).

Lemma sort_insert_perm x l : Permutation (sort_insert compareFn x l) (x :: l).
Proof.
  induction l as [|y l IH]; cbn; [reflexivity|].
  destruct (compareFn x y <=? 0)%Z; [reflexivity|].
  rewrite IH. apply perm_swap.
Qed.

Lemma js_sort_perm l : Permutation (js_sort compareFn l) l.
Proof.
  induction l as [|x l IH]; cbn; [reflexivity|].
  rewrite sort_insert_perm. by constructor.
Qed.
End SortPerm.

Section SortByKey.
Context {A : Type} (key : A -> Z).
Let cmp (a b : A) : Z := (key a - key b)%Z.
Let le (a b : A) : Prop := (key a <= key b)%Z.

Lemma sort_insert_sorted x l :
  StronglySorted le l -> StronglySorted le (sort_insert cmp x l).
Proof.
  induction 1 as [|y l Hs IH Hy]; cbn.
  - repeat constructor.
  - destruct (Z.leb_spec (cmp x y) 0) as [Hle|Hgt]; unfold cmp in *.
    + constructor; [by constructor|].
      constructor; [unfold le; lia|].
      eapply Forall_impl; [exact Hy|]. unfold le. intros; cbn in *; lia.
    + constructor; [exact IH|].
      eapply Permutation_Forall; [symmetry; apply sort_insert_perm|].
      constructor; [unfold le; lia | exact Hy].
Qed.

Lemma js_sort_sorted l : StronglySorted le (js_sort cmp l).
Proof.
  induction l; cbn; [constructor | by apply sort_insert_sorted].
Qed.
End SortByKey.

(** Filtering, cutting and splitting a sorted list. *)
Lemma sorted_filter {A} (R : A -> A -> Prop) (p : A -> bool) l :
  StronglySorted R l -> StronglySorted R (List.filter p l).
Proof.
  induction 1 as [|x l Hs IH Hx]; cbn; [constructor|].
  destruct (p x); [|exact IH].
  constructor; [exact IH|].
  rewrite Forall_forall in *. intros y Hy.
  apply Hx. apply list_elem_of_In. apply list_elem_of_In in Hy.
  apply filter_In in Hy. tauto.
Qed.

Lemma sorted_firstn {A} (R : A -> A -> Prop) n l :
  StronglySorted R l -> StronglySorted R (firstn n l).
Proof.
  intros Hs. revert n. induction Hs as [|x l Hs IH Hx]; intros [|n]; cbn;
    try constructor.
  - apply IH.
  - rewrite Forall_forall in *. intros y Hy. apply Hx.
    apply list_elem_of_In. apply list_elem_of_In in Hy.
    rewrite <- (firstn_skipn n l). apply in_or_app. by left.
Qed.


(** The candidates of a drain are sorted by timestamp and are the
    pending and failed operations. *)
Lemma candidates_sorted w : StronglySorted older (candidates w).
Proof. apply (js_sort_sorted op_timestamp). Qed.

Lemma candidates_perm w :
  Permutation (candidates w) (operations_with Pending w ++ operations_with Failed w).
Proof. apply js_sort_perm. Qed.

(** Sorting and selecting do not look at the target of an operation. *)
Lemma sort_insert_retarget f o l :
  sort_insert SyncQueue.by_timestamp (retarget f o) (retarget f <$> l) =
  retarget f <$> sort_insert SyncQueue.by_timestamp o l.
Proof.
  induction l as [|x l IH]; [done|].
  rewrite fmap_cons. cbn [sort_insert].
  replace (SyncQueue.by_timestamp (retarget f o) (retarget f x))
    with (SyncQueue.by_timestamp o x) by reflexivity.
  destruct (_ <=? 0)%Z; [done|]. by rewrite fmap_cons, IH.
Qed.

Lemma js_sort_retarget f l :
  js_sort SyncQueue.by_timestamp (retarget f <$> l) =
  retarget f <$> js_sort SyncQueue.by_timestamp l.
Proof.
  induction l as [|x l IH]; [done|].
  rewrite fmap_cons. cbn [js_sort]. by rewrite IH, sort_insert_retarget.
Qed.

Lemma selected_retarget f q l :
  selected q (retarget f <$> l) = retarget f <$> selected q l.
Proof.
  unfold selected. rewrite fmap_take. f_equal.
  induction l as [|x l IH]; [done|].
  rewrite fmap_cons. cbn [List.filter].
  replace (retryable q (retarget f x)) with (retryable q x) by reflexivity.
  destruct (retryable q x); [rewrite fmap_cons|]; by rewrite IH.
Qed.

(** * The operation log *)

(** [getAll] returns the values of the store. *)
Lemma store_getAll_In {V} (m : gmap string V) (v : V) :
  In v (OfflineStorage.store_getAll m) <-> exists k, m !! k = Some v.
Proof.
  unfold OfflineStorage.store_getAll.
  rewrite <- list_elem_of_In, list_elem_of_fmap. split.
  - intros ([k v'] & -> & Hin). exists k. cbn.
    apply elem_of_map_to_list.
    eapply elem_of_Permutation_proper; [symmetry; apply js_sort_perm|exact Hin].
  - intros [k Hk]. exists (k, v). split; [done|].
    eapply elem_of_Permutation_proper; [apply js_sort_perm|].
    by apply elem_of_map_to_list.
Qed.

(** Looking an id up in the list of all operations is a lookup in the
    log. *)
Lemma find_by_id m id :
  keyed m ->
  List.find (fun op => String.eqb (op_id op) id) (OfflineStorage.store_getAll m) = m !! id.
Proof.
  intros Hk.
  destruct (List.find _ _) as [o|] eqn:Hfind.
  - apply find_some in Hfind as [Hin Heq].
    apply String.eqb_eq in Heq. apply store_getAll_In in Hin as [k Hk'].
    pose proof (Hk _ _ Hk') as Hid. cbn in Hid. congruence.
  - destruct (m !! id) as [o|] eqn:Hm; [|done].
    exfalso. pose proof (Hk _ _ Hm) as Hid. cbn in Hid.
    eapply find_none in Hfind; [|apply store_getAll_In; eauto].
    cbn in Hfind. rewrite Hid, String.eqb_refl in Hfind. discriminate.
Qed.

Lemma getOperations_all w :
  db_available (offline w) = true ->
  OfflineStorage.getOperations None w =
    (Ok (OfflineStorage.store_getAll (db_operations (offline w))), w).
Proof.
  intros Hdb. unfold OfflineStorage.getOperations, OfflineStorage.getObjectStore,
    get_world. run. by rewrite Hdb.
Qed.

(** Putting a record under its id keeps the log keyed. *)
Lemma keyed_insert m o : keyed m -> keyed (<[op_id o := o]> m).
Proof. intros Hk. by apply map_Forall_insert_2. Qed.

Lemma keyed_lookup m k o : keyed m -> m !! k = Some o -> op_id o = k.
Proof. intros Hk Ho. exact (Hk _ _ Ho). Qed.

Lemma keyed_singleton o : keyed {[ op_id o := o ]}.
Proof. by apply map_Forall_singleton. Qed.

Lemma keyed_empty : keyed ∅.
Proof. apply map_Forall_empty. Qed.

(** [updateOperation] on a stored operation puts the updated record. *)
Lemma updateOperation_ok id p w o :
  db_available (offline w) = true ->
  db_operations (offline w) !! id = Some o ->
  OfflineStorage.updateOperation id p w = (Ok tt, put_operation (apply_patch o p) w).
Proof.
  intros Hdb Ho. unfold OfflineStorage.updateOperation, OfflineStorage.getObjectStore,
    get_world, modify. run.
  rewrite Hdb. cbn. rewrite Ho. reflexivity.
Qed.

(** * One drain *)

(** Starting operations one by one is starting the list. *)
Lemma started_nil w : started [] w = w.
Proof. reflexivity. Qed.

Lemma started_cons o sel w :
  started sel
    (exec (SyncQueue.start o)
       (with_queue (SyncQueue.with_activeSyncCount Z.succ) w))
  = started (o :: sel) w.
Proof. reflexivity. Qed.

(** The first write of [processOperation], and the promise the loop
    starts with it. *)
Lemma first_write_cases o w :
  SyncQueue.first_write o w =
    if db_available (offline w) then
      match db_operations (offline w) !! op_id o with
      | Some stored =>
          (Ok tt,
           with_offline
             (OfflineStorage.with_operations
                (insert (op_id stored)
                   (apply_patch stored (mkOperationPatch (Some Syncing) None (Some None)))))
             w)
      | None => (Throw (Error "Operation not found"), w)
      end
    else (Throw (open_error (offline w)), w).
Proof.
  unfold SyncQueue.first_write, OfflineStorage.updateOperation,
    OfflineStorage.getObjectStore, get_world, modify, throw, open_error. run.
  destruct (db_available (offline w)); cbn.
  - by destruct (db_operations (offline w) !! op_id o).
  - by destruct (db_open_fails (offline w)).
Qed.

Lemma first_write_queue o w :
  queue (exec (SyncQueue.first_write o) w) = queue w /\
  promises (exec (SyncQueue.first_write o) w) = promises w.
Proof.
  unfold exec. rewrite first_write_cases.
  destruct (db_available (offline w)); [|done].
  by destruct (db_operations (offline w) !! op_id o).
Qed.

Lemma start_spec o w :
  SyncQueue.start o w =
    (Ok tt,
     with_promises
       (fun ps => ps ++ [mkStarted o (result (SyncQueue.first_write o) w)])
       (exec (SyncQueue.first_write o) w)).
Proof.
  unfold SyncQueue.start, attempt, modify, exec, result. run.
  by destruct (SyncQueue.first_write o w).
Qed.

Lemma start_queue o w :
  queue (exec (SyncQueue.start o) w) = queue w /\
  promises (exec (SyncQueue.start o) w) =
    promises w ++ [mkStarted o (result (SyncQueue.first_write o) w)].
Proof.
  destruct (first_write_queue o w) as [Hq Hp].
  unfold exec, result in *. rewrite start_spec. unfold exec, result. cbn.
  by rewrite Hq, Hp.
Qed.

(** The loop starts the selected operations. *)
Lemma dispatch_spec allOps w :
  SyncQueue.dispatch allOps w = (Ok tt, started (selected (queue w) allOps) w).
Proof.
  revert w. induction allOps as [|o rest IH]; intros w.
  - unfold selected. cbn. by rewrite firstn_nil.
  - cbn [SyncQueue.dispatch]. unfold SyncQueue.this. run.
    destruct (Z.leb_spec (maxConcurrentSync (queue w)) (activeSyncCount (queue w)))
      as [Hfull|Hroom].
    + unfold selected, capacity.
      replace (Z.to_nat _) with 0%nat by lia.
      reflexivity.
    + destruct (Z.leb_spec (maxRetries (queue w)) (op_retryCount o)) as [Hmax|Hretry].
      * rewrite IH. unfold selected. cbn [List.filter].
        replace (retryable (queue w) o) with false by (unfold retryable; lia).
        reflexivity.
      * unfold modify. run.
        set (w1 := with_queue (SyncQueue.with_activeSyncCount Z.succ) w).
        pose proof (start_queue o w1) as [Hq _].
        assert (Hsel : selected (queue w) (o :: rest) =
                       o :: selected (queue (exec (SyncQueue.start o) w1)) rest).
        { rewrite Hq. unfold selected. cbn [List.filter].
          replace (retryable (queue w) o) with true by (unfold retryable; lia).
          subst w1. destruct w as [rt rn c od [mr rd mc si ac io isy] u t ti em rq rs].
          unfold capacity; cbn in *.
          replace (Z.to_nat (mc - ac)) with (S (Z.to_nat (mc - Z.succ ac))) by lia.
          reflexivity. }
        rewrite Hsel, <- started_cons. fold w1.
        rewrite <- IH. unfold exec. by rewrite start_spec.
Qed.

(** Starting operations commutes with a change of the world that the
    first write neither reads nor undoes. *)
Section StartedCommutes.
Context (g : World -> World).
Hypothesis g_offline : forall w, offline (g w) = offline w.
Hypothesis g_with_offline : forall f w, g (with_offline f w) = with_offline f (g w).
Hypothesis g_with_promises : forall f w, g (with_promises f w) = with_promises f (g w).
Hypothesis g_counted : forall w,
  g (with_queue (SyncQueue.with_activeSyncCount Z.succ) w) =
  with_queue (SyncQueue.with_activeSyncCount Z.succ) (g w).

Lemma first_write_commutes o w :
  SyncQueue.first_write o (g w) =
    (result (SyncQueue.first_write o) w, g (exec (SyncQueue.first_write o) w)).
Proof.
  unfold result, exec. rewrite !first_write_cases, g_offline.
  destruct (db_available (offline w)); [|done].
  destruct (db_operations (offline w) !! op_id o); [|done].
  cbn. by rewrite g_with_offline.
Qed.

Lemma start_commutes o w :
  exec (SyncQueue.start o) (g w) = g (exec (SyncQueue.start o) w).
Proof.
  unfold exec. rewrite !start_spec. cbn.
  unfold exec, result. rewrite first_write_commutes. cbn.
  by rewrite g_with_promises.
Qed.

Lemma started_commutes sel w : started sel (g w) = g (started sel w).
Proof.
  revert w. induction sel as [|o sel IH]; intros w; [reflexivity|].
  rewrite <- !started_cons. by rewrite <- g_counted, start_commutes, IH.
Qed.
End StartedCommutes.

(** The promises, the operations in flight and the counters once [sel]
    has been started. *)
Lemma started_promises sel w :
  exists begun,
    length begun = length sel /\
    promises (started sel w) =
      promises w ++ zip_with mkStarted sel begun.
Proof.
  revert w. induction sel as [|o sel IH]; intros w.
  - exists []. cbn. by rewrite app_nil_r.
  - rewrite <- started_cons.
    destruct (IH (exec (SyncQueue.start o)
                    (with_queue (SyncQueue.with_activeSyncCount Z.succ) w)))
      as (begun & Hlen & ->).
    destruct (start_queue o (with_queue (SyncQueue.with_activeSyncCount Z.succ) w))
      as [_ ->].
    eexists (_ :: begun). split; [cbn; by rewrite Hlen|].
    rewrite <- app_assoc. reflexivity.
Qed.

Lemma started_running sel w : running (started sel w) = running w ++ sel.
Proof.
  destruct (started_promises sel w) as (begun & Hlen & Hp).
  unfold running. rewrite Hp, fmap_app. f_equal.
  clear Hp. revert begun Hlen. induction sel as [|o sel IH]; intros [|b begun] Hlen;
    try discriminate; [reflexivity|].
  cbn. f_equal. apply IH. by injection Hlen.
Qed.

Lemma started_queue sel w :
  queue (started sel w) =
    SyncQueue.with_activeSyncCount (fun a => (a + Z.of_nat (length sel))%Z) (queue w).
Proof.
  revert w. induction sel as [|o sel IH]; intros w.
  - cbn. destruct (queue w). unfold SyncQueue.with_activeSyncCount. cbn.
    by rewrite Z.add_0_r.
  - rewrite <- started_cons, IH.
    destruct (start_queue o (with_queue (SyncQueue.with_activeSyncCount Z.succ) w))
      as [-> _].
    destruct w as [rt rn c od [mr rd mc si ac io isy] u t ti em rq rs].
    unfold SyncQueue.with_activeSyncCount. cbn. f_equal. lia.
Qed.

(** Starting operations touches the log, the counter and the promises
    only. *)
Lemma started_keeps {X} (proj : World -> X) sel w :
  (forall f w, proj (with_offline (OfflineStorage.with_operations f) w) = proj w) ->
  (forall f w, proj (with_promises f w) = proj w) ->
  (forall w, proj (with_queue (SyncQueue.with_activeSyncCount Z.succ) w) = proj w) ->
  proj (started sel w) = proj w.
Proof.
  intros Ho Hp Hq. revert w. induction sel as [|o sel IH]; intros w; [reflexivity|].
  rewrite <- started_cons, IH. unfold exec. rewrite start_spec. cbn [snd].
  rewrite Hp. unfold exec. rewrite first_write_cases. cbn [offline with_queue].
  destruct (db_available (offline w)); [|apply Hq].
  destruct (db_operations (offline w) !! op_id o); cbn [snd]; [|apply Hq].
  by rewrite Ho, Hq.
Qed.

(** The first writes of operations that are stored under their ids, which
    differ, succeed. *)
Lemma started_stored sel w :
  db_available (offline w) = true ->
  (forall o, In o sel -> db_operations (offline w) !! op_id o = Some o) ->
  NoDup (op_id <$> sel) ->
  db_operations (offline (started sel w)) =
    syncing_marked sel (db_operations (offline w)) /\
  promises (started sel w) = promises w ++ begun_well sel.
Proof.
  revert w. induction sel as [|o sel IH]; intros w Hdb Hstored Hnd.
  - cbn. by rewrite app_nil_r.
  - rewrite fmap_cons in Hnd. apply NoDup_cons in Hnd as [Hfresh Hnd].
    rewrite <- started_cons.
    set (w0 := with_queue (SyncQueue.with_activeSyncCount Z.succ) w).
    assert (Hw1 : SyncQueue.start o w0 =
              (Ok tt,
               with_promises (fun ps => ps ++ [mkStarted o (Ok tt)])
                 (put_operation (apply_patch o mark_syncing) w0))).
    { rewrite start_spec. unfold result, exec. rewrite first_write_cases.
      subst w0. cbn [offline with_queue]. rewrite Hdb, (Hstored o) by (by left).
      reflexivity. }
    unfold exec. rewrite Hw1. cbn [snd].
    set (w1 := with_promises _ _).
    destruct (IH w1) as [Hlog Hprom].
    + exact Hdb.
    + intros o' Hin. subst w1 w0. cbn.
      rewrite lookup_insert_ne; [apply Hstored; by right|].
      intros E. apply Hfresh. cbn in E. rewrite E.
      apply list_elem_of_fmap. exists o'. split; [done|]. by apply list_elem_of_In.
    + exact Hnd.
    + rewrite Hlog, Hprom. subst w1 w0. cbn. split; [reflexivity|].
      by rewrite <- app_assoc.
Qed.

(** The records of the log once [sel] has been started. *)
Lemma syncing_marked_lookup sel m id :
  id ∉ op_id <$> sel -> syncing_marked sel m !! id = m !! id.
Proof.
  revert m. induction sel as [|o sel IH]; intros m Hid; [reflexivity|].
  change (syncing_marked (o :: sel) m)
    with (syncing_marked sel (<[op_id o := apply_patch o mark_syncing]> m)).
  rewrite IH.
  - apply lookup_insert_ne. intros <-. apply Hid. rewrite fmap_cons. apply list_elem_of_here.
  - intros Hin. apply Hid. rewrite fmap_cons. by apply list_elem_of_further.
Qed.

Lemma syncing_marked_started sel m o :
  NoDup (op_id <$> sel) -> In o sel ->
  syncing_marked sel m !! op_id o = Some (apply_patch o mark_syncing).
Proof.
  revert m. induction sel as [|x sel IH]; intros m Hnd Hin; [destruct Hin|].
  rewrite fmap_cons in Hnd. apply NoDup_cons in Hnd as [Hfresh Hnd].
  change (syncing_marked (x :: sel) m)
    with (syncing_marked sel (<[op_id x := apply_patch x mark_syncing]> m)).
  destruct Hin as [->|Hin].
  - rewrite syncing_marked_lookup by exact Hfresh. apply lookup_insert_eq.
  - by apply IH.
Qed.

Lemma syncing_marked_keyed sel m : keyed m -> keyed (syncing_marked sel m).
Proof.
  revert m. induction sel as [|o sel IH]; intros m Hk; [exact Hk|].
  change (syncing_marked (o :: sel) m)
    with (syncing_marked sel (<[op_id o := apply_patch o mark_syncing]> m)).
  apply IH. by apply map_Forall_insert_2.
Qed.

(** A drain does nothing offline or while syncing, reports an error when
    the database is missing, and otherwise starts the selection among
    the candidates.  It never fails. *)
Lemma processPendingOperations_idle w :
  isOnline (queue w) = false \/ isSyncing (queue w) = true ->
  SyncQueue.processPendingOperations w = (Ok tt, w).
Proof.
  intros H. unfold SyncQueue.processPendingOperations, SyncQueue.this. run.
  destruct H as [-> | ->]; [reflexivity | by rewrite orb_true_r].
Qed.

Lemma processPendingOperations_unavailable w :
  isOnline (queue w) = true -> isSyncing (queue w) = false ->
  db_available (offline w) = false ->
  SyncQueue.processPendingOperations w =
    (Ok tt,
     with_emitted
       (fun l => l ++ [EvSyncStarted; EvSyncError (open_error (offline w))])
       w).
Proof.
  intros Hon Hsync Hdb.
  unfold SyncQueue.processPendingOperations, SyncQueue.this. run.
  rewrite Hon, Hsync. cbn.
  unfold try_finally, try_catch, OfflineStorage.getOperations,
    OfflineStorage.getObjectStore, SyncQueue.emit, modify, open_error.
  run. rewrite Hdb. cbn.
  destruct w as [rt rn c od [mr rd mc si ac io isy] u t ti em rq rs]; cbn in *.
  subst. destruct (db_open_fails od); cbn;
    unfold with_emitted, with_queue; cbn; rewrite <- app_assoc; reflexivity.
Qed.

Lemma processPendingOperations_online w :
  isOnline (queue w) = true -> isSyncing (queue w) = false ->
  db_available (offline w) = true ->
  SyncQueue.processPendingOperations w =
    (Ok tt,
     with_emitted
       (fun l => l ++ [EvSyncStarted;
                       EvSyncCompleted true 0
                         (match candidates w with [] => None | _ => Some 0%Z end)])
       (started (selected (queue w) (candidates w)) w)).
Proof.
  intros Hon Hsync Hdb.
  assert (Hstarted : forall sel,
    started sel
      (with_emitted (fun l => l ++ [EvSyncStarted])
         (with_queue (SyncQueue.with_isSyncing true) w)) =
    with_emitted (fun l => l ++ [EvSyncStarted])
      (with_queue (SyncQueue.with_isSyncing true) (started sel w))).
  { intros sel. rewrite !started_commutes; reflexivity. }
  assert (Hidle : forall sel, isSyncing (queue (started sel w)) = false).
  { intros sel. rewrite started_queue. by destruct (queue w). }
  destruct w as [rt rn c [av fl dn df dop dm] [mr rd mc si ac io isy] u t ti em rq rs].
  cbn in Hon, Hsync, Hdb. subst.
  unfold SyncQueue.processPendingOperations, SyncQueue.this,
    try_finally, try_catch, OfflineStorage.getOperations,
    OfflineStorage.getObjectStore, SyncQueue.emit, modify, get_world,
    candidates, operations_with.
  run.
  destruct (js_sort _ _) as [|o rest] eqn:Hc.
  - cbn. unfold selected. cbn. rewrite firstn_nil. cbn.
    unfold with_emitted, with_queue; cbn. rewrite <- app_assoc. reflexivity.
  - rewrite dispatch_spec. cbn [fst snd].
    unfold with_emitted at 1 2, with_queue at 1 2 in Hstarted. cbn in Hstarted.
    cbn [queue]. unfold SyncQueue.with_isSyncing at 2. cbn.
    match goal with
    | |- context [started ?sel ?x] =>
        replace (started sel x) with
          (with_emitted (fun l => l ++ [EvSyncStarted])
             (with_queue (SyncQueue.with_isSyncing true)
                (started (selected (mkSyncQueueService mr rd mc si ac true false)
                            (o :: rest))
                   (mkWorld rt rn c (mkOfflineDB true fl dn df dop dm)
                      (mkSyncQueueService mr rd mc si ac true false)
                      u t ti em rq rs))))
    end.
    + specialize (Hidle (selected (mkSyncQueueService mr rd mc si ac true false)
                           (o :: rest))).
      revert Hidle. generalize (started (selected (mkSyncQueueService mr rd mc si ac true false) (o :: rest))
                   (mkWorld rt rn c (mkOfflineDB true fl dn df dop dm)
                      (mkSyncQueueService mr rd mc si ac true false)
                      u t ti em rq rs)).
      intros [rt' rn' c' od' [mr' rd' mc' si' ac' io' isy'] u' t' ti' em' rq' rs'] Hidle.
      cbn in Hidle. subst. unfold with_emitted, with_queue; cbn.
      rewrite <- app_assoc. reflexivity.
    + symmetry. apply Hstarted.
Qed.

Lemma processPendingOperations_ok w :
  fst (SyncQueue.processPendingOperations w) = Ok tt.
Proof.
  destruct (isOnline (queue w)) eqn:Hon; [destruct (isSyncing (queue w)) eqn:Hsy|].
  - by rewrite processPendingOperations_idle by auto.
  - destruct (db_available (offline w)) eqn:Hdb1.
    + by rewrite processPendingOperations_online by auto.
    + by rewrite processPendingOperations_unavailable by auto.
  - by rewrite processPendingOperations_idle by auto.
Qed.

Lemma processPendingOperations_running w :
  running (exec SyncQueue.processPendingOperations w) = running w ++ drain_selection w.
Proof.
  unfold exec, drain_selection.
  destruct (isOnline (queue w)) eqn:Hon; [destruct (isSyncing (queue w)) eqn:Hs|]; cbn.
  - rewrite processPendingOperations_idle by auto. cbn. by rewrite app_nil_r.
  - destruct (db_available (offline w)) eqn:Hdb.
    + rewrite processPendingOperations_online by auto. cbn [snd].
      apply (started_running (selected (queue w) (candidates w)) w).
    + rewrite processPendingOperations_unavailable by auto. cbn. by rewrite app_nil_r.
  - rewrite processPendingOperations_idle by auto. cbn. by rewrite app_nil_r.
Qed.

Lemma processPendingOperations_keeps_data w :
  let w' := exec SyncQueue.processPendingOperations w in
  content w' = content w /\ timers w' = timers w /\ requests w' = requests w /\
  db_available (offline w') = db_available (offline w) /\
  db_open_fails (offline w') = db_open_fails (offline w) /\
  db_notes (offline w') = db_notes (offline w) /\
  db_folders (offline w') = db_folders (offline w) /\
  db_metadata (offline w') = db_metadata (offline w).
Proof.
  unfold exec.
  destruct (isOnline (queue w)) eqn:Hon; [destruct (isSyncing (queue w)) eqn:Hs|]; cbn.
  - by rewrite processPendingOperations_idle by auto.
  - destruct (db_available (offline w)) eqn:Hdb.
    + rewrite processPendingOperations_online by auto. cbn [snd].
      set (sel := selected (queue w) (candidates w)).
      repeat match goal with |- _ /\ _ => split end.
      * apply (started_keeps content sel w); reflexivity.
      * apply (started_keeps timers sel w); reflexivity.
      * apply (started_keeps requests sel w); reflexivity.
      * rewrite <- Hdb.
        apply (started_keeps (fun w => db_available (offline w)) sel w); reflexivity.
      * apply (started_keeps (fun w => db_open_fails (offline w)) sel w); reflexivity.
      * apply (started_keeps (fun w => db_notes (offline w)) sel w); reflexivity.
      * apply (started_keeps (fun w => db_folders (offline w)) sel w); reflexivity.
      * apply (started_keeps (fun w => db_metadata (offline w)) sel w); reflexivity.
    + rewrite processPendingOperations_unavailable by auto. cbn. by rewrite Hdb.
  - by rewrite processPendingOperations_idle by auto.
Qed.

Lemma selected_length q allOps : (length (selected q allOps) <= capacity q)%nat.
Proof. unfold selected. rewrite length_firstn. lia. Qed.

Lemma selected_retryable q allOps o :
  In o (selected q allOps) -> In o allOps /\ (op_retryCount o < maxRetries q)%Z.
Proof.
  unfold selected. intros Hin.
  assert (Hf : In o (List.filter (retryable q) allOps)).
  { rewrite <- (firstn_skipn (capacity q)). apply in_or_app. by left. }
  apply filter_In in Hf as [Hin' Hr]. unfold retryable in Hr. split; [done|lia].
Qed.

Lemma filter_sublist {A} (p : A -> bool) l : List.filter p l `sublist_of` l.
Proof.
  induction l as [|x l IH]; cbn; [constructor|].
  destruct (p x); by constructor.
Qed.

Lemma selected_sublist q allOps : selected q allOps `sublist_of` allOps.
Proof.
  unfold selected. etrans; [apply sublist_take|apply filter_sublist].
Qed.


(** The candidates of a drain are the stored operations that are pending
    or failed, each once. *)
Lemma candidates_status w o :
  In o (candidates w) -> op_status o = Pending \/ op_status o = Failed.
Proof.
  intros Hin.
  apply (Permutation_in _ (candidates_perm w)) in Hin.
  apply in_app_or in Hin as [Hin|Hin];
    apply filter_In in Hin as [_ Hs]; apply bool_decide_eq_true in Hs; auto.
Qed.

Lemma candidates_stored w o :
  keyed (db_operations (offline w)) ->
  In o (candidates w) -> db_operations (offline w) !! op_id o = Some o.
Proof.
  intros Hk Hin.
  apply (Permutation_in _ (candidates_perm w)) in Hin.
  apply in_app_or in Hin as [Hin|Hin];
    apply filter_In in Hin as [Hin _]; apply store_getAll_In in Hin as [k Hl];
    by rewrite (keyed_lookup _ _ _ Hk Hl).
Qed.


(** In a keyed log no two records share an id. *)
Lemma getAll_ids_NoDup m :
  keyed m -> NoDup (op_id <$> OfflineStorage.store_getAll m).
Proof.
  intros Hk. unfold OfflineStorage.store_getAll.
  rewrite <- list_fmap_compose.
  rewrite (js_sort_perm OfflineStorage.key_compare).
  rewrite (list_fmap_ext (op_id ∘ snd) fst (map_to_list m)).
  - apply NoDup_fst_map_to_list.
  - intros i [k o] Hi. cbn. apply Hk.
    apply elem_of_map_to_list. by eapply list_elem_of_lookup_2.
Qed.

Lemma candidates_ids_NoDup w :
  keyed (db_operations (offline w)) -> NoDup (op_id <$> candidates w).
Proof.
  intros Hk. unfold candidates.
  rewrite (js_sort_perm SyncQueue.by_timestamp).
  rewrite fmap_app. apply NoDup_app. split; [|split].
  - eapply sublist_NoDup; [by apply getAll_ids_NoDup|].
    apply fmap_sublist, filter_sublist.
  - intros id Hp Hf.
    apply list_elem_of_fmap in Hp as (a & -> & Ha).
    apply list_elem_of_fmap in Hf as (b & Hid & Hb).
    apply list_elem_of_In, filter_In in Ha as [Ha Hsa].
    apply list_elem_of_In, filter_In in Hb as [Hb Hsb].
    apply store_getAll_In in Ha as [ka Hla]. apply store_getAll_In in Hb as [kb Hlb].
    pose proof (keyed_lookup _ _ _ Hk Hla). pose proof (keyed_lookup _ _ _ Hk Hlb).
    assert (a = b) as -> by congruence.
    apply bool_decide_eq_true in Hsa, Hsb. congruence.
  - eapply sublist_NoDup; [by apply getAll_ids_NoDup|].
    apply fmap_sublist, filter_sublist.
Qed.

(** After a drain the log holds the operations it started as [Syncing],
    and their promises are in flight. *)
Lemma processPendingOperations_log w :
  keyed (db_operations (offline w)) ->
  let w' := exec SyncQueue.processPendingOperations w in
  db_operations (offline w') =
    syncing_marked (drain_selection w) (db_operations (offline w)) /\
  promises w' = promises w ++ begun_well (drain_selection w) /\
  NoDup (op_id <$> drain_selection w) /\
  (forall o, In o (drain_selection w) ->
     db_operations (offline w) !! op_id o = Some o).
Proof.
  intros Hk. unfold exec, drain_selection.
  destruct (isOnline (queue w)) eqn:Hon; [destruct (isSyncing (queue w)) eqn:Hs|]; cbn.
  - rewrite processPendingOperations_idle by auto. cbn. rewrite app_nil_r.
    repeat split; [constructor | intros o []].
  - destruct (db_available (offline w)) eqn:Hdb.
    + rewrite processPendingOperations_online by auto. cbn [snd].
      set (sel := selected (queue w) (candidates w)).
      assert (Hnd : NoDup (op_id <$> sel)).
      { eapply sublist_NoDup; [by apply candidates_ids_NoDup|].
        apply fmap_sublist, selected_sublist. }
      assert (Hst : forall o, In o sel -> db_operations (offline w) !! op_id o = Some o).
      { intros o Hin. apply candidates_stored; [done|].
        apply list_elem_of_In. eapply elem_of_sublist; [|apply selected_sublist].
        by apply list_elem_of_In. }
      destruct (started_stored sel w Hdb Hst Hnd) as [Hlog Hprom].
      split; [exact Hlog|]. split; [exact Hprom|]. split; [exact Hnd|exact Hst].
    + rewrite processPendingOperations_unavailable by auto. cbn. rewrite app_nil_r.
      repeat split; [constructor | intros o []].
  - rewrite processPendingOperations_idle by auto. cbn. rewrite app_nil_r.
    repeat split; [constructor | intros o []].
Qed.

(** A drain leaves the records it does not start as they are. *)
Lemma processPendingOperations_skipped w o :
  keyed (db_operations (offline w)) ->
  db_operations (offline w) !! op_id o = Some o ->
  ~ In o (drain_selection w) ->
  db_operations (offline (exec SyncQueue.processPendingOperations w)) !! op_id o = Some o.
Proof.
  intros Hk Hstored Hskip.
  destruct (processPendingOperations_log w Hk) as (-> & _ & _ & Hsel).
  rewrite syncing_marked_lookup; [exact Hstored|].
  intros Hin. apply list_elem_of_fmap in Hin as (o' & Hid & Hin).
  apply list_elem_of_In in Hin. apply Hskip.
  pose proof (Hsel o' Hin) as Hstored'. rewrite <- Hid, Hstored in Hstored'.
  by injection Hstored' as ->.
Qed.



Lemma drain_selection_sorted w : StronglySorted older (drain_selection w).
Proof.
  unfold drain_selection. destruct (_ && _); [|constructor].
  unfold selected. apply sorted_firstn, sorted_filter, candidates_sorted.
Qed.

(** A world with the same counters and promises has grown, by nothing;
    [grows] is transitive; a drain grows the world. *)
Lemma grows_of_load w w' : load w' = load w -> grows w w'.
Proof.
  unfold load. intros [= Ha Hm Hr Hrun]. exists [].
  rewrite app_nil_r, Z.add_0_r. repeat split; auto. cbn. lia.
Qed.

Lemma grows_trans w1 w2 w3 : grows w1 w2 -> grows w2 w3 -> grows w1 w3.
Proof.
  intros (s1 & Hr1 & Ha1 & Hm1 & Hx1 & Hc1) (s2 & Hr2 & Ha2 & Hm2 & Hx2 & Hc2).
  exists (s1 ++ s2). unfold capacity in *.
  rewrite Hr2, Hr1, Ha2, Ha1, Hm2, Hm1, Hx2, Hx1, length_app, <- app_assoc.
  repeat split; lia.
Qed.

Lemma processPendingOperations_grows w :
  grows w (exec SyncQueue.processPendingOperations w).
Proof.
  unfold exec.
  destruct (isOnline (queue w)) eqn:Hon; [destruct (isSyncing (queue w)) eqn:Hs|].
  - rewrite processPendingOperations_idle by auto. by apply grows_of_load.
  - destruct (db_available (offline w)) eqn:Hdb.
    + rewrite processPendingOperations_online by auto. cbn [snd].
      exists (selected (queue w) (candidates w)).
      set (w' := started _ w).
      assert (Hr : running (with_emitted
                     (fun l => l ++ [EvSyncStarted;
                        EvSyncCompleted true 0
                          (match candidates w with [] => None | _ => Some 0%Z end)]) w')
                   = running w') by reflexivity.
      assert (Hq : queue (with_emitted
                     (fun l => l ++ [EvSyncStarted;
                        EvSyncCompleted true 0
                          (match candidates w with [] => None | _ => Some 0%Z end)]) w')
                   = queue w') by reflexivity.
      rewrite Hr, Hq. subst w'. rewrite started_running, started_queue.
      destruct (queue w); cbn. repeat split; auto. apply selected_length.
    + rewrite processPendingOperations_unavailable by auto.
      by apply grows_of_load.
  - rewrite processPendingOperations_idle by auto. by apply grows_of_load.
Qed.

(** * Retrying and cancelling *)

(** [retryOperation] resets the stored operation and, online, drains. *)
Lemma retryOperation_spec id w stored :
  db_available (offline w) = true ->
  keyed (db_operations (offline w)) ->
  db_operations (offline w) !! id = Some stored ->
  SyncQueue.retryOperation id w =
    (if isOnline (queue w) then SyncQueue.processPendingOperations else mret tt)
      (put_operation (apply_patch stored reset_patch) w).
Proof.
  intros Hdb Hk Hs.
  unfold SyncQueue.retryOperation.
  unfold mbind at 1, M_bind at 1. rewrite getOperations_all by done.
  rewrite find_by_id, Hs by done.
  unfold mbind at 1, M_bind at 1.
  rewrite (updateOperation_ok _ _ _ _ Hdb Hs).
  reflexivity.
Qed.

Lemma retryOperation_resets id w stored :
  db_available (offline w) = true ->
  keyed (db_operations (offline w)) ->
  db_operations (offline w) !! id = Some stored ->
  let w1 := put_operation (apply_patch stored reset_patch) w in
  result (SyncQueue.retryOperation id) w = Ok tt /\
  db_operations (offline (exec (SyncQueue.retryOperation id) w)) =
    (if isOnline (queue w)
     then syncing_marked (drain_selection w1)
     else fun m => m) (<[id := apply_patch stored reset_patch]> (db_operations (offline w))).
Proof.
  intros Hdb Hk Hs w1.
  unfold result, exec. rewrite (retryOperation_spec _ _ _ Hdb Hk Hs).
  pose proof (Hk _ _ Hs) as Hid. cbn in Hid. fold w1.
  assert (Hlog1 : db_operations (offline w1) =
                  <[id := apply_patch stored reset_patch]> (db_operations (offline w))).
  { subst w1. cbn. by rewrite Hid. }
  assert (Hk1 : keyed (db_operations (offline w1))).
  { rewrite Hlog1. apply map_Forall_insert_2; [exact Hid|exact Hk]. }
  destruct (isOnline (queue w)).
  - split; [apply processPendingOperations_ok|].
    destruct (processPendingOperations_log w1 Hk1) as (Hlog & _).
    unfold exec in Hlog. by rewrite Hlog, Hlog1.
  - cbn. split; [done|exact Hlog1].
Qed.

(** [retryOperation] does not look at the status of the record: it puts
    the record back with count 0 and no error, and online it runs a drain
    that may start the operation at once. *)
Lemma retryOperation_again id w stored :
  db_available (offline w) = true ->
  keyed (db_operations (offline w)) ->
  db_operations (offline w) !! id = Some stored ->
  let w3 := exec (SyncQueue.retryOperation id) w in
  exists again,
    db_operations (offline w3) !! id = Some again /\
    op_retryCount again = 0%Z /\
    op_lastError again = None /\
    (op_status again = Pending \/
     op_status again = Syncing /\
     In (apply_patch stored reset_patch) (running w3)) /\
    (isOnline (queue w) = false -> again = apply_patch stored reset_patch).
Proof.
  intros Hdb Hk Hl. cbv zeta.
  pose proof (keyed_lookup _ _ _ Hk Hl) as Hid.
  set (again := apply_patch stored reset_patch).
  set (w1 := put_operation again w).
  destruct (retryOperation_resets id w stored Hdb Hk Hl) as [_ Hlog3].
  fold again w1 in Hlog3.
  assert (Hlog1 : db_operations (offline w1) =
                  <[id := again]> (db_operations (offline w))).
  { subst w1. cbn. by rewrite Hid. }
  assert (Hk1 : keyed (db_operations (offline w1))).
  { rewrite Hlog1. apply map_Forall_insert_2; [exact Hid|exact Hk]. }
  assert (Hrun3 : isOnline (queue w) = true ->
            running (exec (SyncQueue.retryOperation id) w) =
            running w1 ++ drain_selection w1).
  { intros Hon. unfold exec at 1.
    rewrite (retryOperation_spec _ _ _ Hdb Hk Hl). fold again w1.
    rewrite Hon.
    apply processPendingOperations_running. }
  destruct (isOnline (queue w)) eqn:Hon.
  - destruct (decide (id ∈ op_id <$> drain_selection w1)) as [Hin|Hout].
    + apply list_elem_of_fmap in Hin as (o & Ho & Hin).
      apply list_elem_of_In in Hin.
      destruct (processPendingOperations_log w1 Hk1) as (_ & _ & Hnd & Hsel).
      pose proof (Hsel o Hin) as Hstored. rewrite <- Ho, Hlog1 in Hstored.
      rewrite lookup_insert_eq in Hstored. injection Hstored as <-.
      pose proof (syncing_marked_started _ (db_operations (offline w1)) _ Hnd Hin)
        as Hm.
      rewrite <- Ho in Hm.
      exists (apply_patch again mark_syncing).
      split; [rewrite Hlog3, <- Hlog1; exact Hm|].
      split; [reflexivity|]. split; [reflexivity|].
      split; [|discriminate].
      right. split; [reflexivity|].
      rewrite Hrun3 by reflexivity. apply in_or_app. by right.
    + exists again.
      split; [rewrite Hlog3, syncing_marked_lookup by exact Hout;
              apply lookup_insert_eq|].
      split; [reflexivity|]. split; [reflexivity|].
      split; [by left|reflexivity].
  - exists again.
    split; [rewrite Hlog3; apply lookup_insert_eq|].
    split; [reflexivity|]. split; [reflexivity|].
    split; [by left|reflexivity].
Qed.

(** [cancelOperation] deletes the operation, and the provisional entity
    of a create. *)
Lemma cancelOperation_spec id w :
  db_available (offline w) = true ->
  keyed (db_operations (offline w)) ->
  let w' := exec (SyncQueue.cancelOperation id) w in
  result (SyncQueue.cancelOperation id) w = Ok tt /\
  db_operations (offline w') = delete id (db_operations (offline w)) /\
  emitted w' = emitted w ++ [EvOperationCancelled id] /\
  match db_operations (offline w) !! id with
  | Some operation =>
      match op_type operation, op_entityType operation with
      | OpCreate, EntNote =>
          notes (content w') = delete (op_entityId operation) (notes (content w)) /\
          folders (content w') = folders (content w) /\
          db_notes (offline w') = delete (op_entityId operation) (db_notes (offline w))
      | OpCreate, EntFolder =>
          folders (content w') = delete (op_entityId operation) (folders (content w)) /\
          notes (content w') = notes (content w) /\
          db_folders (offline w') =
            delete (op_entityId operation) (db_folders (offline w))
      | _, _ => content w' = content w
      end
  | None => content w' = content w
  end.
Proof.
  intros Hdb Hk.
  destruct w as [rt rn c [av fl dn df dop dm] q u t ti em rq rs].
  cbn in Hdb, Hk. subst av.
  unfold result, exec, SyncQueue.cancelOperation, OfflineStorage.getOperations,
    OfflineStorage.getObjectStore, OfflineStorage.deleteOperation,
    OfflineStorage.deleteNote, OfflineStorage.deleteFolder,
    ContentStore.removeNote, ContentStore.removeFolder, ContentStore.set,
    SyncQueue.emit, get_world, modify.
  run. rewrite find_by_id by done.
  destruct (dop !! id) as [operation|]; cbn;
    [destruct (op_type operation), (op_entityType operation); cbn|];
    repeat split; reflexivity.
Qed.

(** [resolvePendingConflicts] looks for "conflict" in the last error of
    the failed operations; the message [handleConflict] produces begins
    with a capital and is not found. *)
Example conflict_message_not_recognised :
  SyncQueue.includes "Conflict detected" "conflict" = false /\
  SyncQueue.includes "Version conflict" "conflict" = true.
Proof. split; reflexivity. Qed.

(** * Every step keeps the balance *)







Lemma grows_balanced w w' : grows w w' -> balanced w -> balanced w'.
Proof.
  intros (sel & Hr & Ha & Hm & _ & Hc) [Hb Hle].
  unfold balanced, in_flight, capacity in *.
  rewrite Hr, Ha, Hm, length_app. lia.
Qed.




(** * One attempt *)

Lemma executeOperation_keeps_log operation :
  keeps log_view (SyncQueue.executeOperation operation).
Proof. frame. Qed.

(** What follows the first write of [processOperation], when it
    succeeded: execute, then mark synced and schedule the removal, or
    record the failure and schedule a retry. *)
Lemma processOperation_from_outcome begin operation w w1 current :
  begin w = (Ok tt, w1) ->
  db_available (offline w1) = true ->
  db_operations (offline w1) !! op_id operation = Some current ->
  op_id current = op_id operation ->
  let r := fst (SyncQueue.executeOperation operation w1) in
  let w2 := snd (SyncQueue.executeOperation operation w1) in
  SyncQueue.processOperation_from begin operation w =
    match failure r with
    | None =>
        (Ok tt,
         with_timers (fun ts => ts ++ [mkTimer (Some 60000%Z)
                                          (TDeleteOperation (op_id operation))])
           (put_operation (apply_patch current mark_synced) w2))
    | Some e =>
        (Throw e,
         let w3 := put_operation
                     (apply_patch current (mark_failed (queue w1) operation e)) w2 in
         match status_after_failure (queue w1) operation with
         | Pending => with_timers (fun ts => ts ++ [retry_timer (queue w1) operation]) w3
         | _ => w3
         end)
    end.
Proof.
  intros Hbegin Hdb Hcurrent Hid r w2.
  pose proof (executeOperation_keeps_log operation w1) as Hframe.
  fold w2 in Hframe. unfold log_view in Hframe.
  injection Hframe as Hdb2 Hops2 Htim2 Hq2 Hrun2.
  assert (Hdb2' : db_available (offline w2) = true) by (rewrite Hdb2; exact Hdb).
  assert (Hlook : db_operations (offline w2) !! op_id operation = Some current).
  { by rewrite Hops2. }
  unfold SyncQueue.processOperation_from, try_catch.
  unfold mbind at 1, M_bind at 1.
  rewrite Hbegin.
  unfold mbind at 1, M_bind at 1.
  subst r. destruct (SyncQueue.executeOperation operation w1) as [[res|e] w2'] eqn:Hexec;
    cbn [fst snd failure] in *; subst w2.
  - destruct (sr_success res).
    + unfold mbind, M_bind.
      rewrite (updateOperation_ok _ _ _ _ Hdb2' Hlook). reflexivity.
    + unfold throw, SyncQueue.this. run.
      rewrite (updateOperation_ok _ _ _ _ Hdb2' Hlook).
      unfold put_operation. cbn. rewrite Hq2. cbn.
      unfold status_after_failure, mark_failed, status_after_failure, retry_timer.
      destruct (maxRetries (queue w1) <=? op_retryCount operation + 1)%Z; reflexivity.
  - unfold SyncQueue.this. run.
    rewrite (updateOperation_ok _ _ _ _ Hdb2' Hlook).
    unfold put_operation. cbn. rewrite Hq2. cbn.
    unfold status_after_failure, mark_failed, status_after_failure, retry_timer.
    destruct (maxRetries (queue w1) <=? op_retryCount operation + 1)%Z; reflexivity.
Qed.

(** [processOperation] in one equation: mark syncing, execute, then mark
    synced and schedule the removal, or record the failure and schedule
    a retry. *)
Lemma processOperation_outcome operation w stored :
  db_available (offline w) = true ->
  db_operations (offline w) !! op_id operation = Some stored ->
  op_id stored = op_id operation ->
  let syncing := apply_patch stored mark_syncing in
  let w1 := put_operation syncing w in
  let r := fst (SyncQueue.executeOperation operation w1) in
  let w2 := snd (SyncQueue.executeOperation operation w1) in
  SyncQueue.processOperation operation w =
    match failure r with
    | None =>
        (Ok tt,
         with_timers (fun ts => ts ++ [mkTimer (Some 60000%Z)
                                          (TDeleteOperation (op_id operation))])
           (put_operation (apply_patch syncing mark_synced) w2))
    | Some e =>
        (Throw e,
         let w3 := put_operation
                     (apply_patch syncing (mark_failed (queue w) operation e)) w2 in
         match status_after_failure (queue w) operation with
         | Pending => with_timers (fun ts => ts ++ [retry_timer (queue w) operation]) w3
         | _ => w3
         end)
    end.
Proof.
  intros Hdb Hstored Hid syncing w1 r w2.
  unfold SyncQueue.processOperation.
  rewrite (processOperation_from_outcome _ operation w w1 syncing).
  - reflexivity.
  - unfold SyncQueue.first_write. fold mark_syncing.
    by rewrite (updateOperation_ok _ _ _ _ Hdb Hstored).
  - exact Hdb.
  - subst w1. cbn. rewrite <- Hid. apply lookup_insert_eq.
  - exact Hid.
Qed.

(** A rejected call: a 409 goes to [handleConflict], which emits the
    conflict; any other error is thrown.  Projection and database stay
    as they are. *)
Lemma executeOperation_rejected operation w e :
  remote_call operation (rt_remote (runtime w)) = Some e ->
  let w' := exec (SyncQueue.executeOperation operation) w in
  result (SyncQueue.executeOperation operation) w =
    (if is_conflict e then Ok (conflict_result operation e) else Throw e) /\
  emitted w' =
    emitted w ++
    (if is_conflict e then [EvConflict operation [conflict_of operation e]] else []) /\
  content w' = content w /\
  offline w' = offline w.
Proof.
  intros Hcall.
  unfold remote_call in Hcall.
  unfold exec, result, SyncQueue.executeOperation, SyncQueue.executeNoteOperation,
    SyncQueue.executeFolderOperation, try_catch, is_conflict.
  destruct (op_entityType operation), (op_type operation);
    unfold Api.notes_create, Api.notes_update, Api.notes_delete, Api.notes_move,
      Api.folders_create, Api.folders_update, Api.folders_delete, Api.folders_move,
      Api.request;
    run;
    match type of Hcall with
    | match ?a with _ => _ end = _ => destruct a as [e'|?]; [|discriminate]
    end;
    injection Hcall as ->; cbn;
    (destruct (bool_decide (err_status e = Some 409%Z)); cbn;
     [ unfold SyncQueue.handleConflict, SyncQueue.emit, modify; run;
       repeat split; reflexivity
     | repeat split; try reflexivity; by rewrite app_nil_r ]).
Qed.

(** The log, the timers and the queue after a failed attempt. *)
Lemma processOperation_failed operation w stored e :
  db_available (offline w) = true ->
  db_operations (offline w) !! op_id operation = Some stored ->
  op_id stored = op_id operation ->
  result (SyncQueue.processOperation operation) w = Throw e ->
  let w' := exec (SyncQueue.processOperation operation) w in
  let w2 := exec (SyncQueue.executeOperation operation)
              (put_operation (apply_patch stored mark_syncing) w) in
  failure (result (SyncQueue.executeOperation operation)
             (put_operation (apply_patch stored mark_syncing) w)) = Some e /\
  db_available (offline w') = true /\
  db_operations (offline w') =
    <[op_id operation := failed_record (queue w) operation stored e]>
      (db_operations (offline w)) /\
  timers w' = timers w ++ retry_timers (queue w) operation /\
  queue w' = queue w /\
  running w' = running w /\
  emitted w' = emitted w2 /\
  content w' = content w2 /\
  requests w' = requests w2.
Proof.
  intros Hdb Hs Hid Hres w' w2.
  pose proof (processOperation_outcome operation w stored Hdb Hs Hid) as Hout.
  cbv zeta in Hout.
  pose proof (executeOperation_keeps_log operation
                (put_operation (apply_patch stored mark_syncing) w)) as Hframe.
  unfold log_view in Hframe. injection Hframe as Hdb2 Hops2 Htim2 Hq2 Hrun2.
  subst w' w2. unfold result, exec in *.
  rewrite Hout in *. clear Hout.
  destruct (failure _) as [e'|]; cbn in Hres; [|discriminate].
  injection Hres as ->. split; [reflexivity|].
  unfold retry_timers, failed_record.
  destruct (status_after_failure (queue w) operation); cbn;
    rewrite ?Hdb2, ?Hops2, ?Htim2, ?Hq2, ?Hrun2; cbn;
    rewrite ?Hid, ?insert_insert_eq, ?app_nil_r; repeat split; done.
Qed.

(** The log and the timers after a successful attempt. *)
Lemma processOperation_synced operation stored w :
  db_available (offline w) = true ->
  db_operations (offline w) !! op_id operation = Some stored ->
  op_id stored = op_id operation ->
  let w1 := put_operation (apply_patch stored mark_syncing) w in
  result (SyncQueue.executeOperation operation) w1 = Ok SyncQueue.success ->
  let w2 := exec (SyncQueue.executeOperation operation) w1 in
  let w' := exec (SyncQueue.processOperation operation) w in
  result (SyncQueue.processOperation operation) w = Ok tt /\
  content w' = content w2 /\
  db_notes (offline w') = db_notes (offline w2) /\
  db_folders (offline w') = db_folders (offline w2) /\
  (op_status <$> db_operations (offline w') !! op_id operation) = Some Synced.
Proof.
  intros Hdb Hs Hid w1 Hres w2 w'.
  pose proof (processOperation_outcome operation w stored Hdb Hs Hid) as Hout.
  cbv zeta in Hout. fold w1 in Hout.
  subst w' w2. unfold result, exec in *. rewrite Hout, Hres. cbn.
  repeat split. rewrite Hid. by rewrite lookup_insert_eq.
Qed.

(** A create sends one POST built from the payload. *)
Lemma executeOperation_create_note operation w :
  op_type operation = OpCreate -> op_entityType operation = EntNote ->
  let w' := exec (SyncQueue.executeOperation operation) w in
  requests w' =
    requests w ++
    [Api.build_request POST "/notes" (Some (note_createData (op_data operation)))
       (accessToken w)] /\
  forall created,
    remote_notes_create (rt_remote (runtime w)) (note_createData (op_data operation))
      = inr created ->
    db_available (offline w) = true ->
    result (SyncQueue.executeOperation operation) w = Ok SyncQueue.success /\
    notes (content w') =
      <[note_id created := created]> (delete (op_entityId operation) (notes (content w))) /\
    db_notes (offline w') =
      <[note_id created := (created, rt_now (runtime w))]>
        (delete (op_entityId operation) (db_notes (offline w))).
Proof.
  intros Ht He.
  destruct w as [rt rn c [av fl dn df dop dm] q u t ti em rq rs].
  unfold exec, result, SyncQueue.executeOperation, try_catch. rewrite Ht, He.
  unfold SyncQueue.executeNoteOperation, Api.notes_create, Api.request,
    ContentStore.removeNote, ContentStore.addNote, ContentStore.set,
    OfflineStorage.deleteNote, OfflineStorage.saveNote,
    OfflineStorage.getObjectStore, Date_now, modify, note_createData.
  run. split.
  - destruct (remote_notes_create _ _) as [e|n]; cbn.
    + destruct (bool_decide _); reflexivity.
    + destruct av, fl; reflexivity.
  - intros created -> ->. cbn. repeat split; reflexivity.
Qed.

Lemma executeOperation_create_folder operation w :
  op_type operation = OpCreate -> op_entityType operation = EntFolder ->
  let w' := exec (SyncQueue.executeOperation operation) w in
  requests w' =
    requests w ++
    [Api.build_request POST "/folders" (Some (folder_createData (op_data operation)))
       (accessToken w)] /\
  forall created,
    remote_folders_create (rt_remote (runtime w)) (folder_createData (op_data operation))
      = inr created ->
    db_available (offline w) = true ->
    result (SyncQueue.executeOperation operation) w = Ok SyncQueue.success /\
    folders (content w') =
      <[folder_id created := created]>
        (delete (op_entityId operation) (folders (content w))) /\
    db_folders (offline w') =
      <[folder_id created := (created, rt_now (runtime w))]>
        (delete (op_entityId operation) (db_folders (offline w))).
Proof.
  intros Ht He.
  destruct w as [rt rn c [av fl dn df dop dm] q u t ti em rq rs].
  unfold exec, result, SyncQueue.executeOperation, try_catch. rewrite Ht, He.
  unfold SyncQueue.executeFolderOperation, Api.folders_create, Api.request,
    ContentStore.removeFolder, ContentStore.addFolder, ContentStore.set,
    OfflineStorage.deleteFolder, OfflineStorage.saveFolder,
    OfflineStorage.getObjectStore, Date_now, modify, folder_createData.
  run. split.
  - destruct (remote_folders_create _ _) as [e|n]; cbn.
    + destruct (bool_decide _); reflexivity.
    + destruct av, fl; reflexivity.
  - intros created -> ->. cbn. repeat split; reflexivity.
Qed.

(** A confirmed create replaces the provisional entity in the projection
    and in the database. *)
Lemma processOperation_create_note operation stored created w :
  db_available (offline w) = true ->
  keyed (db_operations (offline w)) ->
  db_operations (offline w) !! op_id operation = Some stored ->
  op_type operation = OpCreate ->
  op_entityType operation = EntNote ->
  remote_notes_create (rt_remote (runtime w)) (note_createData (op_data operation))
    = inr created ->
  note_id created <> op_entityId operation ->
  let w' := exec (SyncQueue.processOperation operation) w in
  result (SyncQueue.processOperation operation) w = Ok tt /\
  notes (content w') !! op_entityId operation = None /\
  db_notes (offline w') !! op_entityId operation = None /\
  notes (content w') !! note_id created = Some created /\
  db_notes (offline w') !! note_id created = Some (created, rt_now (runtime w)) /\
  (op_status <$> db_operations (offline w') !! op_id operation) = Some Synced.
Proof.
  intros Hdb Hk Hs Ht He Hcreate Hne w'.
  pose proof (keyed_lookup _ _ _ Hk Hs) as Hid.
  set (w1 := put_operation (apply_patch stored mark_syncing) w).
  destruct (executeOperation_create_note operation w1 Ht He) as [_ Hexec].
  destruct (Hexec created Hcreate Hdb) as (Hres & Hnotes & Hdbn).
  destruct (processOperation_synced operation stored w Hdb Hs Hid Hres)
    as (Hok & Hc & Hn & _ & Hst).
  fold w' w1 in Hc, Hn, Hst.
  split; [exact Hok|]. rewrite Hc, Hn, Hnotes, Hdbn.
  split; [by rewrite lookup_insert_ne, lookup_delete_eq|].
  split; [by rewrite lookup_insert_ne, lookup_delete_eq|].
  split; [apply lookup_insert_eq|]. split; [apply lookup_insert_eq|exact Hst].
Qed.

Lemma processOperation_create_folder operation stored created w :
  db_available (offline w) = true ->
  keyed (db_operations (offline w)) ->
  db_operations (offline w) !! op_id operation = Some stored ->
  op_type operation = OpCreate ->
  op_entityType operation = EntFolder ->
  remote_folders_create (rt_remote (runtime w)) (folder_createData (op_data operation))
    = inr created ->
  folder_id created <> op_entityId operation ->
  let w' := exec (SyncQueue.processOperation operation) w in
  result (SyncQueue.processOperation operation) w = Ok tt /\
  folders (content w') !! op_entityId operation = None /\
  db_folders (offline w') !! op_entityId operation = None /\
  folders (content w') !! folder_id created = Some created /\
  db_folders (offline w') !! folder_id created = Some (created, rt_now (runtime w)) /\
  (op_status <$> db_operations (offline w') !! op_id operation) = Some Synced.
Proof.
  intros Hdb Hk Hs Ht He Hcreate Hne w'.
  pose proof (keyed_lookup _ _ _ Hk Hs) as Hid.
  set (w1 := put_operation (apply_patch stored mark_syncing) w).
  destruct (executeOperation_create_folder operation w1 Ht He) as [_ Hexec].
  destruct (Hexec created Hcreate Hdb) as (Hres & Hfolders & Hdbf).
  destruct (processOperation_synced operation stored w Hdb Hs Hid Hres)
    as (Hok & Hc & _ & Hf & Hst).
  fold w' w1 in Hc, Hf, Hst.
  split; [exact Hok|]. rewrite Hc, Hf, Hfolders, Hdbf.
  split; [by rewrite lookup_insert_ne, lookup_delete_eq|].
  split; [by rewrite lookup_insert_ne, lookup_delete_eq|].
  split; [apply lookup_insert_eq|]. split; [apply lookup_insert_eq|exact Hst].
Qed.

(** * The optimistic store *)

(** Finding an optimistic operation after [updateOptimisticOp]. *)
Lemma find_assign_first id p l :
  List.find (fun o => String.eqb (oo_id o) id) (ContentStore.assign_first id p l) =
  (fun o => ContentStore.assign_op o p) <$>
    List.find (fun o => String.eqb (oo_id o) id) l.
Proof.
  induction l as [|o l IH]; cbn; [done|].
  destruct (String.eqb (oo_id o) id) eqn:E; cbn.
  - by rewrite E.
  - by rewrite E, IH.
Qed.

Lemma find_app_new id (l : list OptimisticOperation) o :
  oo_id o = id ->
  exists o', List.find (fun x => String.eqb (oo_id x) id) (l ++ [o]) = Some o'.
Proof.
  intros Hid. induction l as [|x l IH]; cbn.
  - rewrite Hid, String.eqb_refl. eauto.
  - destruct (String.eqb (oo_id x) id); eauto.
Qed.

Lemma marked_error_intro opId msg l o w :
  optimisticOps (content w) =
    ContentStore.assign_first opId (ContentStore.mark_error msg) (l ++ [o]) ->
  oo_id o = opId -> marked_error opId msg w.
Proof.
  intros Hops Hid. destruct (find_app_new opId l o Hid) as [o' Ho'].
  exists (ContentStore.assign_op o' (ContentStore.mark_error msg)).
  rewrite Hops, find_assign_first, Ho'. done.
Qed.

Lemma marked_success_intro opId l o w :
  optimisticOps (content w) =
    ContentStore.assign_first opId ContentStore.mark_success (l ++ [o]) ->
  oo_id o = opId -> marked_success opId w.
Proof.
  intros Hops Hid. destruct (find_app_new opId l o Hid) as [o' Ho'].
  exists (ContentStore.assign_op o' ContentStore.mark_success).
  rewrite Hops, find_assign_first, Ho'. done.
Qed.

Lemma find_marked opId msg op w l :
  List.find (fun o => String.eqb (oo_id o) opId) l = Some op ->
  optimisticOps (content w) =
    ContentStore.assign_first opId (ContentStore.mark_error msg) l ->
  marked_error opId msg w.
Proof.
  intros Hf Hops. exists (ContentStore.assign_op op (ContentStore.mark_error msg)).
  by rewrite Hops, find_assign_first, Hf.
Qed.

(** [Object.assign] over a note: assigning the snapshot back undoes an
    update, a later record overrides an earlier one, and a record with
    all its properties replaces the note. *)
Lemma assign_note_twice cur a :
  note_size_bytes a = note_size_bytes cur ->
  assign_note (assign_note cur (patch_of_note a)) (patch_of_note cur) = cur.
Proof.
  destruct cur as [? ? ? ? ? ? ? ? s1], a as [? ? ? ? ? ? ? ? s2]; cbn.
  intros ->. unfold assign_note; cbn. by destruct s1.
Qed.

Lemma assign_note_over cur a srv :
  note_size_bytes a = note_size_bytes cur ->
  assign_note (assign_note cur (patch_of_note a)) (patch_of_note srv) =
  assign_note cur (patch_of_note srv).
Proof.
  destruct cur as [? ? ? ? ? ? ? ? s1], a as [? ? ? ? ? ? ? ? s2],
    srv as [? ? ? ? ? ? ? ? s3]; cbn.
  intros ->. unfold assign_note; cbn. by destruct s3, s1.
Qed.

Lemma assign_note_whole cur srv :
  note_size_bytes srv <> None \/ note_size_bytes cur = None ->
  assign_note cur (patch_of_note srv) = srv.
Proof.
  destruct cur as [? ? ? ? ? ? ? ? s1], srv as [? ? ? ? ? ? ? ? s3]; cbn.
  unfold assign_note; cbn. intros [H| ->]; by destruct s3.
Qed.

Lemma assign_folder_twice cur a :
  folder_note_count a = folder_note_count cur ->
  folder_subfolder_count a = folder_subfolder_count cur ->
  assign_folder (assign_folder cur (patch_of_folder a)) (patch_of_folder cur) = cur.
Proof.
  destruct cur as [? ? ? ? ? ? ? n1 s1], a as [? ? ? ? ? ? ? n2 s2]; cbn.
  intros -> ->. unfold assign_folder; cbn. by destruct n1, s1.
Qed.

Lemma assign_folder_over cur a srv :
  folder_note_count a = folder_note_count cur ->
  folder_subfolder_count a = folder_subfolder_count cur ->
  assign_folder (assign_folder cur (patch_of_folder a)) (patch_of_folder srv) =
  assign_folder cur (patch_of_folder srv).
Proof.
  destruct cur as [? ? ? ? ? ? ? n1 s1], a as [? ? ? ? ? ? ? n2 s2],
    srv as [? ? ? ? ? ? ? n3 s3]; cbn.
  intros -> ->. unfold assign_folder; cbn. by destruct n3, s3, n1, s1.
Qed.

Lemma assign_folder_whole cur srv :
  (folder_note_count srv <> None \/ folder_note_count cur = None) ->
  (folder_subfolder_count srv <> None \/ folder_subfolder_count cur = None) ->
  assign_folder cur (patch_of_folder srv) = srv.
Proof.
  destruct cur as [? ? ? ? ? ? ? n1 s1], srv as [? ? ? ? ? ? ? n3 s3]; cbn.
  unfold assign_folder; cbn. intros [H| ->] [H'| ->]; by destruct n3, s3.
Qed.

(** Running a mutation of the store on an opened world. *)
Ltac store_run :=
  unfold result, exec,
    ContentStore.createNoteOptimistic, ContentStore.updateNoteOptimistic,
    ContentStore.deleteNoteOptimistic, ContentStore.moveNoteOptimistic,
    ContentStore.createFolderOptimistic, ContentStore.updateFolderOptimistic,
    ContentStore.deleteFolderOptimistic, ContentStore.moveFolderOptimistic,
    ContentStore.resolveConflict,
    ContentStore.generateId, ContentStore.get, ContentStore.addNote,
    ContentStore.updateNote, ContentStore.removeNote, ContentStore.addFolder,
    ContentStore.updateFolder, ContentStore.removeFolder,
    ContentStore.addOptimisticOp, ContentStore.updateOptimisticOp,
    ContentStore.set, Api.notes_create, Api.notes_update, Api.notes_delete,
    Api.notes_move, Api.folders_create, Api.folders_update, Api.folders_delete,
    Api.folders_move, Api.request, try_catch, Date_now, Date_toISOString,
    Math_random_suffix, setTimeout, modify, throw;
  unfold mbind, M_bind, mret, M_ret;
  cbn -[String.append string_of_Z assign_note patch_of_note assign_folder
        patch_of_folder].

Ltac open_world w :=
  destruct w as [rt rn c od q u t ti em rq rs];
  destruct c as [ns fs sn sf sq il er ops];
  unfold temp_id; cbn [runtime random_next content notes folders optimisticOps] in *;
  rewrite ?Nat.add_0_r, ?Nat.add_1_r.

(** Each optimistic mutation, by the answer of the remote service. *)
Lemma createNoteOptimistic_spec data w :
  let w' := exec (ContentStore.createNoteOptimistic data) w in
  let kept := delete (temp_id w 0) (notes (content w)) in
  match remote_notes_create (rt_remote (runtime w)) (Api.obj_of_CreateNoteRequest data) with
  | inr srv =>
      result (ContentStore.createNoteOptimistic data) w = Ok srv /\
      notes (content w') = <[note_id srv := srv]> kept /\
      marked_success (temp_id w 1) w'
  | inl e =>
      result (ContentStore.createNoteOptimistic data) w = Throw e /\
      notes (content w') = kept /\
      marked_error (temp_id w 1) (err_message e) w'
  end.
Proof.
  open_world w. store_run.
  destruct (remote_notes_create _ _) as [e|srv]; store_run;
    rewrite delete_insert_eq.
  - split; [reflexivity|]. split; [reflexivity|].
    eapply marked_error_intro; reflexivity.
  - split; [reflexivity|]. split; [reflexivity|].
    eapply marked_success_intro; reflexivity.
Qed.

Lemma updateNoteOptimistic_spec id data w cur :
  notes (content w) !! id = Some cur ->
  let w' := exec (ContentStore.updateNoteOptimistic id data) w in
  match remote_notes_update (rt_remote (runtime w)) id (Api.obj_of_UpdateNoteRequest data) with
  | inr srv =>
      result (ContentStore.updateNoteOptimistic id data) w = Ok srv /\
      notes (content w') = <[id := assign_note cur (patch_of_note srv)]> (notes (content w)) /\
      marked_success (temp_id w 0) w'
  | inl e =>
      result (ContentStore.updateNoteOptimistic id data) w = Throw e /\
      notes (content w') = notes (content w) /\
      marked_error (temp_id w 0) (err_message e) w'
  end.
Proof.
  intros Hcur.
  destruct w as [rt rn c od q u t ti em rq rs]. destruct c as [ns fs sn sf sq il er ops].
  cbn in Hcur. unfold temp_id. cbn [runtime random_next]. rewrite Nat.add_0_r.
  store_run. rewrite Hcur.
  store_run.
  destruct (remote_notes_update _ _ _) as [e|srv]; store_run;
    rewrite (alter_alt_Some _ _ _ _ Hcur), alter_insert_eq.
  - split; [reflexivity|]. split.
    + rewrite assign_note_twice by (by destruct cur). by apply insert_id.
    + eapply marked_error_intro; reflexivity.
  - split; [reflexivity|]. split.
    + by rewrite assign_note_over by (by destruct cur).
    + eapply marked_success_intro; reflexivity.
Qed.

Lemma deleteNoteOptimistic_spec id w cur :
  notes (content w) !! id = Some cur ->
  note_id cur = id ->
  let w' := exec (ContentStore.deleteNoteOptimistic id) w in
  match remote_notes_delete (rt_remote (runtime w)) id with
  | inr _ =>
      result (ContentStore.deleteNoteOptimistic id) w = Ok tt /\
      notes (content w') = delete id (notes (content w)) /\
      marked_success (temp_id w 0) w'
  | inl e =>
      result (ContentStore.deleteNoteOptimistic id) w = Throw e /\
      notes (content w') = notes (content w) /\
      marked_error (temp_id w 0) (err_message e) w'
  end.
Proof.
  intros Hcur Hid. open_world w. store_run. rewrite Hcur. store_run.
  destruct (remote_notes_delete _ _) as [e|[]]; store_run.
  - split; [reflexivity|]. split; [rewrite Hid; by apply insert_delete_id|].
    eapply marked_error_intro; reflexivity.
  - split; [reflexivity|]. split; [reflexivity|].
    eapply marked_success_intro; reflexivity.
Qed.

Lemma moveNoteOptimistic_spec id folderId w cur :
  notes (content w) !! id = Some cur ->
  let w' := exec (ContentStore.moveNoteOptimistic id folderId) w in
  match remote_notes_move (rt_remote (runtime w)) id
          [("folder_id", js_nullable folderId)] with
  | inr srv =>
      result (ContentStore.moveNoteOptimistic id folderId) w = Ok srv /\
      notes (content w') = <[id := assign_note cur (patch_of_note srv)]> (notes (content w)) /\
      marked_success (temp_id w 0) w'
  | inl e =>
      result (ContentStore.moveNoteOptimistic id folderId) w = Throw e /\
      notes (content w') = notes (content w) /\
      marked_error (temp_id w 0) (err_message e) w'
  end.
Proof.
  intros Hcur. open_world w. store_run. rewrite Hcur. store_run.
  destruct (remote_notes_move _ _ _) as [e|srv]; store_run;
    rewrite (alter_alt_Some _ _ _ _ Hcur), alter_insert_eq.
  - split; [reflexivity|]. split.
    + rewrite assign_note_twice by (by destruct cur). by apply insert_id.
    + eapply marked_error_intro; reflexivity.
  - split; [reflexivity|]. split.
    + by rewrite assign_note_over by (by destruct cur).
    + eapply marked_success_intro; reflexivity.
Qed.

Lemma createFolderOptimistic_spec data w :
  let w' := exec (ContentStore.createFolderOptimistic data) w in
  let kept := delete (temp_id w 0) (folders (content w)) in
  match remote_folders_create (rt_remote (runtime w))
          (Api.obj_of_CreateFolderRequest data) with
  | inr srv =>
      result (ContentStore.createFolderOptimistic data) w = Ok srv /\
      folders (content w') = <[folder_id srv := srv]> kept /\
      marked_success (temp_id w 1) w'
  | inl e =>
      result (ContentStore.createFolderOptimistic data) w = Throw e /\
      folders (content w') = kept /\
      marked_error (temp_id w 1) (err_message e) w'
  end.
Proof.
  open_world w. store_run.
  destruct (remote_folders_create _ _) as [e|srv]; store_run;
    rewrite delete_insert_eq.
  - split; [reflexivity|]. split; [reflexivity|].
    eapply marked_error_intro; reflexivity.
  - split; [reflexivity|]. split; [reflexivity|].
    eapply marked_success_intro; reflexivity.
Qed.

Lemma updateFolderOptimistic_spec id data w cur :
  folders (content w) !! id = Some cur ->
  let w' := exec (ContentStore.updateFolderOptimistic id data) w in
  match remote_folders_update (rt_remote (runtime w)) id
          (Api.obj_of_UpdateFolderRequest data) with
  | inr srv =>
      result (ContentStore.updateFolderOptimistic id data) w = Ok srv /\
      folders (content w') =
        <[id := assign_folder cur (patch_of_folder srv)]> (folders (content w)) /\
      marked_success (temp_id w 0) w'
  | inl e =>
      result (ContentStore.updateFolderOptimistic id data) w = Throw e /\
      folders (content w') = folders (content w) /\
      marked_error (temp_id w 0) (err_message e) w'
  end.
Proof.
  intros Hcur. open_world w. store_run. rewrite Hcur. store_run.
  destruct (remote_folders_update _ _ _) as [e|srv]; store_run;
    rewrite (alter_alt_Some _ _ _ _ Hcur), alter_insert_eq.
  - split; [reflexivity|]. split.
    + rewrite assign_folder_twice by (by destruct cur). by apply insert_id.
    + eapply marked_error_intro; reflexivity.
  - split; [reflexivity|]. split.
    + by rewrite assign_folder_over by (by destruct cur).
    + eapply marked_success_intro; reflexivity.
Qed.

Lemma deleteFolderOptimistic_spec id w cur :
  folders (content w) !! id = Some cur ->
  folder_id cur = id ->
  let w' := exec (ContentStore.deleteFolderOptimistic id) w in
  match remote_folders_delete (rt_remote (runtime w)) id with
  | inr _ =>
      result (ContentStore.deleteFolderOptimistic id) w = Ok tt /\
      folders (content w') = delete id (folders (content w)) /\
      marked_success (temp_id w 0) w'
  | inl e =>
      result (ContentStore.deleteFolderOptimistic id) w = Throw e /\
      folders (content w') = folders (content w) /\
      marked_error (temp_id w 0) (err_message e) w'
  end.
Proof.
  intros Hcur Hid. open_world w. store_run. rewrite Hcur. store_run.
  destruct (remote_folders_delete _ _) as [e|[]]; store_run.
  - split; [reflexivity|]. split; [rewrite Hid; by apply insert_delete_id|].
    eapply marked_error_intro; reflexivity.
  - split; [reflexivity|]. split; [reflexivity|].
    eapply marked_success_intro; reflexivity.
Qed.

Lemma moveFolderOptimistic_spec id parentId w cur :
  folders (content w) !! id = Some cur ->
  let w' := exec (ContentStore.moveFolderOptimistic id parentId) w in
  match remote_folders_move (rt_remote (runtime w)) id
          [("parent_id", js_nullable parentId)] with
  | inr srv =>
      result (ContentStore.moveFolderOptimistic id parentId) w = Ok srv /\
      folders (content w') =
        <[id := assign_folder cur (patch_of_folder srv)]> (folders (content w)) /\
      marked_success (temp_id w 0) w'
  | inl e =>
      result (ContentStore.moveFolderOptimistic id parentId) w = Throw e /\
      folders (content w') = folders (content w) /\
      marked_error (temp_id w 0) (err_message e) w'
  end.
Proof.
  intros Hcur. open_world w. store_run. rewrite Hcur. store_run.
  destruct (remote_folders_move _ _ _) as [e|srv]; store_run;
    rewrite (alter_alt_Some _ _ _ _ Hcur), alter_insert_eq.
  - split; [reflexivity|]. split.
    + rewrite assign_folder_twice by (by destruct cur). by apply insert_id.
    + eapply marked_error_intro; reflexivity.
  - split; [reflexivity|]. split.
    + by rewrite assign_folder_over by (by destruct cur).
    + eapply marked_success_intro; reflexivity.
Qed.

(** Rejecting restores the snapshot. *)
Lemma resolveConflict_reject opId w op :
  List.find (fun o => String.eqb (oo_id o) opId) (optimisticOps (content w)) = Some op ->
  let w' := exec (ContentStore.resolveConflict opId ContentStore.Reject) w in
  match oo_originalData op, oo_entityType op with
  | Some d, EntNote =>
      notes (content w') =
        alter (fun n => assign_note n (ContentStore.note_patch_of_any d))
          (oo_entityId op) (notes (content w)) /\
      folders (content w') = folders (content w)
  | Some d, EntFolder =>
      folders (content w') =
        alter (fun f => assign_folder f (ContentStore.folder_patch_of_any d))
          (oo_entityId op) (folders (content w)) /\
      notes (content w') = notes (content w)
  | None, _ =>
      notes (content w') = notes (content w) /\
      folders (content w') = folders (content w)
  end /\
  marked_error opId "Rejected by user" w' /\
  timers w' = timers w ++ [mkTimer (Some 1000%Z) (TRemoveOptimisticOp opId)] /\
  requests w' = requests w /\
  offline w' = offline w.
Proof.
  intros Hf. open_world w. store_run. rewrite Hf.
  destruct (oo_originalData op) as [d|], (oo_entityType op); store_run;
    (split; [split; reflexivity|]);
    (split; [eapply find_marked; [exact Hf|reflexivity]|]);
    repeat split; reflexivity.
Qed.

(** The one request of an optimistic create. *)
Lemma createNoteOptimistic_requests data w :
  requests (exec (ContentStore.createNoteOptimistic data) w) =
    requests w ++
    [Api.build_request POST "/notes" (Some (Api.obj_of_CreateNoteRequest data))
       (accessToken w)].
Proof.
  open_world w. store_run. destruct (remote_notes_create _ _); reflexivity.
Qed.

Lemma createFolderOptimistic_requests data w :
  requests (exec (ContentStore.createFolderOptimistic data) w) =
    requests w ++
    [Api.build_request POST "/folders" (Some (Api.obj_of_CreateFolderRequest data))
       (accessToken w)].
Proof.
  open_world w. store_run. destruct (remote_folders_create _ _); reflexivity.
Qed.

(** * Notifications from the server *)

(** [syncNotes] and [syncFolders] send one GET each. *)
Lemma syncNotes_requests w :
  requests (exec (WebSocket.unawaited ContentStore.syncNotes) w) =
    requests w ++ [refetch_notes w].
Proof.
  open_world w. unfold exec, WebSocket.unawaited, ContentStore.syncNotes,
    try_finally, try_catch, ContentStore.setLoading, ContentStore.setNotes,
    ContentStore.setError, ContentStore.set, Api.notes_list, Api.request, modify.
  run. destruct (remote_notes_list _); reflexivity.
Qed.

Lemma syncFolders_requests w :
  requests (exec (WebSocket.unawaited ContentStore.syncFolders) w) =
    requests w ++ [refetch_folders w].
Proof.
  open_world w. unfold exec, WebSocket.unawaited, ContentStore.syncFolders,
    try_finally, try_catch, ContentStore.setLoading, ContentStore.setFolders,
    ContentStore.setError, ContentStore.set, Api.folders_list, Api.request, modify.
  run. destruct (remote_folders_list _); reflexivity.
Qed.

(** The handlers, case by case. *)
Lemma handleNoteUpdate_spec data w :
  let w' := exec (WebSocket.handleNoteUpdate data) w in
  if WebSocket.is_local_user (WebSocket.num_user_id data) w then w' = w
  else
    match WebSocket.num_operation data with
    | OpDelete =>
        notes (content w') = delete (WebSocket.num_note_id data) (notes (content w)) /\
        requests w' = requests w
    | OpCreate | OpMove => requests w' = requests w ++ [refetch_notes w]
    | OpUpdate =>
        if stale data w then requests w' = requests w ++ [refetch_notes w]
        else w' = w
    end.
Proof.
  unfold exec, WebSocket.handleNoteUpdate, get_world. run.
  destruct (WebSocket.is_local_user _ w); [reflexivity|].
  unfold stale.
  destruct (WebSocket.num_operation data).
  - apply syncNotes_requests.
  - destruct (notes (content w) !! _) as [cur|]; [|reflexivity].
    destruct (note_version cur <? _)%Z; [apply syncNotes_requests|reflexivity].
  - unfold ContentStore.removeNote, ContentStore.set, modify. split; reflexivity.
  - apply syncNotes_requests.
Qed.

Lemma handleFolderUpdate_spec data w :
  let w' := exec (WebSocket.handleFolderUpdate data) w in
  if WebSocket.is_local_user (WebSocket.fum_user_id data) w then w' = w
  else requests w' = requests w ++ [refetch_folders w].
Proof.
  unfold exec, WebSocket.handleFolderUpdate, get_world. run.
  destruct (WebSocket.is_local_user _ w); [reflexivity|].
  destruct (WebSocket.fum_operation data); apply syncFolders_requests.
Qed.

(** * Queueing *)

(** What a call of [queueOperation] does to the log and to the host. *)
Lemma queueOperation_stores (operation : QueueInput) (w : World) :
  db_available (offline w) = true ->
  let now := rt_now (runtime w) in
  let id := SyncQueue.operation_id now (rt_random (runtime w) (random_next w)) in
  let w' := exec (SyncQueue.queueOperation operation) w in
  result (SyncQueue.queueOperation operation) w = Ok id /\
  db_operations (offline w') =
    <[id := SyncQueue.fullOperation operation id now]> (db_operations (offline w)) /\
  db_available (offline w') = true /\
  runtime w' = runtime w /\
  random_next w' = S (random_next w).
Proof.
  intros Hdb now id w'.
  subst w'. unfold SyncQueue.queueOperation, OfflineStorage.saveOperation,
    OfflineStorage.getObjectStore, SyncQueue.emit, SyncQueue.this, setImmediate,
    Date_now, Math_random_suffix, modify.
  run. rewrite Hdb. run.
  destruct (isOnline (queue w) && _); repeat split; exact Hdb.
Qed.

(** * The claims *)

(** Claim C1, amended.  When the remote call of an operation is rejected
    with status 409, [processOperation] emits exactly one conflict event
    with exactly one [ConflictData] for that operation (its payload
    against the data of the rejection), leaves the projection alone, and
    fails with "Conflict detected" like any other failure: retry count
    incremented, [Pending] with a retry timer below [maxRetries],
    [Failed] from there on.  No status says "conflicted". *)
Theorem conflict_emits_one_conflict_then_retries
    (operation stored : OfflineOperation) (e : JsError) (w : World) :
  db_available (offline w) = true ->
  keyed (db_operations (offline w)) ->
  db_operations (offline w) !! op_id operation = Some stored ->
  remote_call operation (rt_remote (runtime w)) = Some e ->
  err_status e = Some 409%Z ->
  let q := queue w in
  let n := (op_retryCount operation + 1)%Z in
  let w' := exec (SyncQueue.processOperation operation) w in
  result (SyncQueue.processOperation operation) w = Throw (Error "Conflict detected") /\
  emitted w' = emitted w ++ [EvConflict operation [conflict_of operation e]] /\
  content w' = content w /\
  exists stored',
    db_operations (offline w') !! op_id operation = Some stored' /\
    op_retryCount stored' = n /\
    op_lastError stored' = Some "Conflict detected" /\
    op_status stored' = (if (maxRetries q <=? n)%Z then Failed else Pending) /\
    timers w' =
      timers w ++
      (if (maxRetries q <=? n)%Z then []
       else [mkTimer (Some (retryDelayMs q * n)%Z) TProcessPendingOperations]).
Proof.
  intros Hdb Hk Hs Hcall H409 q n w'.
  pose proof (keyed_lookup _ _ _ Hk Hs) as Hid.
  set (w1 := put_operation (apply_patch stored mark_syncing) w).
  destruct (executeOperation_rejected operation w1 e Hcall) as (Hr & Hem & Hc & _).
  assert (Hconf : is_conflict e = true).
  { unfold is_conflict. by apply bool_decide_eq_true. }
  rewrite Hconf in Hr, Hem.
  assert (Hres : result (SyncQueue.processOperation operation) w =
                 Throw (Error "Conflict detected")).
  { unfold result. rewrite (processOperation_outcome operation w stored Hdb Hs Hid).
    cbv zeta. fold w1. unfold result in Hr. rewrite Hr. reflexivity. }
  destruct (processOperation_failed operation w stored _ Hdb Hs Hid Hres)
    as (_ & _ & Hops' & Htim' & _ & _ & Hem' & Hc' & _).
  fold w' w1 in Hops', Htim', Hem', Hc'.
  split; [exact Hres|]. split; [by rewrite Hem', Hem|]. split; [by rewrite Hc', Hc|].
  eexists. split; [rewrite Hops'; apply lookup_insert_eq|].
  split; [reflexivity|]. split; [reflexivity|].
  split; [reflexivity|].
  rewrite Htim'. unfold retry_timers, status_after_failure, retry_timer. fold n q.
  by destruct (maxRetries q <=? n)%Z.
Qed.

Lemma conflict_witness :
  db_available (offline conflict_world) = true /\
  remote_call op1 (rt_remote (runtime conflict_world)) = Some conflict_409 /\
  emitted (exec (SyncQueue.processOperation op1) conflict_world) =
    [EvConflict op1 [conflict_of op1 conflict_409]].
Proof.
  assert (H1 : db_available (offline conflict_world) = true) by reflexivity.
  assert (H2 : keyed (db_operations (offline conflict_world)))
    by apply (keyed_singleton op1).
  assert (H3 : db_operations (offline conflict_world) !! op_id op1 = Some op1)
    by reflexivity.
  assert (H4 : remote_call op1 (rt_remote (runtime conflict_world)) = Some conflict_409)
    by reflexivity.
  assert (H5 : err_status conflict_409 = Some 409%Z) by reflexivity.
  split; [exact H1|]. split; [exact H4|].
  exact (proj1 (proj2 (conflict_emits_one_conflict_then_retries
                         op1 op1 conflict_409 conflict_world H1 H2 H3 H4 H5))).
Defined.

(** Claim C1 fails as stated: after a 409 the operation is [Pending]
    again, a retry is scheduled 5000 ms later, and when that timer fires
    the drain starts the operation once more. *)
Lemma conflicted_operation_is_retried :
  let w1 := exec SyncQueue.processPendingOperations conflict_world in
  let w := exec (SyncQueue.settle (mkStarted op1 (Ok tt))) w1 in
  promises w1 = [mkStarted op1 (Ok tt)] /\
  (op_status <$> db_operations (offline w) !! "op1") = Some Pending /\
  timers w = [mkTimer (Some 5000%Z) TProcessPendingOperations] /\
  (op_id <$> running (exec (fire TProcessPendingOperations) w)) = ["op1"].
Proof. vm_compute. repeat split; reflexivity. Qed.

(** Claim C2, amended.  A drain appends to the running promises the
    oldest retryable candidates that fit, in creation-time order, and
    the selection does not depend on the entity an operation targets:
    renaming the targets renames the selection.  Nothing keeps two
    operations of one entity apart. *)
Theorem drain_starts_oldest_first_whatever_the_entity (w : World) :
  running (exec SyncQueue.processPendingOperations w) = running w ++ drain_selection w /\
  StronglySorted older (drain_selection w) /\
  forall (f : string -> string) q allOps,
    selected q (js_sort SyncQueue.by_timestamp (retarget f <$> allOps)) =
    retarget f <$> selected q (js_sort SyncQueue.by_timestamp allOps).
Proof.
  split; [apply processPendingOperations_running|].
  split; [apply drain_selection_sorted|].
  intros f q allOps. by rewrite js_sort_retarget, selected_retarget.
Qed.

(** Claim C2 fails as stated: two edits of note [n1] wait in the log, and
    one drain puts both in flight. *)
Lemma same_entity_in_flight_together :
  let w := exec SyncQueue.processPendingOperations two_edits_world in
  In op1 (running w) /\ In op2 (running w) /\
  op_id op1 <> op_id op2 /\ op_entityId op1 = op_entityId op2.
Proof.
  vm_compute. repeat split; auto. discriminate.
Qed.

(** Claim C3, amended.  Each optimistic mutation (of an entity the
    projection holds under its id; for a create, with a provisional id
    that is not in use) ends in one of two ways.
    If the remote call succeeds, the caller gets the server's record, the
    projection holds it (create: under the server's id, the provisional
    entry gone; update and move: assigned over the entity; delete: the
    entity gone) and the optimistic operation is marked successful.  If
    the remote call fails, with a 409 or anything else, the error is
    rethrown, the projection is what it was before the mutation and the
    optimistic operation is marked failed with the error's message.
    Assigning a record that carries the optional counters, over an
    entity, gives that record. *)
Theorem optimistic_mutation_confirms_or_rolls_back :
  (forall data w,
     notes (content w) !! temp_id w 0 = None ->
     ends_as (ContentStore.createNoteOptimistic data) w
       (remote_notes_create (rt_remote (runtime w)) (Api.obj_of_CreateNoteRequest data))
       (temp_id w 1) (fun srv => srv)
       (fun srv w' => notes (content w') = <[note_id srv := srv]> (notes (content w)))
       (fun w' => notes (content w') = notes (content w))) /\
  (forall id data w cur,
     notes (content w) !! id = Some cur ->
     ends_as (ContentStore.updateNoteOptimistic id data) w
       (remote_notes_update (rt_remote (runtime w)) id (Api.obj_of_UpdateNoteRequest data))
       (temp_id w 0) (fun srv => srv)
       (fun srv w' =>
          notes (content w') =
            <[id := assign_note cur (patch_of_note srv)]> (notes (content w)))
       (fun w' => notes (content w') = notes (content w))) /\
  (forall id w cur,
     notes (content w) !! id = Some cur -> note_id cur = id ->
     ends_as (ContentStore.deleteNoteOptimistic id) w
       (remote_notes_delete (rt_remote (runtime w)) id)
       (temp_id w 0) (fun _ => tt)
       (fun _ w' => notes (content w') = delete id (notes (content w)))
       (fun w' => notes (content w') = notes (content w))) /\
  (forall id folderId w cur,
     notes (content w) !! id = Some cur ->
     ends_as (ContentStore.moveNoteOptimistic id folderId) w
       (remote_notes_move (rt_remote (runtime w)) id [("folder_id", js_nullable folderId)])
       (temp_id w 0) (fun srv => srv)
       (fun srv w' =>
          notes (content w') =
            <[id := assign_note cur (patch_of_note srv)]> (notes (content w)))
       (fun w' => notes (content w') = notes (content w))) /\
  (forall data w,
     folders (content w) !! temp_id w 0 = None ->
     ends_as (ContentStore.createFolderOptimistic data) w
       (remote_folders_create (rt_remote (runtime w))
          (Api.obj_of_CreateFolderRequest data))
       (temp_id w 1) (fun srv => srv)
       (fun srv w' => folders (content w') = <[folder_id srv := srv]> (folders (content w)))
       (fun w' => folders (content w') = folders (content w))) /\
  (forall id data w cur,
     folders (content w) !! id = Some cur ->
     ends_as (ContentStore.updateFolderOptimistic id data) w
       (remote_folders_update (rt_remote (runtime w)) id
          (Api.obj_of_UpdateFolderRequest data))
       (temp_id w 0) (fun srv => srv)
       (fun srv w' =>
          folders (content w') =
            <[id := assign_folder cur (patch_of_folder srv)]> (folders (content w)))
       (fun w' => folders (content w') = folders (content w))) /\
  (forall id w cur,
     folders (content w) !! id = Some cur -> folder_id cur = id ->
     ends_as (ContentStore.deleteFolderOptimistic id) w
       (remote_folders_delete (rt_remote (runtime w)) id)
       (temp_id w 0) (fun _ => tt)
       (fun _ w' => folders (content w') = delete id (folders (content w)))
       (fun w' => folders (content w') = folders (content w))) /\
  (forall id parentId w cur,
     folders (content w) !! id = Some cur ->
     ends_as (ContentStore.moveFolderOptimistic id parentId) w
       (remote_folders_move (rt_remote (runtime w)) id
          [("parent_id", js_nullable parentId)])
       (temp_id w 0) (fun srv => srv)
       (fun srv w' =>
          folders (content w') =
            <[id := assign_folder cur (patch_of_folder srv)]> (folders (content w)))
       (fun w' => folders (content w') = folders (content w))) /\
  (forall cur srv,
     note_size_bytes srv <> None \/ note_size_bytes cur = None ->
     assign_note cur (patch_of_note srv) = srv) /\
  (forall cur srv,
     folder_note_count srv <> None \/ folder_note_count cur = None ->
     folder_subfolder_count srv <> None \/ folder_subfolder_count cur = None ->
     assign_folder cur (patch_of_folder srv) = srv).
Proof.
  repeat split.
  - intros data w Hfresh. unfold ends_as.
    pose proof (createNoteOptimistic_spec data w) as H. cbv zeta in H.
    rewrite (delete_id _ _ Hfresh) in H. exact H.
  - intros. by apply updateNoteOptimistic_spec.
  - intros id w cur Hc Hid.
    pose proof (deleteNoteOptimistic_spec id w cur Hc Hid) as H.
    unfold ends_as. destruct (remote_notes_delete _ _) as [e|[]]; exact H.
  - intros. by apply moveNoteOptimistic_spec.
  - intros data w Hfresh. unfold ends_as.
    pose proof (createFolderOptimistic_spec data w) as H. cbv zeta in H.
    rewrite (delete_id _ _ Hfresh) in H. exact H.
  - intros. by apply updateFolderOptimistic_spec.
  - intros id w cur Hc Hid.
    pose proof (deleteFolderOptimistic_spec id w cur Hc Hid) as H.
    unfold ends_as. destruct (remote_folders_delete _ _) as [e|[]]; exact H.
  - intros. by apply moveFolderOptimistic_spec.
  - apply assign_note_whole.
  - apply assign_folder_whole.
Qed.

Lemma optimistic_update_witness :
  notes (content editing_world) !! "n1" = Some note_v3 /\
  notes (content (exec (ContentStore.updateNoteOptimistic "n1" edit_v3) editing_world))
    = notes (content editing_world).
Proof.
  assert (H : notes (content editing_world) !! "n1" = Some note_v3) by reflexivity.
  split; [exact H|].
  exact (proj1 (proj2 (proj1 (proj2 optimistic_mutation_confirms_or_rolls_back)
                         "n1" edit_v3 editing_world note_v3 H))).
Defined.

(** Claim C3 fails as stated: the update of [n1] is rejected with 409, and
    the projection shows version 3 as it was, not the optimistic value;
    the optimistic operation is marked failed. *)
Lemma conflict_rolls_back_the_optimistic_value :
  let run := ContentStore.updateNoteOptimistic "n1" edit_v3 in
  let w' := exec run editing_world in
  remote_notes_update (rt_remote (runtime editing_world)) "n1"
    (Api.obj_of_UpdateNoteRequest edit_v3) = inl conflict_409 /\
  result run editing_world = Throw conflict_409 /\
  notes (content w') !! "n1" = Some note_v3 /\
  notes (content w') !! "n1" <> Some note_mine /\
  (oo_status <$> optimisticOps (content w')) = [OptError].
Proof. vm_compute. repeat split; try reflexivity. discriminate. Qed.

(** Claim C4, amended.  [cancelOperation] removes the operation from the
    log and touches no other entry; for a create it removes the
    provisional entity from the projection and from the database, for
    any other operation the projection stays as it is.  Rejecting through
    [resolveConflict] assigns the snapshot taken before the mutation over
    the entity (nothing without a snapshot), marks the optimistic
    operation failed, schedules its removal and sends no request.  The
    remote's value plays no part. *)
Theorem discard_removes_operation_and_restores_snapshot (operationId : string) (w : World) :
  db_available (offline w) = true ->
  keyed (db_operations (offline w)) ->
  let w' := exec (SyncQueue.cancelOperation operationId) w in
  (result (SyncQueue.cancelOperation operationId) w = Ok tt /\
   db_operations (offline w') !! operationId = None /\
   (forall id, id <> operationId ->
      db_operations (offline w') !! id = db_operations (offline w) !! id) /\
   match db_operations (offline w) !! operationId with
   | Some operation =>
       match op_type operation, op_entityType operation with
       | OpCreate, EntNote =>
           notes (content w') = delete (op_entityId operation) (notes (content w)) /\
           folders (content w') = folders (content w) /\
           db_notes (offline w') = delete (op_entityId operation) (db_notes (offline w))
       | OpCreate, EntFolder =>
           folders (content w') = delete (op_entityId operation) (folders (content w)) /\
           notes (content w') = notes (content w) /\
           db_folders (offline w') =
             delete (op_entityId operation) (db_folders (offline w))
       | _, _ => content w' = content w
       end
   | None => content w' = content w
   end) /\
  forall opId op,
    List.find (fun o => String.eqb (oo_id o) opId) (optimisticOps (content w)) = Some op ->
    let r := exec (ContentStore.resolveConflict opId ContentStore.Reject) w in
    match oo_originalData op, oo_entityType op with
    | Some d, EntNote =>
        notes (content r) =
          alter (fun n => assign_note n (ContentStore.note_patch_of_any d))
            (oo_entityId op) (notes (content w)) /\
        folders (content r) = folders (content w)
    | Some d, EntFolder =>
        folders (content r) =
          alter (fun f => assign_folder f (ContentStore.folder_patch_of_any d))
            (oo_entityId op) (folders (content w)) /\
        notes (content r) = notes (content w)
    | None, _ =>
        notes (content r) = notes (content w) /\
        folders (content r) = folders (content w)
    end /\
    marked_error opId "Rejected by user" r /\
    timers r = timers w ++ [mkTimer (Some 1000%Z) (TRemoveOptimisticOp opId)] /\
    requests r = requests w /\
    offline r = offline w.
Proof.
  intros Hdb Hk w'. split.
  - destruct (cancelOperation_spec operationId w Hdb Hk) as (Hr & Hops & _ & Hc).
    fold w' in Hops, Hc.
    split; [exact Hr|]. split; [rewrite Hops; apply lookup_delete_eq|].
    split; [|exact Hc].
    intros id Hne. rewrite Hops. by apply lookup_delete_ne.
  - intros opId op Hf. by apply resolveConflict_reject.
Qed.

Lemma discard_witness :
  db_available (offline discard_world) = true /\
  db_operations (offline (exec (SyncQueue.cancelOperation "op1") discard_world)) !! "op1"
    = None.
Proof.
  assert (H1 : db_available (offline discard_world) = true) by reflexivity.
  assert (H2 : keyed (db_operations (offline discard_world)))
    by apply (keyed_singleton op1).
  split; [exact H1|].
  exact (proj1 (proj2 (proj1
    (discard_removes_operation_and_restores_snapshot "op1" discard_world H1 H2)))).
Defined.

(** Claim C4 fails as stated: the server holds version 4; after
    [cancelOperation] the projection still shows the local edit, after
    [resolveConflict] it shows version 3. *)
Lemma discard_does_not_show_the_remote_value :
  remote_notes_list (rt_remote (runtime discard_world)) = inr [note_v4] /\
  notes (content (exec (SyncQueue.cancelOperation "op1") discard_world)) !! "n1"
    = Some note_mine /\
  notes (content (exec (ContentStore.resolveConflict "temp_1" ContentStore.Reject)
                    discard_world)) !! "n1"
    = Some note_v3 /\
  note_mine <> note_v4 /\ note_v3 <> note_v4.
Proof. vm_compute. repeat split; try reflexivity; discriminate. Qed.





Example five_operations_three_in_flight :
  in_flight five_draining = 3 /\
  length (operations_with Syncing five_draining) = 3 /\
  length (operations_with Pending five_draining) = 2 /\
  drain_selection five_draining = [].
Proof. vm_compute. repeat split; reflexivity. Qed.

Example started_operations_are_not_started_again :
  let w := exec SyncQueue.processPendingOperations two_edits_world in
  op_id <$> running w = ["op1"; "op2"] /\
  capacity (queue w) = 1%nat /\
  drain_selection w = [] /\
  running (exec SyncQueue.processPendingOperations w) = running w.
Proof. vm_compute. repeat split; reflexivity. Qed.

(** Claim C7, amended.  The request of a create, from the queue or from the
    store, is a POST to the collection whose body is built from the
    payload alone (title, content, folder_id; name, parent_id) and whose
    headers are the content type and the bearer token: neither the
    operation id nor the provisional id nor any other key generated by
    the client is sent. *)
Theorem create_request_carries_the_payload_only (operation : OfflineOperation) (w : World) :
  op_type operation = OpCreate ->
  requests (exec (SyncQueue.executeOperation operation) w) =
    requests w ++
    [match op_entityType operation with
     | EntNote =>
         Api.build_request POST "/notes" (Some (note_createData (op_data operation)))
           (accessToken w)
     | EntFolder =>
         Api.build_request POST "/folders" (Some (folder_createData (op_data operation)))
           (accessToken w)
     end] /\
  (forall data,
     requests (exec (ContentStore.createNoteOptimistic data) w) =
       requests w ++
       [Api.build_request POST "/notes" (Some (Api.obj_of_CreateNoteRequest data))
          (accessToken w)]) /\
  (forall data,
     requests (exec (ContentStore.createFolderOptimistic data) w) =
       requests w ++
       [Api.build_request POST "/folders" (Some (Api.obj_of_CreateFolderRequest data))
          (accessToken w)]) /\
  (forall method endpoint body token,
     fst <$> req_headers (Api.build_request method endpoint body token) =
       "Content-Type" :: match token with Some _ => ["Authorization"] | None => [] end).
Proof.
  intros Ht. split.
  - destruct (op_entityType operation) eqn:He.
    + apply (executeOperation_create_note operation w Ht He).
    + apply (executeOperation_create_folder operation w Ht He).
  - split; [intros; apply createNoteOptimistic_requests|].
    split; [intros; apply createFolderOptimistic_requests|].
    intros method endpoint body [t|]; reflexivity.
Qed.

Lemma create_request_witness :
  op_type create_a = OpCreate /\
  requests (exec (SyncQueue.executeOperation create_a) draft_world) =
    [Api.build_request POST "/notes" (Some (note_createData (op_data create_a)))
       (Some "token")].
Proof.
  assert (H : op_type create_a = OpCreate) by reflexivity.
  split; [exact H|].
  exact (proj1 (create_request_carries_the_payload_only create_a draft_world H)).
Defined.

(** Claim C7 fails as stated: two create operations with different ids,
    provisional ids and timestamps send the same request, which carries
    a title and a content and nothing else. *)
Lemma distinct_creates_issue_the_same_request :
  op_id create_a <> op_id create_b /\
  op_entityId create_a <> op_entityId create_b /\
  op_timestamp create_a <> op_timestamp create_b /\
  requests (exec (SyncQueue.executeOperation create_a) draft_world) =
  requests (exec (SyncQueue.executeOperation create_b) draft_world) /\
  requests (exec (SyncQueue.executeOperation create_a) draft_world) =
    [ {| req_method := POST;
         req_endpoint := "/notes";
         req_headers := [("Content-Type", "application/json");
                         ("Authorization", "Bearer token")];
         req_body := Some [("title", JString "Draft"); ("content", JString "")] |} ].
Proof. vm_compute. repeat split; try reflexivity; discriminate. Qed.

(** Claim C8, amended.  A notification caused by the local user changes
    nothing.  From anyone else: a deleted note is removed from the
    projection without a request, a created or moved note makes the note
    list be fetched again, an updated note does so exactly when the
    cached version is older; a folder notification of any kind makes
    the folder list be fetched again. *)
Theorem notifications_refresh_the_projection
    (note : WebSocket.NoteUpdateMessage) (folder : WebSocket.FolderUpdateMessage)
    (w : World) :
  let n := exec (WebSocket.handleNoteUpdate note) w in
  let f := exec (WebSocket.handleFolderUpdate folder) w in
  (if WebSocket.is_local_user (WebSocket.num_user_id note) w then n = w
   else
     match WebSocket.num_operation note with
     | OpDelete =>
         notes (content n) = delete (WebSocket.num_note_id note) (notes (content w)) /\
         requests n = requests w
     | OpCreate | OpMove => requests n = requests w ++ [refetch_notes w]
     | OpUpdate =>
         if stale note w then requests n = requests w ++ [refetch_notes w]
         else n = w
     end) /\
  (if WebSocket.is_local_user (WebSocket.fum_user_id folder) w then f = w
   else requests f = requests w ++ [refetch_folders w]).
Proof.
  split; [apply handleNoteUpdate_spec | apply handleFolderUpdate_spec].
Qed.

(** Claim C8 fails as stated on folders: the same update notification
    handled twice fetches the folder list twice, and a delete
    notification whose fetch fails leaves the folder in the projection. *)
Lemma folder_notifications_always_refetch :
  let once := exec (WebSocket.handleFolderUpdate (folder_changed OpUpdate)) folder_world in
  let twice := exec (WebSocket.handleFolderUpdate (folder_changed OpUpdate)) once in
  let deleted := exec (WebSocket.handleFolderUpdate (folder_changed OpDelete)) folder_world in
  WebSocket.is_local_user "user-2" folder_world = false /\
  requests twice = [refetch_folders folder_world; refetch_folders folder_world] /\
  folders (content deleted) !! "f1" = Some folder_1.
Proof. vm_compute. repeat split; reflexivity. Qed.

(** Claim C9.  When the server confirms a create with a record whose id is
    not the temporary one, nothing is left under the temporary id and the
    server's record sits under its own id: in the projection and in the
    database when the queue replays the create (the operation ends
    [Synced]), in the projection when the store creates at once. *)
Theorem provisional_entity_replaced_on_confirmation :
  (forall operation stored created w,
     db_available (offline w) = true ->
     keyed (db_operations (offline w)) ->
     db_operations (offline w) !! op_id operation = Some stored ->
     op_type operation = OpCreate ->
     op_entityType operation = EntNote ->
     remote_notes_create (rt_remote (runtime w)) (note_createData (op_data operation))
       = inr created ->
     note_id created <> op_entityId operation ->
     let w' := exec (SyncQueue.processOperation operation) w in
     result (SyncQueue.processOperation operation) w = Ok tt /\
     notes (content w') !! op_entityId operation = None /\
     db_notes (offline w') !! op_entityId operation = None /\
     notes (content w') !! note_id created = Some created /\
     db_notes (offline w') !! note_id created = Some (created, rt_now (runtime w)) /\
     (op_status <$> db_operations (offline w') !! op_id operation) = Some Synced) /\
  (forall operation stored created w,
     db_available (offline w) = true ->
     keyed (db_operations (offline w)) ->
     db_operations (offline w) !! op_id operation = Some stored ->
     op_type operation = OpCreate ->
     op_entityType operation = EntFolder ->
     remote_folders_create (rt_remote (runtime w)) (folder_createData (op_data operation))
       = inr created ->
     folder_id created <> op_entityId operation ->
     let w' := exec (SyncQueue.processOperation operation) w in
     result (SyncQueue.processOperation operation) w = Ok tt /\
     folders (content w') !! op_entityId operation = None /\
     db_folders (offline w') !! op_entityId operation = None /\
     folders (content w') !! folder_id created = Some created /\
     db_folders (offline w') !! folder_id created = Some (created, rt_now (runtime w)) /\
     (op_status <$> db_operations (offline w') !! op_id operation) = Some Synced) /\
  (forall data created w,
     remote_notes_create (rt_remote (runtime w)) (Api.obj_of_CreateNoteRequest data)
       = inr created ->
     note_id created <> temp_id w 0 ->
     let w' := exec (ContentStore.createNoteOptimistic data) w in
     result (ContentStore.createNoteOptimistic data) w = Ok created /\
     notes (content w') !! temp_id w 0 = None /\
     notes (content w') !! note_id created = Some created) /\
  (forall data created w,
     remote_folders_create (rt_remote (runtime w)) (Api.obj_of_CreateFolderRequest data)
       = inr created ->
     folder_id created <> temp_id w 0 ->
     let w' := exec (ContentStore.createFolderOptimistic data) w in
     result (ContentStore.createFolderOptimistic data) w = Ok created /\
     folders (content w') !! temp_id w 0 = None /\
     folders (content w') !! folder_id created = Some created).
Proof.
  split; [exact processOperation_create_note|].
  split; [exact processOperation_create_folder|].
  split.
  - intros data created w Hcreate Hne w'.
    pose proof (createNoteOptimistic_spec data w) as H. cbv zeta in H.
    rewrite Hcreate in H. destruct H as (Hr & Hn & _). fold w' in Hn.
    split; [exact Hr|]. rewrite Hn.
    split; [by rewrite lookup_insert_ne, lookup_delete_eq | apply lookup_insert_eq].
  - intros data created w Hcreate Hne w'.
    pose proof (createFolderOptimistic_spec data w) as H. cbv zeta in H.
    rewrite Hcreate in H. destruct H as (Hr & Hn & _). fold w' in Hn.
    split; [exact Hr|]. rewrite Hn.
    split; [by rewrite lookup_insert_ne, lookup_delete_eq | apply lookup_insert_eq].
Qed.

Lemma provisional_note_witness :
  db_available (offline draft_world) = true /\
  remote_notes_create (rt_remote (runtime draft_world)) (note_createData (op_data create_a))
    = inr note_42 /\
  notes (content draft_world) !! "tmp-1" = Some draft_tmp /\
  notes (content (exec (SyncQueue.processOperation create_a) draft_world)) !! "tmp-1"
    = None /\
  notes (content (exec (SyncQueue.processOperation create_a) draft_world)) !! "n-42"
    = Some note_42.
Proof.
  assert (H1 : db_available (offline draft_world) = true) by reflexivity.
  assert (H2 : keyed (db_operations (offline draft_world)))
    by apply (keyed_singleton create_a).
  assert (H3 : db_operations (offline draft_world) !! op_id create_a = Some create_a)
    by reflexivity.
  assert (H4 : op_type create_a = OpCreate) by reflexivity.
  assert (H5 : op_entityType create_a = EntNote) by reflexivity.
  assert (H6 : remote_notes_create (rt_remote (runtime draft_world))
                 (note_createData (op_data create_a)) = inr note_42) by reflexivity.
  assert (H7 : note_id note_42 <> op_entityId create_a) by discriminate.
  split; [exact H1|]. split; [exact H6|]. split; [reflexivity|].
  destruct (proj1 provisional_entity_replaced_on_confirmation
              create_a create_a note_42 draft_world H1 H2 H3 H4 H5 H6 H7)
    as (_ & Hgone & _ & Hnew & _).
  split; [exact Hgone | exact Hnew].
Defined.

(** Claim C10, amended.  Whatever the caller passes, [queueOperation]
    stores, under the id it returns, an operation that is [Pending] with
    retry count 0 and the current time, and changes no other entry of the
    log.  The id
    is [op_<clock>_<draw>], equal to another such id only if clock and
    draw are both equal, and it is not compared with the log: the log
    grows by one entry exactly when no operation is stored under that id,
    and an operation stored under it is replaced.  The next call takes
    the next draw: within the same clock reading its id differs from the
    first exactly when the two draws differ, and then both operations are
    stored; when the draws are equal the second replaces the first. *)
Theorem queueOperation_initial_state (operation : QueueInput) (w : World) :
  db_available (offline w) = true ->
  let now := rt_now (runtime w) in
  let suffix := rt_random (runtime w) (random_next w) in
  let id := SyncQueue.operation_id now suffix in
  let w' := exec (SyncQueue.queueOperation operation) w in
  result (SyncQueue.queueOperation operation) w = Ok id /\
  db_operations (offline w') !! id =
    Some (mkOfflineOperation id (qi_type operation) (qi_entityType operation)
            (qi_entityId operation) (qi_data operation) now (qi_userId operation)
            Pending 0 (qi_lastError operation)) /\
  (forall id', id' <> id ->
     db_operations (offline w') !! id' = db_operations (offline w) !! id') /\
  (forall now' suffix',
     SyncQueue.operation_id now' suffix' = id -> now' = now /\ suffix' = suffix) /\
  (db_operations (offline w) !! id = None ->
     size (db_operations (offline w')) = S (size (db_operations (offline w)))) /\
  (is_Some (db_operations (offline w) !! id) ->
     size (db_operations (offline w')) = size (db_operations (offline w))) /\
  forall operation2 : QueueInput,
    let suffix2 := rt_random (runtime w) (S (random_next w)) in
    let id2 := SyncQueue.operation_id now suffix2 in
    let w2 := exec (SyncQueue.queueOperation operation2) w' in
    result (SyncQueue.queueOperation operation2) w' = Ok id2 /\
    (id2 = id <-> suffix2 = suffix) /\
    db_operations (offline w2) !! id2 =
      Some (SyncQueue.fullOperation operation2 id2 now) /\
    (suffix2 <> suffix ->
       db_operations (offline w2) !! id =
         Some (SyncQueue.fullOperation operation id now)) /\
    (suffix2 = suffix ->
       db_operations (offline w2) !! id =
         Some (SyncQueue.fullOperation operation2 id now)).
Proof.
  intros Hdb now suffix id w'.
  destruct (queueOperation_stores operation w Hdb) as (Hres & Hlog & Hdb' & Hrt & Hnext).
  fold now suffix id w' in Hres, Hlog, Hdb', Hrt, Hnext.
  split; [exact Hres|].
  split; [rewrite Hlog; apply lookup_insert_eq|].
  split; [intros id' Hne; rewrite Hlog; by apply lookup_insert_ne|].
  split; [intros now' suffix' E; apply operation_id_inj in E; tauto|].
  split; [intros Hnew; rewrite Hlog; by apply map_size_insert_None|].
  split; [intros Hold; rewrite Hlog; by apply map_size_insert_Some|].
  intros operation2 suffix2 id2 w2.
  destruct (queueOperation_stores operation2 w' Hdb') as (Hres2 & Hlog2 & _).
  fold w2 in Hlog2. rewrite Hrt, Hnext in Hres2, Hlog2. fold now suffix2 id2 in Hres2, Hlog2.
  assert (Hiff : id2 = id <-> suffix2 = suffix).
  { split; [intros E; apply operation_id_inj in E; tauto|].
    intros E. subst id2 id. by rewrite E. }
  split; [exact Hres2|]. split; [exact Hiff|].
  split; [rewrite Hlog2; apply lookup_insert_eq|].
  split.
  - intros Hne. rewrite Hlog2, lookup_insert_ne by (intros E; by apply Hne, Hiff).
    rewrite Hlog. apply lookup_insert_eq.
  - intros He. apply Hiff in He. rewrite Hlog2, He. apply lookup_insert_eq.
Qed.

Lemma queueOperation_witness :
  db_available (offline empty_world) = true /\
  let w' := exec (SyncQueue.queueOperation injected) empty_world in
  (op_status <$> db_operations (offline w') !! "op_1700000000000_0") = Some Pending /\
  (op_retryCount <$> db_operations (offline w') !! "op_1700000000000_0") = Some 0%Z /\
  result (SyncQueue.queueOperation (create_input 2)) w' = Ok "op_1700000000000_1".
Proof.
  assert (H : db_available (offline empty_world) = true) by reflexivity.
  split; [exact H|].
  destruct (queueOperation_initial_state injected empty_world H)
    as (_ & Hl & _ & _ & _ & _ & Hnext).
  cbv zeta in Hl.
  change (SyncQueue.operation_id (rt_now (runtime empty_world))
            (rt_random (runtime empty_world) (random_next empty_world)))
    with "op_1700000000000_0" in Hl.
  cbv zeta. rewrite Hl. split; [reflexivity|]. split; [reflexivity|].
  exact (proj1 (Hnext (create_input 2))).
Defined.

(** Claim C10 fails as stated: the id is not always new.  When
    [Math.random] gives the same digits to two calls made within one
    clock reading, both calls return the same id and the second operation
    replaces the first in the log. *)
Lemma queueOperation_repeats_an_id :
  let w1 := exec (SyncQueue.queueOperation (create_input 1)) repeating_world in
  let w2 := exec (SyncQueue.queueOperation (create_input 2)) w1 in
  result (SyncQueue.queueOperation (create_input 1)) repeating_world
    = Ok "op_1700000000000_k3j9x2a1b" /\
  result (SyncQueue.queueOperation (create_input 2)) w1
    = Ok "op_1700000000000_k3j9x2a1b" /\
  (op_entityId <$> db_operations (offline w1) !! "op_1700000000000_k3j9x2a1b")
    = Some "temp_1" /\
  (op_entityId <$> (map_to_list (db_operations (offline w2))).*2) = ["temp_2"].
Proof. vm_compute. repeat split; reflexivity. Qed.

(** * More about the drain and the log *)

(** Property X1.  [processPendingOperations] never rejects and does not wait
    for the operations it starts.  When it returns, the selected operations
    are in flight, each stored as [Syncing] with its last error cleared by
    the first write of its [processOperation], and none has gone further:
    no request has been made and every other record of the log is as it
    was.  [isSyncing] is what it was, and projection, stored notes,
    folders and metadata are untouched.  Online and not syncing, it has
    emitted [syncStarted] and then a [syncCompleted] that reports success
    with 0 processed (and 0 failed when there was a candidate), or
    [syncError] with the error of the database that is not open; offline
    or while syncing it emits nothing. *)
Theorem drain_reports_before_anything_settles (w : World) :
  let w' := exec SyncQueue.processPendingOperations w in
  result SyncQueue.processPendingOperations w = Ok tt /\
  isSyncing (queue w') = isSyncing (queue w) /\
  content w' = content w /\ requests w' = requests w /\
  db_notes (offline w') = db_notes (offline w) /\
  db_folders (offline w') = db_folders (offline w) /\
  db_metadata (offline w') = db_metadata (offline w) /\
  running w' = running w ++ drain_selection w /\
  (keyed (db_operations (offline w)) ->
     db_operations (offline w') =
       syncing_marked (drain_selection w) (db_operations (offline w)) /\
     promises w' = promises w ++ begun_well (drain_selection w)) /\
  emitted w' =
    emitted w ++
    (if negb (isOnline (queue w)) || isSyncing (queue w) then []
     else if db_available (offline w)
          then [EvSyncStarted;
                EvSyncCompleted true 0
                  (match candidates w with [] => None | _ => Some 0%Z end)]
          else [EvSyncStarted; EvSyncError (open_error (offline w))]).
Proof.
  intros w'.
  split; [apply processPendingOperations_ok|].
  pose proof (processPendingOperations_keeps_data w)
    as (Hc & _ & Hr & _ & _ & Hn & Hf & Hm).
  fold w' in Hc, Hr, Hn, Hf, Hm.
  split; [|split; [exact Hc|split; [exact Hr|split; [exact Hn|split; [exact Hf|
    split; [exact Hm|split; [apply processPendingOperations_running|split]]]]]]].
  - subst w'. unfold exec.
    destruct (isOnline (queue w)) eqn:Hon; [destruct (isSyncing (queue w)) eqn:Hs|].
    + rewrite processPendingOperations_idle by auto. done.
    + destruct (db_available (offline w)) eqn:Hdb.
      * rewrite processPendingOperations_online by done. cbn [snd].
        cbn [queue with_emitted]. rewrite started_queue.
        destruct (queue w); cbn in *. done.
      * rewrite processPendingOperations_unavailable by done.
        destruct w as [rt rn c od q u t ti em rq rs]; destruct q; cbn in *. done.
    + rewrite processPendingOperations_idle by auto. done.
  - intros Hk. destruct (processPendingOperations_log w Hk) as (Hlog & Hp & _).
    split; [exact Hlog | exact Hp].
  - subst w'. unfold exec.
    destruct (isOnline (queue w)) eqn:Hon; [destruct (isSyncing (queue w)) eqn:Hs|]; cbn.
    + rewrite processPendingOperations_idle by auto. by rewrite app_nil_r.
    + destruct (db_available (offline w)) eqn:Hdb.
      * rewrite processPendingOperations_online by done. cbn [snd].
        cbn [emitted with_emitted].
        by rewrite (started_keeps emitted).
      * rewrite processPendingOperations_unavailable by done. reflexivity.
    + rewrite processPendingOperations_idle by auto. by rewrite app_nil_r.
Qed.

Lemma drain_reports_witness :
  keyed (db_operations (offline conflict_world)) /\
  db_operations (offline (exec SyncQueue.processPendingOperations conflict_world))
    !! "op1" = Some (apply_patch op1 mark_syncing).
Proof.
  assert (Hk : keyed (db_operations (offline conflict_world)))
    by apply (keyed_singleton op1).
  split; [exact Hk|].
  destruct (drain_reports_before_anything_settles conflict_world)
    as (_ & _ & _ & _ & _ & _ & _ & _ & Hlog & _).
  rewrite (proj1 (Hlog Hk)). reflexivity.
Defined.

(** Property X2.  [resolvePendingConflicts] emits one [conflict] event, with
    no remote data, for each failed operation whose last error contains the
    lower-case word conflict, and changes nothing else.  An operation whose
    last error is the message of [handleConflict], Conflict detected, is
    never among them. *)
Theorem recorded_conflicts_are_not_announced_again (w : World) :
  db_available (offline w) = true ->
  SyncQueue.resolvePendingConflicts w =
    (Ok tt,
     with_emitted
       (fun l => l ++ (announced <$> List.filter mentions_conflict (operations_with Failed w)))
       w) /\
  forall o,
    op_lastError o = Some "Conflict detected" ->
    ~ In (announced o)
        (announced <$> List.filter mentions_conflict (operations_with Failed w)).
Proof.
  intros Hdb. split.
  - unfold SyncQueue.resolvePendingConflicts, OfflineStorage.getOperations,
      OfflineStorage.getObjectStore, get_world, modify. run. rewrite Hdb. reflexivity.
  - intros o Hlast Hin.
    apply list_elem_of_In, list_elem_of_fmap in Hin as (o' & Heq & Hin').
    assert (o' = o) as -> by (unfold announced in Heq; congruence).
    apply list_elem_of_In, filter_In in Hin' as [_ Hm].
    unfold mentions_conflict in Hm. rewrite Hlast in Hm. discriminate.
Qed.

Lemma recorded_conflicts_witness :
  db_available (offline conflicted_world) = true /\
  operations_with Failed conflicted_world = [op_conflicted] /\
  emitted (exec SyncQueue.resolvePendingConflicts conflicted_world) = [].
Proof.
  assert (H : db_available (offline conflicted_world) = true) by reflexivity.
  split; [exact H|]. split; [reflexivity|].
  unfold exec.
  rewrite (proj1 (recorded_conflicts_are_not_announced_again conflicted_world H)).
  reflexivity.
Defined.

Lemma without_lookup l m id :
  without l m !! id =
    if bool_decide (id ∈ op_id <$> l) then None else m !! id.
Proof.
  revert m. induction l as [|o l IH]; intros m; cbn.
  - reflexivity.
  - unfold without in *. cbn. rewrite IH.
    destruct (decide (id = op_id o)) as [->|Hne].
    + rewrite lookup_delete_eq.
      rewrite (bool_decide_eq_true_2 (op_id o ∈ op_id o :: _))
        by apply list_elem_of_here.
      by destruct (bool_decide _).
    + rewrite lookup_delete_ne by done.
      destruct (decide (id ∈ op_id <$> l)) as [Hin|Hnin].
      * rewrite !bool_decide_eq_true_2; [done|by apply list_elem_of_further|done].
      * rewrite !bool_decide_eq_false_2; [done| |done].
        intros [->|?]%elem_of_cons; tauto.
Qed.

Lemma forEach_deleteOperation l w :
  db_available (offline w) = true ->
  forEach (fun operation => OfflineStorage.deleteOperation (op_id operation)) l w =
    (Ok tt, with_offline (OfflineStorage.with_operations (without l)) w).
Proof.
  revert w. induction l as [|o l IH]; intros w Hdb.
  - destruct w as [rt rn c [av fl dn df dop dm] q u t ti em rq rs]. reflexivity.
  - cbn [forEach]. unfold OfflineStorage.deleteOperation, OfflineStorage.getObjectStore,
      modify. run. rewrite Hdb. cbn. rewrite IH by (cbn; exact Hdb).
    destruct w as [rt rn c [av fl dn df dop dm] q u t ti em rq rs]. reflexivity.
Qed.

Lemma operations_with_ids s w id :
  keyed (db_operations (offline w)) ->
  id ∈ op_id <$> operations_with s w <->
  exists o, db_operations (offline w) !! id = Some o /\ op_status o = s.
Proof.
  intros Hk. rewrite list_elem_of_fmap. split.
  - intros (o & -> & Hin). apply list_elem_of_In, filter_In in Hin as [Hin Hs].
    apply store_getAll_In in Hin as [k Hk'].
    pose proof (keyed_lookup _ _ _ Hk Hk') as Hid. subst k.
    exists o. split; [done|]. by apply bool_decide_eq_true in Hs.
  - intros (o & Ho & Hs). exists o.
    split; [symmetry; exact (keyed_lookup _ _ _ Hk Ho)|].
    apply list_elem_of_In, filter_In. split.
    + apply store_getAll_In. eauto.
    + by apply bool_decide_eq_true.
Qed.

(** Property X3.  With a keyed log, [clearFailedOperations] removes exactly
    the operations whose status is [Failed]: every other entry stays as it
    is.  It then emits [failedOperationsCleared] with their number, and
    touches neither notes, folders, projection, requests, timers nor the
    promises in flight. *)
Theorem clearFailedOperations_removes_the_failed_only (w : World) :
  db_available (offline w) = true ->
  keyed (db_operations (offline w)) ->
  let w' := exec SyncQueue.clearFailedOperations w in
  result SyncQueue.clearFailedOperations w = Ok tt /\
  (forall id,
     db_operations (offline w') !! id =
       match db_operations (offline w) !! id with
       | Some o => if bool_decide (op_status o = Failed) then None else Some o
       | None => None
       end) /\
  emitted w' =
    emitted w ++
    [EvFailedOperationsCleared (Z.of_nat (length (operations_with Failed w)))] /\
  content w' = content w /\
  db_notes (offline w') = db_notes (offline w) /\
  db_folders (offline w') = db_folders (offline w) /\
  requests w' = requests w /\ timers w' = timers w /\ running w' = running w.
Proof.
  intros Hdb Hk w'.
  assert (Hrun : SyncQueue.clearFailedOperations w =
    (Ok tt,
     with_emitted
       (fun l => l ++
          [EvFailedOperationsCleared (Z.of_nat (length (operations_with Failed w)))])
       (with_offline
          (OfflineStorage.with_operations (without (operations_with Failed w))) w))).
  { unfold SyncQueue.clearFailedOperations, OfflineStorage.getOperations,
      OfflineStorage.getObjectStore, get_world, SyncQueue.emit, modify.
    run. rewrite Hdb. cbn. fold (operations_with Failed w).
    rewrite forEach_deleteOperation by exact Hdb. reflexivity. }
  subst w'. unfold result, exec. rewrite Hrun.
  destruct w as [rt rn c [av fl dn df dop dm] q u t ti em rq rs]. cbn in *.
  repeat split.
  intros id. rewrite without_lookup.
  destruct (dop !! id) as [o|] eqn:Ho.
  - destruct (decide (op_status o = Failed)) as [Hf|Hnf].
    + rewrite (bool_decide_eq_true_2 (op_status o = Failed)) by done.
      rewrite bool_decide_eq_true_2; [done|].
      apply (operations_with_ids Failed
               (mkWorld rt rn c (mkOfflineDB av fl dn df dop dm) q u t ti em rq rs));
        [exact Hk|]. eauto.
    + rewrite (bool_decide_eq_false_2 (op_status o = Failed)) by done.
      rewrite bool_decide_eq_false_2; [done|].
      intros Hin.
      apply (operations_with_ids Failed
               (mkWorld rt rn c (mkOfflineDB av fl dn df dop dm) q u t ti em rq rs))
        in Hin as (o' & Ho' & Hs); [|exact Hk]. cbn in Ho'. congruence.
  - by destruct (bool_decide _).
Qed.

Lemma mixed_world_keyed : keyed (db_operations (offline mixed_world)).
Proof.
  apply (keyed_insert _ (apply_patch (update_op "op3" 1699999999700 3)
           (mkOperationPatch (Some Failed) None (Some (Some "Network error"))))).
  apply (keyed_insert _ op2). apply (keyed_singleton op_exhausted).
Qed.

Lemma clearFailedOperations_witness :
  db_available (offline mixed_world) = true /\
  db_operations (offline (exec SyncQueue.clearFailedOperations mixed_world)) !! "op3"
    = None /\
  db_operations (offline (exec SyncQueue.clearFailedOperations mixed_world)) !! "op2"
    = Some op2.
Proof.
  assert (H : db_available (offline mixed_world) = true) by reflexivity.
  pose proof (proj1 (proj2 (clearFailedOperations_removes_the_failed_only
                              mixed_world H mixed_world_keyed))) as Hl.
  split; [exact H|]. split.
  - rewrite (Hl "op3"). reflexivity.
  - rewrite (Hl "op2"). reflexivity.
Defined.

Lemma updateOperation_missing id p w :
  db_available (offline w) = true ->
  db_operations (offline w) !! id = None ->
  OfflineStorage.updateOperation id p w = (Throw (Error "Operation not found"), w).
Proof.
  intros Hdb Ho. unfold OfflineStorage.updateOperation, OfflineStorage.getObjectStore,
    get_world. run. rewrite Hdb. cbn. rewrite Ho. reflexivity.
Qed.

(** Property X4.  An id the log does not hold: [retryOperation],
    [updateOperation] and [processOperation] throw Operation not found and
    change nothing, whereas [cancelOperation] succeeds and emits
    [operationCancelled] for it. *)
Theorem unknown_operation_id (id : string) (w : World) :
  db_available (offline w) = true ->
  keyed (db_operations (offline w)) ->
  db_operations (offline w) !! id = None ->
  SyncQueue.retryOperation id w = (Throw (Error "Operation not found"), w) /\
  SyncQueue.cancelOperation id w =
    (Ok tt, with_emitted (fun l => l ++ [EvOperationCancelled id]) w) /\
  (forall updates,
     OfflineStorage.updateOperation id updates w =
       (Throw (Error "Operation not found"), w)) /\
  (forall operation,
     op_id operation = id ->
     SyncQueue.processOperation operation w = (Throw (Error "Operation not found"), w)).
Proof.
  intros Hdb Hk Hnone.
  split; [|split; [|split]].
  - unfold SyncQueue.retryOperation. unfold mbind at 1. unfold M_bind.
    rewrite getOperations_all by exact Hdb.
    rewrite find_by_id by exact Hk. rewrite Hnone. reflexivity.
  - unfold SyncQueue.cancelOperation. unfold mbind at 1 2. unfold M_bind.
    rewrite getOperations_all by exact Hdb.
    rewrite find_by_id by exact Hk. rewrite Hnone.
    unfold OfflineStorage.deleteOperation, OfflineStorage.getObjectStore,
      SyncQueue.emit, modify. run. rewrite Hdb. cbn.
    destruct w as [rt rn c [av fl dn df dop dm] q u t ti em rq rs]. cbn in *.
    unfold with_emitted, with_offline, OfflineStorage.with_operations. cbn.
    by rewrite (delete_id _ _ Hnone).
  - intros updates. by apply updateOperation_missing.
  - intros operation <-.
    unfold SyncQueue.processOperation, SyncQueue.processOperation_from,
      SyncQueue.first_write, try_catch.
    unfold mbind at 1. unfold M_bind.
    rewrite updateOperation_missing by done.
    unfold SyncQueue.this. run.
    rewrite updateOperation_missing by done. reflexivity.
Qed.

Lemma unknown_operation_witness :
  db_available (offline conflict_world) = true /\
  db_operations (offline conflict_world) !! "op9" = None /\
  SyncQueue.retryOperation "op9" conflict_world =
    (Throw (Error "Operation not found"), conflict_world).
Proof.
  assert (H1 : db_available (offline conflict_world) = true) by reflexivity.
  assert (H2 : keyed (db_operations (offline conflict_world)))
    by apply (keyed_singleton op1).
  assert (H3 : db_operations (offline conflict_world) !! "op9" = None) by reflexivity.
  split; [exact H1|]. split; [exact H3|].
  exact (proj1 (unknown_operation_id "op9" conflict_world H1 H2 H3)).
Defined.

(** Property X10.  An operation that was processed successfully is stored as
    [Synced].  While it is stored so it is no candidate of a drain:
    [processPendingOperations] does not start it and leaves its record as
    it is.  [retryOperation] does not look at the status: it puts the
    record back with count 0, [Pending] and so a candidate again, or
    already [Syncing] and in flight when the drain it runs starts the
    operation at once.  The timer set for one minute later deletes the
    operation from the log, which leaves the log as it was before without
    that operation. *)
Theorem synced_operation_leaves_the_log
    (operation stored : OfflineOperation) (w : World) :
  db_available (offline w) = true ->
  keyed (db_operations (offline w)) ->
  db_operations (offline w) !! op_id operation = Some stored ->
  result (SyncQueue.processOperation operation) w = Ok tt ->
  let id := op_id operation in
  let w' := exec (SyncQueue.processOperation operation) w in
  db_operations (offline w') = <[id := synced_record stored]> (db_operations (offline w)) /\
  op_status (synced_record stored) = Synced /\
  timers w' = timers w ++ [mkTimer (Some 60000%Z) (TDeleteOperation id)] /\
  (forall o, In o (candidates w') -> op_id o <> id) /\
  (let w2 := exec SyncQueue.processPendingOperations w' in
   (forall o, In o (running w2) -> In o (running w') \/ op_id o <> id) /\
   db_operations (offline w2) !! id = Some (synced_record stored)) /\
  (let w3 := exec (SyncQueue.retryOperation id) w' in
   exists again,
     db_operations (offline w3) !! id = Some again /\
     op_retryCount again = 0%Z /\
     (op_status again = Pending \/
      op_status again = Syncing /\
      In (apply_patch (synced_record stored) reset_patch) (running w3))) /\
  result (fire (TDeleteOperation id)) w' = Ok tt /\
  db_operations (offline (exec (fire (TDeleteOperation id)) w')) =
    delete id (db_operations (offline w)).
Proof.
  intros Hdb Hk Hs Hres id w'.
  pose proof (keyed_lookup _ _ _ Hk Hs) as Hid.
  pose proof (processOperation_outcome operation w stored Hdb Hs Hid) as Hout.
  cbv zeta in Hout.
  set (w1 := put_operation (apply_patch stored mark_syncing) w) in *.
  pose proof (executeOperation_keeps_log operation w1) as Hlog.
  unfold result in Hres. rewrite Hout in Hres.
  destruct (failure _) as [e|] eqn:Hf; [discriminate|]. clear Hres.
  set (w2 := snd (SyncQueue.executeOperation operation w1)) in *.
  assert (Hw' : w' =
    with_timers (fun ts => ts ++ [mkTimer (Some 60000%Z) (TDeleteOperation id)])
      (put_operation (synced_record stored) w2)).
  { subst w'. unfold exec. by rewrite Hout. }
  unfold log_view in Hlog. injection Hlog as Hav Hops Htim _ _.
  assert (Hops' : db_operations (offline w') =
                  <[id := synced_record stored]> (db_operations (offline w))).
  { rewrite Hw'. destruct w2 as [rt rn c [av fl dn df dop dm] q u t ti em rq rs].
    cbn in *. rewrite Hops. subst w1.
    destruct w as [rt' rn' c' [av' fl' dn' df' dop' dm'] q' u' t' ti' em' rq' rs'].
    cbn. subst id. rewrite <- Hid. cbn. by rewrite insert_insert_eq. }
  assert (Hdb' : db_available (offline w') = true).
  { rewrite Hw'. destruct w2 as [rt rn c [av fl dn df dop dm] q u t ti em rq rs].
    cbn in *. rewrite Hav. subst w1.
    by destruct w as [rt' rn' c' [av' fl' dn' df' dop' dm'] q' u' t' ti' em' rq' rs']. }
  split; [exact Hops'|]. split; [reflexivity|]. split.
  { rewrite Hw'. destruct w2 as [rt rn c [av fl dn df dop dm] q u t ti em rq rs].
    cbn in *. rewrite Htim. subst w1.
    by destruct w as [rt' rn' c' [av' fl' dn' df' dop' dm'] q' u' t' ti' em' rq' rs']. }
  assert (Hk' : keyed (db_operations (offline w'))).
  { rewrite Hops'. subst id. rewrite <- Hid.
    apply (keyed_insert _ (synced_record stored) Hk). }
  assert (Hl' : db_operations (offline w') !! id = Some (synced_record stored)).
  { rewrite Hops'. apply lookup_insert_eq. }
  assert (Hcand : forall o, In o (candidates w') -> op_id o <> id).
  { intros o Hin Heq.
    pose proof (candidates_stored _ _ Hk' Hin) as Hl.
    rewrite Heq, Hl' in Hl. injection Hl as <-.
    destruct (candidates_status _ _ Hin); discriminate. }
  assert (Hskip : forall o, In o (drain_selection w') -> op_id o <> id).
  { intros o Hin. apply Hcand. unfold drain_selection in Hin.
    destruct (_ && _); [|destruct Hin].
    by apply selected_retryable in Hin as [Hin _]. }
  split; [exact Hcand|].
  split.
  { cbv zeta. split.
    - intros o Hin. rewrite processPendingOperations_running in Hin.
      apply in_app_or in Hin as [Hin|Hin]; [by left|right; by apply Hskip].
    - assert (Hids : op_id (synced_record stored) = id) by exact Hid.
      pose proof (processPendingOperations_skipped w' (synced_record stored) Hk')
        as Hkept.
      rewrite Hids in Hkept. apply Hkept; [exact Hl'|].
      intros Hin. by apply (Hskip _ Hin). }
  split.
  { destruct (retryOperation_again id w' (synced_record stored) Hdb' Hk' Hl')
      as (again & Hagain & Hcount & _ & Hstatus & _).
    exists again. by repeat split. }
  unfold fire, try_catch, result, exec, OfflineStorage.deleteOperation,
    OfflineStorage.getObjectStore, modify. run. rewrite Hdb'. cbn.
  split; [reflexivity|].
  destruct w' as [rt rn c [av fl dn df dop dm] q u t ti em rq rs]. cbn in *.
  rewrite Hops'. apply delete_insert_eq.
Qed.

Lemma synced_operation_witness :
  db_available (offline draft_world) = true /\
  result (SyncQueue.processOperation create_a) draft_world = Ok tt /\
  db_operations
    (offline (exec (fire (TDeleteOperation "op_a"))
                (exec (SyncQueue.processOperation create_a) draft_world))) =
    delete "op_a" (db_operations (offline draft_world)).
Proof.
  assert (H1 : db_available (offline draft_world) = true) by reflexivity.
  assert (H2 : keyed (db_operations (offline draft_world)))
    by apply (keyed_singleton create_a).
  assert (H3 : db_operations (offline draft_world) !! op_id create_a = Some create_a)
    by reflexivity.
  assert (H4 : result (SyncQueue.processOperation create_a) draft_world = Ok tt)
    by reflexivity.
  split; [exact H1|]. split; [exact H4|].
  exact (proj2 (proj2 (proj2 (proj2 (proj2 (proj2 (proj2
    (synced_operation_leaves_the_log create_a create_a draft_world H1 H2 H3 H4)))))))).
Defined.

(** Property X13.  With a keyed log, [clearSyncedOperations] removes exactly
    the operations whose status is [Synced] and leaves every other entry,
    the notes, the folders and the projection as they are; when there is
    none it changes nothing. *)
Theorem clearSyncedOperations_removes_the_synced_only (w : World) :
  db_available (offline w) = true ->
  keyed (db_operations (offline w)) ->
  let w' := exec OfflineStorage.clearSyncedOperations w in
  result OfflineStorage.clearSyncedOperations w = Ok tt /\
  (forall id,
     db_operations (offline w') !! id =
       match db_operations (offline w) !! id with
       | Some o => if bool_decide (op_status o = Synced) then None else Some o
       | None => None
       end) /\
  (operations_with Synced w = [] -> w' = w) /\
  content w' = content w /\
  db_notes (offline w') = db_notes (offline w) /\
  db_folders (offline w') = db_folders (offline w).
Proof.
  intros Hdb Hk w'.
  assert (Hrun : OfflineStorage.clearSyncedOperations w =
    (Ok tt,
     with_offline
       (OfflineStorage.with_operations (without (operations_with Synced w))) w)).
  { unfold OfflineStorage.clearSyncedOperations, OfflineStorage.getOperations,
      OfflineStorage.getObjectStore, get_world, modify.
    run. rewrite Hdb. cbn. rewrite Hdb. reflexivity. }
  assert (Hlook : forall id,
    without (operations_with Synced w) (db_operations (offline w)) !! id =
      match db_operations (offline w) !! id with
      | Some o => if bool_decide (op_status o = Synced) then None else Some o
      | None => None
      end).
  { intros id. rewrite without_lookup.
    destruct (db_operations (offline w) !! id) as [o|] eqn:Ho.
    - destruct (decide (op_status o = Synced)) as [Hf|Hnf].
      + rewrite (bool_decide_eq_true_2 (op_status o = Synced)) by done.
        rewrite bool_decide_eq_true_2; [done|].
        apply (operations_with_ids Synced w); [exact Hk|]. eauto.
      + rewrite (bool_decide_eq_false_2 (op_status o = Synced)) by done.
        rewrite bool_decide_eq_false_2; [done|].
        intros Hin. apply (operations_with_ids Synced w) in Hin as (o' & Ho' & Hs);
          [|exact Hk]. congruence.
    - by destruct (bool_decide _). }
  subst w'. unfold result, exec. rewrite Hrun.
  split; [reflexivity|]. split.
  { intros id. rewrite <- Hlook.
    by destruct w as [rt rn c [av fl dn df dop dm] q u t ti em rq rs]. }
  split.
  { intros ->. by destruct w as [rt rn c [av fl dn df dop dm] q u t ti em rq rs]. }
  by destruct w as [rt rn c [av fl dn df dop dm] q u t ti em rq rs].
Qed.

Lemma clearSyncedOperations_witness :
  db_available (offline mixed_world) = true /\
  operations_with Synced mixed_world = [] /\
  OfflineStorage.clearSyncedOperations mixed_world = (Ok tt, mixed_world).
Proof.
  assert (H : db_available (offline mixed_world) = true) by reflexivity.
  assert (Hnone : operations_with Synced mixed_world = []) by reflexivity.
  split; [exact H|]. split; [exact Hnone|].
  destruct (clearSyncedOperations_removes_the_synced_only mixed_world H mixed_world_keyed)
    as (Hr & _ & Hsame & _).
  unfold result, exec in *.
  destruct (OfflineStorage.clearSyncedOperations mixed_world) as [r w'].
  cbn in *. by rewrite Hr, (Hsame Hnone).
Defined.

(** * Without a database *)

Ltac storage_run :=
  unfold fails_with, open_error, OfflineStorage.clearSyncedOperations,
    OfflineStorage.saveNote, OfflineStorage.deleteNote, OfflineStorage.getNote,
    OfflineStorage.getNotes, OfflineStorage.saveFolder, OfflineStorage.deleteFolder,
    OfflineStorage.getFolder, OfflineStorage.getFolders, OfflineStorage.saveOperation,
    OfflineStorage.getOperations, OfflineStorage.updateOperation,
    OfflineStorage.deleteOperation,
    OfflineStorage.setMetadata, OfflineStorage.getMetadata,
    OfflineStorage.saveNotes, OfflineStorage.saveFolders,
    OfflineStorage.getObjectStore, get_world, modify, Date_now;
  run.



(** Property X6.  When no database handle can be obtained, the entry
    points of the queue reject with the error of the storage: Failed to
    open IndexedDB when [indexedDB.open] fails, Database not initialized
    when the window has no IndexedDB.  [queueOperation] has drawn an id by
    then but stores nothing, emits nothing and schedules nothing; the
    others change nothing at all. *)
Theorem queue_without_database (w : World) :
  db_available (offline w) = false ->
  let e := open_error (offline w) in
  e = (if db_open_fails (offline w) then Error "Failed to open IndexedDB"
       else Error "Database not initialized") /\
  (forall operation,
     result (SyncQueue.queueOperation operation) w = Throw e /\
     exec (SyncQueue.queueOperation operation) w = with_random_next S w) /\
  (forall id, fails_with e (SyncQueue.retryOperation id) w) /\
  (forall id, fails_with e (SyncQueue.cancelOperation id) w) /\
  fails_with e SyncQueue.clearFailedOperations w /\
  fails_with e SyncQueue.resolvePendingConflicts w /\
  fails_with e SyncQueue.getSyncStats w /\
  (forall operation, fails_with e (SyncQueue.processOperation operation) w).
Proof.
  intros Hdb e. subst e.
  split; [reflexivity|].
  split; [|split; [|split; [|split; [|split; [|split]]]]]; intros;
    unfold SyncQueue.queueOperation, SyncQueue.retryOperation,
      SyncQueue.cancelOperation, SyncQueue.clearFailedOperations,
      SyncQueue.resolvePendingConflicts, SyncQueue.getSyncStats,
      SyncQueue.processOperation, SyncQueue.processOperation_from,
      SyncQueue.first_write, try_catch, SyncQueue.this, Math_random_suffix;
    storage_run; rewrite ?Hdb; cbn; rewrite ?Hdb;
    destruct (db_open_fails (offline w)) eqn:Hfl; cbn; rewrite ?Hdb, ?Hfl;
    try reflexivity; split; reflexivity.
Qed.

Lemma queue_without_database_witness :
  (db_available (offline without_database) = false /\
   result (SyncQueue.queueOperation (create_input 1)) without_database
     = Throw (Error "Database not initialized") /\
   emitted (exec (SyncQueue.queueOperation (create_input 1)) without_database) = [] /\
   timers (exec (SyncQueue.queueOperation (create_input 1)) without_database) = []) /\
  (db_available (offline unopened_database) = false /\
   result (SyncQueue.queueOperation (create_input 1)) unopened_database
     = Throw (Error "Failed to open IndexedDB")).
Proof.
  assert (H : db_available (offline without_database) = false) by reflexivity.
  assert (H' : db_available (offline unopened_database) = false) by reflexivity.
  split; (split; [assumption|]).
  - destruct (proj1 (proj2 (queue_without_database without_database H))
                (create_input 1)) as [Hr He].
    rewrite Hr, He. repeat split; reflexivity.
  - exact (proj1 (proj1 (proj2 (queue_without_database unopened_database H'))
                    (create_input 1))).
Defined.

(** * Stored notes *)

(** Property X11.  With the database open, [getNote] after [saveNote]
    returns the saved note, and after [deleteNote] it returns [null]; in
    both cases the other ids read as before.  [saveNote] keeps every note
    under its own id, and an id that is not stored reads as [null]. *)
Theorem stored_note_round_trip (w : World) :
  db_available (offline w) = true ->
  (forall note,
     let w1 := exec (OfflineStorage.saveNote note) w in
     result (OfflineStorage.saveNote note) w = Ok tt /\
     OfflineStorage.getNote (note_id note) w1 = (Ok (Some note), w1) /\
     (forall id, id <> note_id note ->
        result (OfflineStorage.getNote id) w1 = result (OfflineStorage.getNote id) w) /\
     (notes_keyed (db_notes (offline w)) -> notes_keyed (db_notes (offline w1)))) /\
  (forall id,
     let w1 := exec (OfflineStorage.deleteNote id) w in
     result (OfflineStorage.deleteNote id) w = Ok tt /\
     OfflineStorage.getNote id w1 = (Ok None, w1) /\
     (forall id', id' <> id ->
        result (OfflineStorage.getNote id') w1 =
        result (OfflineStorage.getNote id') w)) /\
  (forall id,
     db_notes (offline w) !! id = None -> OfflineStorage.getNote id w = (Ok None, w)).
Proof.
  intros Hdb.
  destruct w as [rt rn c [av fl dn df dop dm] q u t ti em rq rs]. cbn in Hdb. subst av.
  split; [|split].
  - intros note. unfold result, exec, OfflineStorage.saveNote, OfflineStorage.getNote,
      OfflineStorage.getObjectStore, get_world, modify, Date_now. run.
    split; [reflexivity|]. split; [by rewrite lookup_insert_eq|].
    split; [intros id Hne; by rewrite lookup_insert_ne|].
    intros Hk. by apply map_Forall_insert_2.
  - intros id. unfold result, exec, OfflineStorage.deleteNote, OfflineStorage.getNote,
      OfflineStorage.getObjectStore, get_world, modify. run.
    split; [reflexivity|]. split; [by rewrite lookup_delete_eq|].
    intros id' Hne. by rewrite lookup_delete_ne.
  - intros id Hnone. unfold OfflineStorage.getNote,
      OfflineStorage.getObjectStore, get_world. run. cbn in Hnone. by rewrite Hnone.
Qed.

Lemma stored_note_witness :
  db_available (offline empty_world) = true /\
  result (OfflineStorage.getNote "n1") (exec (OfflineStorage.saveNote note_v3) empty_world)
    = Ok (Some note_v3).
Proof.
  assert (H : db_available (offline empty_world) = true) by reflexivity.
  split; [exact H|].
  pose proof (proj1 (proj2 (proj1 (stored_note_round_trip empty_world H) note_v3))) as Hg.
  cbv zeta in Hg. unfold result. change (note_id note_v3) with "n1" in Hg.
  by rewrite Hg.
Defined.

(** Property X12.  [getNotes] changes nothing and lists exactly the stored
    notes, all of them when [folderId] is missing or empty, and otherwise
    those whose [folder_id] is [folderId]. *)
Theorem getNotes_lists_the_folder (w : World) (folderId : option string) :
  db_available (offline w) = true ->
  notes_keyed (db_notes (offline w)) ->
  result (OfflineStorage.getNotes folderId) w = Ok (listed folderId w) /\
  exec (OfflineStorage.getNotes folderId) w = w /\
  listed (Some "") w = listed None w /\
  forall note,
    In note (listed folderId w) <->
    (exists stamp, db_notes (offline w) !! note_id note = Some (note, stamp)) /\
    (folderId = None \/ folderId = Some "" \/ note_folder_id note = folderId).
Proof.
  intros Hdb Hk.
  assert (Hall : forall note,
    In note (fst <$> OfflineStorage.store_getAll (db_notes (offline w))) <->
    exists stamp, db_notes (offline w) !! note_id note = Some (note, stamp)).
  { intros note. rewrite <- list_elem_of_In, list_elem_of_fmap. split.
    - intros ([n stamp] & -> & Hin). apply list_elem_of_In, store_getAll_In in Hin as [k Hl].
      pose proof (Hk _ _ Hl) as Hid. cbn in Hid. subst k. eauto.
    - intros [stamp Hl]. exists (note, stamp). split; [done|].
      apply list_elem_of_In, store_getAll_In. eauto. }
  unfold listed, result, exec, OfflineStorage.getNotes, OfflineStorage.getObjectStore,
    get_world. run. rewrite Hdb. cbn.
  split; [reflexivity|]. split; [reflexivity|]. split; [reflexivity|].
  intros note. destruct folderId as [f|]; unfold str_or.
  - destruct (String.eqb_spec f "") as [->|Hne].
    + cbn. rewrite Hall. intuition.
    + destruct (String.eqb_spec f "") as [|_]; [done|].
      rewrite filter_In, Hall, bool_decide_eq_true. split.
      * intros [H1 H2]. auto.
      * intros [H1 [H2|[H2|H2]]]; [discriminate|congruence|auto].
  - cbn. rewrite Hall. intuition.
Qed.

Lemma draft_world_notes_keyed : notes_keyed (db_notes (offline draft_world)).
Proof.
  apply (map_Forall_insert_2 _ _ "tmp-1" (draft_tmp, 1699999999000%Z));
    [reflexivity|apply map_Forall_empty].
Qed.

Lemma getNotes_witness :
  db_available (offline draft_world) = true /\
  In draft_tmp (listed None draft_world).
Proof.
  assert (H : db_available (offline draft_world) = true) by reflexivity.
  split; [exact H|].
  apply (proj2 (proj2 (proj2 (proj2
           (getNotes_lists_the_folder draft_world None H draft_world_notes_keyed)))
           draft_tmp)).
  split; [exists 1699999999000%Z; reflexivity | left; reflexivity].
Defined.

(** * The full synchronisation *)

Lemma clearSyncedOperations_run w :
  db_available (offline w) = true ->
  OfflineStorage.clearSyncedOperations w =
    (Ok tt,
     with_offline
       (OfflineStorage.with_operations (without (operations_with Synced w))) w).
Proof.
  intros Hdb.
  unfold OfflineStorage.clearSyncedOperations, OfflineStorage.getOperations,
    OfflineStorage.getObjectStore, get_world, modify.
  run. rewrite Hdb. cbn. rewrite Hdb. reflexivity.
Qed.

Lemma drain_selection_same w w' :
  queue w' = queue w ->
  db_available (offline w') = db_available (offline w) ->
  db_operations (offline w') = db_operations (offline w) ->
  drain_selection w' = drain_selection w.
Proof.
  intros Hq Hdb Hops.
  unfold drain_selection, candidates, operations_with. by rewrite Hq, Hdb, Hops.
Qed.

Lemma operations_with_same s w w' :
  db_operations (offline w') = db_operations (offline w) ->
  operations_with s w' = operations_with s w.
Proof. intros Hops. unfold operations_with. by rewrite Hops. Qed.

Lemma without_synced_lookup w id :
  keyed (db_operations (offline w)) ->
  without (operations_with Synced w) (db_operations (offline w)) !! id =
    match db_operations (offline w) !! id with
    | Some o => if bool_decide (op_status o = Synced) then None else Some o
    | None => None
    end.
Proof.
  intros Hk. rewrite without_lookup.
  destruct (db_operations (offline w) !! id) as [o|] eqn:Ho.
  - destruct (decide (op_status o = Synced)) as [Hf|Hnf].
    + rewrite (bool_decide_eq_true_2 (op_status o = Synced)) by done.
      rewrite bool_decide_eq_true_2; [done|].
      apply (operations_with_ids Synced w); [exact Hk|]. eauto.
    + rewrite (bool_decide_eq_false_2 (op_status o = Synced)) by done.
      rewrite bool_decide_eq_false_2; [done|].
      intros Hin. apply (operations_with_ids Synced w) in Hin as (o' & Ho' & Hs);
        [|exact Hk]. congruence.
  - by destruct (bool_decide _).
Qed.

(** Property X14.  [fullSync], online with both lists answered and the
    database open: both lists are requested, the projection is replaced by
    them, and [lastSyncTime] is stored.  When both lists are non-empty it
    then drains, which leaves the operations it starts in flight and
    stored as [Syncing], removes the operations stored as [Synced] from
    the log, emits [fullSyncCompleted] with the two counts and resolves.
    When the notes or the folders are an empty list it never settles:
    nothing follows [fullSyncStarted], no drain is started and the log
    stays uncleared. *)
Theorem fullSync_needs_notes_and_folders
    (notes_first : bool) (w : World) (remoteNotes : list Note)
    (remoteFolders : list Folder) events outcome w' :
  isOnline (queue w) = true ->
  db_available (offline w) = true ->
  remote_notes_list (rt_remote (runtime w)) = inr remoteNotes ->
  remote_folders_list (rt_remote (runtime w)) = inr remoteFolders ->
  SyncQueue.fullSync notes_first w = (events, outcome, w') ->
  requests w' = requests w ++ list_requests w /\
  notes (content w') = notes_of remoteNotes /\
  folders (content w') = folders_of remoteFolders /\
  db_metadata (offline w') !! "lastSyncTime" = Some (rt_now (runtime w), rt_now (runtime w)) /\
  (remoteNotes = [] \/ remoteFolders = [] ->
     outcome = None /\
     events = [SyncQueue.EvFullSyncStarted] /\
     running w' = running w /\
     emitted w' = emitted w /\
     db_operations (offline w') = db_operations (offline w)) /\
  (remoteNotes <> [] -> remoteFolders <> [] ->
     outcome = Some (Ok tt) /\
     events =
       [SyncQueue.EvFullSyncStarted;
        SyncQueue.EvFullSyncCompleted (Z.of_nat (length remoteNotes))
          (Z.of_nat (length remoteFolders))] /\
     running w' = running w ++ drain_selection w /\
     (keyed (db_operations (offline w)) ->
      forall id,
        db_operations (offline w') !! id =
          match syncing_marked (drain_selection w) (db_operations (offline w)) !! id
          with
          | Some o => if bool_decide (op_status o = Synced) then None else Some o
          | None => None
          end)).
Proof.
  intros Hon Hdb Hn Hf Hrun.
  unfold SyncQueue.fullSync in Hrun. rewrite Hon in Hrun. cbn [negb] in Hrun.
  unfold Api.notes_list, Api.folders_list, Api.request in Hrun.
  cbn [runtime with_requests rt_remote] in Hrun.
  destruct w as [rt rn c [av fl dn df dop dm] q u t ti em rq rs].
  destruct c as [ns fs sn sf sq il er ops].
  cbn in Hon, Hdb, Hn, Hf. subst av.
  cbn [runtime with_requests rt_remote accessToken] in Hrun. rewrite Hn in Hrun.
  cbn [runtime with_requests rt_remote accessToken] in Hrun. rewrite Hf in Hrun.
  unfold Promise_all, OfflineStorage.saveNotes, OfflineStorage.saveFolders, settles,
    OfflineStorage.setMetadata, OfflineStorage.getObjectStore, Date_now, modify,
    ContentStore.setNotes, ContentStore.setFolders, ContentStore.set in Hrun.
  unfold exec, mbind, M_bind in Hrun. cbn -[SyncQueue.processPendingOperations
    OfflineStorage.clearSyncedOperations String.append string_of_Z] in Hrun.
  destruct remoteNotes as [|n remoteNotes'].
  { destruct remoteFolders; injection Hrun as <- <- <-; cbn; rewrite lookup_insert_eq, <- app_assoc;
      (do 4 (split; [reflexivity|]));
      (split; [intros _; repeat split; reflexivity | intros Hne; by destruct Hne]). }
  destruct remoteFolders as [|f remoteFolders'].
  { injection Hrun as <- <- <-. cbn. rewrite lookup_insert_eq, <- app_assoc.
    do 4 (split; [reflexivity|]).
    split; [intros _; repeat split; reflexivity | intros _ Hne; by destruct Hne]. }
  match type of Hrun with
  | context [SyncQueue.processPendingOperations ?x] => set (w4 := x) in *
  end.
  pose proof (processPendingOperations_ok w4) as Hok.
  pose proof (processPendingOperations_running w4) as Hrunning.
  pose proof (processPendingOperations_keeps_data w4)
    as (Hc & _ & Hr & Hav & _ & _ & _ & Hm).
  pose proof (processPendingOperations_log w4) as Hlog.
  assert (Hsel : drain_selection w4 =
                 drain_selection (mkWorld rt rn (mkContentState ns fs sn sf sq il er ops)
                                    (mkOfflineDB true fl dn df dop dm) q u t ti em rq rs))
    by (by apply drain_selection_same).
  unfold exec, result in Hok, Hrunning, Hc, Hr, Hav, Hm, Hlog.
  destruct (SyncQueue.processPendingOperations w4) as [r w5].
  cbn [fst snd] in Hok, Hrunning, Hc, Hr, Hav, Hm, Hlog. subst r.
  assert (Hdb5 : db_available (offline w5) = true) by (by rewrite Hav).
  rewrite (clearSyncedOperations_run w5 Hdb5) in Hrun.
  injection Hrun as <- <- <-.
  cbn [requests content offline with_offline db_metadata running promises
       OfflineStorage.with_operations].
  rewrite Hc, Hr, Hsel in *.
  split; [subst w4; cbn; by rewrite <- app_assoc|].
  split; [reflexivity|]. split; [reflexivity|].
  split.
  { destruct w5 as [rt5 rn5 c5 [av5 fl5 dn5 df5 dop5 dm5] q5 u5 t5 ti5 em5 rq5 rs5].
    cbn in Hm |- *. rewrite Hm. subst w4. cbn. apply lookup_insert_eq. }
  split; [intros [?|?]; discriminate|].
  intros _ _. split; [reflexivity|]. split; [reflexivity|]. split.
  { destruct w5 as [rt5 rn5 c5 [av5 fl5 dn5 df5 dop5 dm5] q5 u5 t5 ti5 em5 rq5 rs5].
    exact Hrunning. }
  intros Hk id. cbn [offline db_operations] in Hk.
  destruct (Hlog Hk) as (Hlog5 & _).
  assert (Hk5 : keyed (db_operations (offline w5))).
  { rewrite Hlog5. by apply syncing_marked_keyed. }
  pose proof (without_synced_lookup w5 id Hk5) as Hl. rewrite Hlog5 in Hl at 2.
  destruct w5 as [rt5 rn5 c5 [av5 fl5 dn5 df5 dop5 dm5] q5 u5 t5 ti5 em5 rq5 rs5].
  exact Hl.
Qed.

Lemma fullSync_witness :
  isOnline (queue draft_world) = true /\
  remote_folders_list (rt_remote (runtime draft_world)) = inr [] /\
  snd (fst (SyncQueue.fullSync true draft_world)) = None.
Proof.
  assert (H1 : isOnline (queue draft_world) = true) by reflexivity.
  assert (H2 : db_available (offline draft_world) = true) by reflexivity.
  assert (H3 : remote_notes_list (rt_remote (runtime draft_world)) = inr [note_42])
    by reflexivity.
  assert (H4 : remote_folders_list (rt_remote (runtime draft_world)) = inr [])
    by reflexivity.
  split; [exact H1|]. split; [exact H4|].
  destruct (SyncQueue.fullSync true draft_world) as [[events outcome] w'] eqn:Hrun.
  destruct (fullSync_needs_notes_and_folders true draft_world [note_42] [] events
              outcome w' H1 H2 H3 H4 Hrun) as (_ & _ & _ & _ & Hpending & _).
  exact (proj1 (Hpending (or_intror eq_refl))).
Defined.

(** Property X15.  How [fullSync] fails.  Offline it throws Cannot sync
    while offline before any event.  When a list request is rejected, both
    requests have been sent, nothing else has changed, and [fullSyncError]
    carries the rejection that is thrown.  When no database handle can be
    obtained, the projection has already been replaced by the server's
    lists when [fullSyncError] is emitted, with Failed to open IndexedDB
    when [indexedDB.open] fails and Database not initialized when the
    window has no IndexedDB; no drain is started. *)
Theorem fullSync_failures (notes_first : bool) (w : World) events outcome w' :
  SyncQueue.fullSync notes_first w = (events, outcome, w') ->
  (isOnline (queue w) = false ->
   events = [] /\ outcome = Some (Throw (Error "Cannot sync while offline")) /\ w' = w) /\
  (isOnline (queue w) = true ->
   (forall e, remote_notes_list (rt_remote (runtime w)) = inl e \/
              remote_folders_list (rt_remote (runtime w)) = inl e ->
      exists e',
        (remote_notes_list (rt_remote (runtime w)) = inl e' \/
         remote_folders_list (rt_remote (runtime w)) = inl e') /\
        events = [SyncQueue.EvFullSyncStarted; SyncQueue.EvFullSyncError e'] /\
        outcome = Some (Throw e') /\
        w' = with_requests (fun rs => rs ++ list_requests w) w) /\
   (forall remoteNotes remoteFolders,
      remote_notes_list (rt_remote (runtime w)) = inr remoteNotes ->
      remote_folders_list (rt_remote (runtime w)) = inr remoteFolders ->
      db_available (offline w) = false ->
      let e := if db_open_fails (offline w) then Error "Failed to open IndexedDB"
               else Error "Database not initialized" in
      events = [SyncQueue.EvFullSyncStarted; SyncQueue.EvFullSyncError e] /\
      outcome = Some (Throw e) /\
      notes (content w') = notes_of remoteNotes /\
      folders (content w') = folders_of remoteFolders /\
      offline w' = offline w /\
      running w' = running w)).
Proof.
  intros Hrun. unfold SyncQueue.fullSync in Hrun.
  destruct w as [rt rn c [av fl dn df dop dm] q u t ti em rq rs].
  destruct c as [ns fs sn sf sq il er ops].
  cbn [queue runtime] in *.
  split; intros Hon; rewrite Hon in Hrun; cbn [negb] in Hrun.
  { injection Hrun as <- <- <-. done. }
  unfold Api.notes_list, Api.folders_list, Api.request in Hrun.
  cbn [runtime with_requests rt_remote accessToken] in Hrun.
  split.
  - intros e He.
    destruct (remote_notes_list (rt_remote rt)) as [e1|remoteNotes] eqn:Hn;
      cbn [runtime with_requests rt_remote accessToken] in Hrun;
      destruct (remote_folders_list (rt_remote rt)) as [e2|remoteFolders] eqn:Hf.
    + exists (if notes_first then e1 else e2).
      injection Hrun as <- <- <-. unfold with_requests, list_requests. cbn.
      rewrite <- app_assoc.
      split; [destruct notes_first; auto|done].
    + exists e1. injection Hrun as <- <- <-. unfold with_requests, list_requests. cbn.
      rewrite <- app_assoc. auto.
    + exists e2. injection Hrun as <- <- <-. unfold with_requests, list_requests. cbn.
      rewrite <- app_assoc. auto.
    + destruct He; discriminate.
  - intros remoteNotes remoteFolders Hn Hf Hdb. cbn in Hn, Hf, Hdb. subst av.
    rewrite Hn in Hrun. cbn [runtime with_requests rt_remote accessToken] in Hrun.
    rewrite Hf in Hrun.
    unfold Promise_all, OfflineStorage.saveNotes, OfflineStorage.saveFolders, settles,
      OfflineStorage.setMetadata, OfflineStorage.getObjectStore, Date_now, modify,
      ContentStore.setNotes, ContentStore.setFolders, ContentStore.set in Hrun.
    unfold exec, mbind, M_bind in Hrun. cbn in Hrun.
    destruct fl; cbn in Hrun |- *; injection Hrun as <- <- <-; done.
Qed.

Lemma fullSync_failures_witness :
  (isOnline (queue conflict_world) = true /\
   remote_notes_list (rt_remote (runtime conflict_world)) = inl conflict_409 /\
   snd (fst (SyncQueue.fullSync true conflict_world)) = Some (Throw conflict_409)) /\
  (isOnline (queue draft_unopened) = true /\
   db_available (offline draft_unopened) = false /\
   snd (fst (SyncQueue.fullSync true draft_unopened))
     = Some (Throw (Error "Failed to open IndexedDB"))).
Proof.
  split.
  - assert (H1 : isOnline (queue conflict_world) = true) by reflexivity.
    assert (H2 : remote_notes_list (rt_remote (runtime conflict_world))
                 = inl conflict_409) by reflexivity.
    split; [exact H1|]. split; [exact H2|].
    destruct (SyncQueue.fullSync true conflict_world) as [[events outcome] w'] eqn:Hrun.
    destruct (proj1 (proj2 (fullSync_failures true conflict_world events outcome w' Hrun)
                       H1)
                conflict_409 (or_introl H2)) as (e' & He' & _ & Hout & _).
    cbn. rewrite Hout.
    destruct He' as [He'|He']; cbn in He'; injection He' as <-; reflexivity.
  - assert (H1 : isOnline (queue draft_unopened) = true) by reflexivity.
    assert (H2 : remote_notes_list (rt_remote (runtime draft_unopened))
                 = inr [note_42]) by reflexivity.
    assert (H3 : remote_folders_list (rt_remote (runtime draft_unopened)) = inr [])
      by reflexivity.
    assert (H4 : db_available (offline draft_unopened) = false) by reflexivity.
    split; [exact H1|]. split; [exact H4|].
    destruct (SyncQueue.fullSync true draft_unopened) as [[events outcome] w'] eqn:Hrun.
    destruct (proj2 (proj2 (fullSync_failures true draft_unopened events outcome w' Hrun)
                       H1)
                [note_42] [] H2 H3 H4) as (_ & Hout & _).
    cbn. rewrite Hout. reflexivity.
Defined.

Lemma fullSync_grows notes_first w events outcome w' :
  SyncQueue.fullSync notes_first w = (events, outcome, w') -> grows w w'.
Proof.
  intros Hrun. unfold SyncQueue.fullSync in Hrun.
  destruct (negb (isOnline (queue w))).
  { injection Hrun as <- <- <-. by apply grows_of_load. }
  unfold Api.notes_list, Api.folders_list, Api.request in Hrun.
  destruct w as [rt rn c [av fl dn df dop dm] q u t ti em rq rs].
  destruct c as [ns fs sn sf sq il er ops].
  cbn [runtime with_requests rt_remote accessToken] in Hrun.
  destruct (remote_notes_list (rt_remote rt)) as [e1|remoteNotes];
    cbn [runtime with_requests rt_remote accessToken] in Hrun;
    destruct (remote_folders_list (rt_remote rt)) as [e2|remoteFolders];
    try (injection Hrun as <- <- <-; by apply grows_of_load).
  unfold Promise_all, OfflineStorage.saveNotes, OfflineStorage.saveFolders, settles,
    OfflineStorage.setMetadata, OfflineStorage.getObjectStore, Date_now, modify,
    ContentStore.setNotes, ContentStore.setFolders, ContentStore.set in Hrun.
  unfold exec, mbind, M_bind in Hrun. cbn -[SyncQueue.processPendingOperations
    OfflineStorage.clearSyncedOperations String.append string_of_Z] in Hrun.
  destruct av; cbn -[SyncQueue.processPendingOperations
    OfflineStorage.clearSyncedOperations String.append string_of_Z] in Hrun;
    [|destruct fl; injection Hrun as <- <- <-; by apply grows_of_load].
  destruct remoteNotes as [|n remoteNotes'];
    [destruct remoteFolders; injection Hrun as <- <- <-; by apply grows_of_load|].
  destruct remoteFolders as [|f remoteFolders'];
    [injection Hrun as <- <- <-; by apply grows_of_load|].
  match type of Hrun with
  | context [SyncQueue.processPendingOperations ?x] => set (w4 := x) in *
  end.
  pose proof (processPendingOperations_grows w4) as Hg.
  pose proof (processPendingOperations_ok w4) as Hok.
  pose proof (processPendingOperations_keeps_data w4) as (Ho & _).
  unfold exec in *.
  destruct (SyncQueue.processPendingOperations w4) as [r w5]. cbn in *. subst r.
  destruct (OfflineStorage.clearSyncedOperations w5) as [r6 w6] eqn:Hclear.
  assert (Hload : load w6 = load w5).
  { revert Hclear. unfold OfflineStorage.clearSyncedOperations,
      OfflineStorage.getOperations, OfflineStorage.getObjectStore, get_world, modify.
    run. destruct (db_available (offline w5)) eqn:Hd; cbn; rewrite ?Hd;
      [|destruct (db_open_fails (offline w5))]; intros [= <- <-]; reflexivity. }
  assert (Hgrow : grows w4 w6).
  { eapply grows_trans; [exact Hg|by apply grows_of_load]. }
  assert (Hw' : w' = w6) by (destruct r6; by injection Hrun as _ _ <-).
  subst w'. eapply grows_trans; [|exact Hgrow]. by apply grows_of_load.
Qed.

(** Property X16.  The other callers of the drain keep [activeSyncCount]
    equal to the number of promises in flight and within
    [maxConcurrentSync]: the periodic timer, the [visibilitychange]
    listener, the subscription to the auth store, and [fullSync] however it
    ends. *)
Theorem every_caller_of_the_drain_keeps_the_bound (w : World) :
  balanced w ->
  balanced (exec SyncQueue.on_interval w) /\
  (forall visible, balanced (exec (SyncQueue.on_visibilitychange visible) w)) /\
  (forall isAuthenticated,
     balanced (exec (SyncQueue.on_authenticated isAuthenticated) w)) /\
  (forall notes_first events outcome w',
     SyncQueue.fullSync notes_first w = (events, outcome, w') -> balanced w').
Proof.
  intros Hb.
  assert (Hdrain : forall b : bool,
    grows w (exec (if b then SyncQueue.processPendingOperations else mret tt) w)).
  { intros []; [apply processPendingOperations_grows|by apply grows_of_load]. }
  split; [|split; [|split]].
  - eapply grows_balanced; [|exact Hb].
    unfold SyncQueue.on_interval, SyncQueue.this, exec, mbind, M_bind. cbn.
    apply Hdrain.
  - intros visible. eapply grows_balanced; [|exact Hb].
    unfold SyncQueue.on_visibilitychange, SyncQueue.this, exec, mbind, M_bind. cbn.
    apply Hdrain.
  - intros isAuthenticated. eapply grows_balanced; [|exact Hb].
    apply grows_of_load. by destruct isAuthenticated.
  - intros notes_first events outcome w' Hrun.
    eapply grows_balanced; [|exact Hb]. by eapply fullSync_grows.
Qed.

Lemma drain_callers_witness :
  balanced five_draining /\
  balanced (exec SyncQueue.on_interval five_draining).
Proof.
  assert (H : balanced five_draining)
    by (split; [reflexivity | vm_compute; intros Hgt; discriminate Hgt]).
  split; [exact H|].
  exact (proj1 (every_caller_of_the_drain_keeps_the_bound five_draining H)).
Defined.

(** * Export and import *)

Lemma foldl_put_notin {V W : Type} (key : V -> string) (g : V -> W) l acc k :
  k ∉ key <$> l -> foldl (put_under key g) acc l !! k = acc !! k.
Proof.
  revert acc. induction l as [|v l IH]; intros acc Hk; [reflexivity|].
  cbn. rewrite IH.
  - unfold put_under. apply lookup_insert_ne. intros <-. apply Hk, list_elem_of_here.
  - intros Hin. apply Hk. by apply list_elem_of_further.
Qed.

Lemma foldl_put_in {V W : Type} (key : V -> string) (g : V -> W) l acc v :
  NoDup (key <$> l) -> v ∈ l ->
  foldl (put_under key g) acc l !! key v = Some (g v).
Proof.
  revert acc. induction l as [|x l IH]; intros acc Hnd Hin.
  - by apply elem_of_nil in Hin.
  - rewrite fmap_cons in Hnd. apply NoDup_cons in Hnd as [Hx Hnd].
    apply elem_of_cons in Hin as [->|Hin]; cbn.
    + rewrite foldl_put_notin by exact Hx. unfold put_under. apply lookup_insert_eq.
    + by apply IH.
Qed.

(** Putting the values of a keyed map back under their keys. *)
Lemma rebuild {V W : Type} (key : V -> string) (g : V -> W)
    (m : gmap string V) (l : list V) :
  map_Forall (fun k v => key v = k) m ->
  l ≡ₚ (snd <$> map_to_list m) ->
  foldl (put_under key g) ∅ l = g <$> m.
Proof.
  intros Hk Hperm.
  assert (Hin : forall v, v ∈ l <-> m !! key v = Some v).
  { intros v. rewrite Hperm, list_elem_of_fmap. split.
    - intros ([k v'] & -> & Hin). apply elem_of_map_to_list in Hin. cbn.
      by rewrite (Hk _ _ Hin).
    - intros Hl. exists (key v, v). split; [done|]. by apply elem_of_map_to_list. }
  assert (Hnd : NoDup (key <$> l)).
  { rewrite Hperm, <- list_fmap_compose.
    rewrite (list_fmap_ext (key ∘ snd) fst (map_to_list m)).
    - apply NoDup_fst_map_to_list.
    - intros i [k v] Hi. cbn. apply Hk.
      apply elem_of_map_to_list. by eapply list_elem_of_lookup_2. }
  apply map_eq. intros k. rewrite lookup_fmap.
  destruct (m !! k) as [v|] eqn:Hm; cbn.
  - pose proof (Hk _ _ Hm) as Hid. cbn in Hid. subst k.
    apply foldl_put_in; [exact Hnd|]. by apply Hin.
  - rewrite foldl_put_notin; [apply lookup_empty|].
    intros Hink. apply list_elem_of_fmap in Hink as (v & -> & Hv).
    apply Hin in Hv. congruence.
Qed.

Lemma store_getAll_perm {V} (m : gmap string V) :
  OfflineStorage.store_getAll m ≡ₚ snd <$> map_to_list m.
Proof.
  unfold OfflineStorage.store_getAll. apply fmap_Permutation, js_sort_perm.
Qed.

Lemma Promise_all_saveOperations ops rest w :
  db_available (offline w) = true ->
  Promise_all (((fun op => settles (OfflineStorage.saveOperation op)) <$> ops) ++ rest) w =
  Promise_all rest
    (with_offline
       (OfflineStorage.with_operations
          (fun m => foldl (fun acc op => <[op_id op := op]> acc) m ops)) w).
Proof.
  revert w. induction ops as [|op ops IH]; intros w Hdb.
  - cbn. by destruct w as [rt rn c [av fl dn df dop dm] q u t ti em rq rs].
  - rewrite fmap_cons. cbn [app Promise_all].
    unfold settles at 1. unfold OfflineStorage.saveOperation,
      OfflineStorage.getObjectStore, modify, mbind, M_bind. rewrite Hdb. cbn.
    rewrite IH by (destruct w as [? ? ? [] ? ? ? ? ? ? ?]; exact Hdb).
    destruct w as [rt rn c [av fl dn df dop dm] q u t ti em rq rs]. cbn.
    destruct (Promise_all rest _) as [[[]|]] eqn:Hrest; reflexivity.
Qed.

Lemma saveNotes_run notes w :
  db_available (offline w) = true ->
  OfflineStorage.saveNotes notes w =
    (match notes with [] => None | _ :: _ => Some (Ok tt) end,
     with_offline
       (OfflineStorage.with_notes (fun m =>
          foldl (fun acc note => <[note_id note := (note, rt_now (runtime w))]> acc)
            m notes)) w).
Proof.
  intros Hdb. unfold OfflineStorage.saveNotes, OfflineStorage.getObjectStore.
  by rewrite Hdb.
Qed.

Lemma saveFolders_run folders w :
  db_available (offline w) = true ->
  OfflineStorage.saveFolders folders w =
    (match folders with [] => None | _ :: _ => Some (Ok tt) end,
     with_offline
       (OfflineStorage.with_folders (fun m =>
          foldl (fun acc folder =>
                   <[folder_id folder := (folder, rt_now (runtime w))]> acc)
            m folders)) w).
Proof.
  intros Hdb. unfold OfflineStorage.saveFolders, OfflineStorage.getObjectStore.
  by rewrite Hdb.
Qed.

Lemma Promise_all_cons p ps w :
  Promise_all (p :: ps) w =
    let '(r, w1) := p w in
    let '(rs, w2) := Promise_all ps w1 in
    (match r, rs with
     | Some (Throw e), _ => Some (Throw e)
     | _, Some (Throw e) => Some (Throw e)
     | None, _ => None
     | Some (Ok _), _ => rs
     end, w2).
Proof. reflexivity. Qed.

Lemma importData_run notes folders data w :
  db_available (offline w) = true ->
  OfflineStorage.importData true notes folders data w =
    (match notes, folders with
     | _ :: _, _ :: _ => Some (Ok tt)
     | _, _ => None
     end,
     with_offline
       (fun d => imported_db (db_open_fails d) (rt_now (runtime w)) notes folders data)
       w).
Proof.
  intros Hdb.
  destruct w as [rt rn c [av fl dn df dop dm] q u t ti em rq rs]. cbn in Hdb. subst av.
  unfold OfflineStorage.importData, OfflineStorage.clearAll, modify. cbn [app].
  cbn [with_offline offline db_available].
  rewrite Promise_all_cons, saveNotes_run by reflexivity.
  rewrite Promise_all_cons, saveFolders_run by reflexivity.
  rewrite Promise_all_saveOperations by reflexivity.
  unfold Promise_all, settles, OfflineStorage.setMetadata,
    OfflineStorage.getObjectStore, Date_now, modify, mbind, M_bind.
  cbn. unfold imported_db.
  destruct notes, folders; reflexivity.
Qed.

Lemma exportData_run w :
  db_available (offline w) = true ->
  notes_keyed (db_notes (offline w)) ->
  folders_keyed (db_folders (offline w)) ->
  OfflineStorage.exportData w =
    (Ok {| OfflineStorage.od_notes := fst <$> db_notes (offline w);
           OfflineStorage.od_folders := fst <$> db_folders (offline w);
           OfflineStorage.od_operations :=
             OfflineStorage.store_getAll (db_operations (offline w));
           OfflineStorage.od_lastSync :=
             num_or (fst <$> db_metadata (offline w) !! "lastSync") 0;
           OfflineStorage.od_version := 1 |}, w).
Proof.
  intros Hdb Hn Hf.
  unfold OfflineStorage.exportData, OfflineStorage.getNotes, OfflineStorage.getFolders,
    OfflineStorage.getOperations, OfflineStorage.getMetadata,
    OfflineStorage.getObjectStore, get_world.
  run. repeat (rewrite Hdb; cbn). do 3 f_equal.
  - rewrite foldl_fmap.
    apply (rebuild (fun v : Note * Z => note_id (fst v)) fst);
      [exact Hn|apply store_getAll_perm].
  - rewrite foldl_fmap.
    apply (rebuild (fun v : Folder * Z => folder_id (fst v)) fst);
      [exact Hf|apply store_getAll_perm].
Qed.

Lemma num_or_idem x : num_or (Some (num_or x 0)) 0 = num_or x 0.
Proof.
  unfold num_or. destruct x as [v|]; [|reflexivity].
  destruct (Z.eqb_spec v 0) as [->|Hne]; [reflexivity|].
  by destruct (Z.eqb_spec v 0).
Qed.

(** Property X17.  What [exportData] returns from a keyed database,
    [importData] writes into any open database so that [exportData] returns
    the same again: the notes and folders without their time stamps, the
    operations, [lastSync] and version 1.  The projection is not touched.
    The promise of [importData] is fulfilled only when the backup holds a
    note and a folder, and is never settled otherwise. *)
Theorem backup_round_trip
    (w w0 : World) (d : OfflineStorage.OfflineData)
    (notes : list Note) (folders : list Folder) :
  db_available (offline w) = true ->
  notes_keyed (db_notes (offline w)) ->
  folders_keyed (db_folders (offline w)) ->
  keyed (db_operations (offline w)) ->
  exported w = Some d ->
  notes ≡ₚ snd <$> map_to_list (OfflineStorage.od_notes d) ->
  folders ≡ₚ snd <$> map_to_list (OfflineStorage.od_folders d) ->
  db_available (offline w0) = true ->
  let import := OfflineStorage.importData true notes folders d w0 in
  fst import =
    match notes, folders with
    | _ :: _, _ :: _ => Some (Ok tt)
    | _, _ => None
    end /\
  exported (snd import) = Some d /\
  content (snd import) = content w0 /\
  OfflineStorage.od_notes d = fst <$> db_notes (offline w) /\
  OfflineStorage.od_folders d = fst <$> db_folders (offline w) /\
  OfflineStorage.od_version d = 1%Z.
Proof.
  intros Hdb Hn Hf Hk Hexp Hnotes Hfolders Hdb0 import.
  unfold exported in Hexp. rewrite (exportData_run w Hdb Hn Hf) in Hexp.
  injection Hexp as <-. cbn [OfflineStorage.od_notes OfflineStorage.od_folders] in *.
  subst import. rewrite (importData_run _ _ _ _ Hdb0). cbn [fst snd].
  split; [reflexivity|].
  split; [|split; [by destruct w0|done]].
  set (now := rt_now (runtime w0)).
  assert (Hns : foldl (fun acc note => <[note_id note := (note, now)]> acc) ∅ notes =
                (fun n => (n, now)) <$> (fst <$> db_notes (offline w))).
  { apply (rebuild note_id (fun n => (n, now))); [|exact Hnotes].
    intros k n Hl. rewrite lookup_fmap in Hl.
    destruct (db_notes (offline w) !! k) as [v|] eqn:Hv; [|discriminate].
    injection Hl as <-. exact (Hn _ _ Hv). }
  assert (Hfs : foldl (fun acc folder => <[folder_id folder := (folder, now)]> acc)
                  ∅ folders =
                (fun f => (f, now)) <$> (fst <$> db_folders (offline w))).
  { apply (rebuild folder_id (fun f => (f, now))); [|exact Hfolders].
    intros k f Hl. rewrite lookup_fmap in Hl.
    destruct (db_folders (offline w) !! k) as [v|] eqn:Hv; [|discriminate].
    injection Hl as <-. exact (Hf _ _ Hv). }
  assert (Hops : foldl (fun acc op => <[op_id op := op]> acc) ∅
                   (OfflineStorage.store_getAll (db_operations (offline w))) =
                 db_operations (offline w)).
  { rewrite (rebuild op_id (fun op => op) (db_operations (offline w)));
      [apply map_fmap_id|exact Hk|apply store_getAll_perm]. }
  unfold exported.
  rewrite exportData_run.
  - destruct w0 as [rt rn c [av fl dn df dop dm] q u t ti em rq rs].
    unfold imported_db. cbn -[num_or]. fold now.
    rewrite Hns, Hfs, Hops, lookup_singleton_eq. cbn -[num_or].
    rewrite num_or_idem, <- !map_fmap_compose.
    do 2 f_equal; apply map_fmap_id.
  - by destruct w0.
  - destruct w0 as [rt rn c [av fl dn df dop dm] q u t ti em rq rs].
    unfold imported_db. cbn. fold now. rewrite Hns.
    intros k [n s] Hl. rewrite !lookup_fmap in Hl.
    destruct (db_notes (offline w) !! k) as [v|] eqn:Hv; [|discriminate].
    cbn in Hl. injection Hl as <- <-. exact (Hn _ _ Hv).
  - destruct w0 as [rt rn c [av fl dn df dop dm] q u t ti em rq rs].
    unfold imported_db. cbn. fold now. rewrite Hfs.
    intros k [f s] Hl. rewrite !lookup_fmap in Hl.
    destruct (db_folders (offline w) !! k) as [v|] eqn:Hv; [|discriminate].
    cbn in Hl. injection Hl as <- <-. exact (Hf _ _ Hv).
Qed.

Lemma backup_round_trip_witness :
  db_available (offline draft_world) = true /\
  exported draft_world = Some draft_backup /\
  fst (OfflineStorage.importData true [draft_tmp] [] draft_backup empty_world) = None /\
  exported (snd (OfflineStorage.importData true [draft_tmp] [] draft_backup empty_world))
    = Some draft_backup.
Proof.
  assert (H1 : db_available (offline draft_world) = true) by reflexivity.
  assert (H2 : folders_keyed (db_folders (offline draft_world)))
    by apply map_Forall_empty.
  assert (H3 : keyed (db_operations (offline draft_world)))
    by apply (keyed_singleton create_a).
  assert (H4 : exported draft_world = Some draft_backup) by (vm_compute; reflexivity).
  assert (H5 : [draft_tmp] ≡ₚ
               snd <$> map_to_list (OfflineStorage.od_notes draft_backup)).
  { cbn [draft_backup OfflineStorage.od_notes]. by rewrite map_to_list_singleton. }
  assert (H6 : @nil Folder ≡ₚ
               snd <$> map_to_list (OfflineStorage.od_folders draft_backup)).
  { cbn [draft_backup OfflineStorage.od_folders]. by rewrite map_to_list_empty. }
  assert (H7 : db_available (offline empty_world) = true) by reflexivity.
  split; [exact H1|]. split; [exact H4|].
  destruct (backup_round_trip draft_world empty_world draft_backup [draft_tmp] []
              H1 draft_world_notes_keyed H2 H3 H4 H5 H6 H7) as (Hout & Hexp & _).
  split; [exact Hout | exact Hexp].
Defined.

(** * More about the optimistic store *)

Lemma filter_unused id (l : list OptimisticOperation) :
  Forall (fun o => oo_id o <> id) l ->
  List.filter (fun op => negb (String.eqb (oo_id op) id)) l = l.
Proof.
  induction 1 as [|o l Ho _ IH]; cbn; [reflexivity|].
  destruct (String.eqb_spec (oo_id o) id); [done|]. cbn. by rewrite IH.
Qed.

Lemma find_unused id (l : list OptimisticOperation) :
  Forall (fun o => oo_id o <> id) l ->
  List.find (fun o => String.eqb (oo_id o) id) l = None.
Proof.
  induction 1 as [|o l Ho _ IH]; cbn; [reflexivity|].
  by destruct (String.eqb_spec (oo_id o) id).
Qed.

Lemma assign_first_unused id p (l : list OptimisticOperation) :
  Forall (fun o => oo_id o <> id) l ->
  ContentStore.assign_first id p l = l.
Proof.
  induction 1 as [|o l Ho _ IH]; cbn; [reflexivity|].
  destruct (String.eqb_spec (oo_id o) id); [done|]. by rewrite IH.
Qed.

Lemma find_app_unused id (l : list OptimisticOperation) o :
  Forall (fun o => oo_id o <> id) l -> oo_id o = id ->
  List.find (fun x => String.eqb (oo_id x) id) (l ++ [o]) = Some o.
Proof.
  intros Hl Ho. induction Hl as [|x l Hx _ IH]; cbn.
  - by rewrite Ho, String.eqb_refl.
  - by destruct (String.eqb_spec (oo_id x) id).
Qed.

Lemma assign_first_app_unused id p (l : list OptimisticOperation) o :
  Forall (fun o => oo_id o <> id) l -> oo_id o = id ->
  ContentStore.assign_first id p (l ++ [o]) = l ++ [ContentStore.assign_op o p].
Proof.
  intros Hl Ho. induction Hl as [|x l Hx _ IH]; cbn.
  - by rewrite Ho, String.eqb_refl.
  - destruct (String.eqb_spec (oo_id x) id); [done|]. by rewrite IH.
Qed.

Lemma filter_app_unused id (l : list OptimisticOperation) o :
  Forall (fun o => oo_id o <> id) l -> oo_id o = id ->
  List.filter (fun op => negb (String.eqb (oo_id op) id)) (l ++ [o]) = l.
Proof.
  intros Hl Ho. rewrite List.filter_app, filter_unused by done. cbn.
  rewrite Ho, String.eqb_refl. cbn. apply app_nil_r.
Qed.

(** Property X7.  A [sync] message that reports a conflict only appends one
    optimistic operation in error, named after the clock, with the server's
    data as its new data and no snapshot: no note or folder changes and
    nothing is requested.  Resolving it, either way, leaves notes and
    folders as they were and removes the entry one second later.  A message
    without conflict refetches the list of its entity type instead. *)
Theorem pushed_conflict_can_only_be_dismissed
    (data : WebSocket.SyncMessage) (w : World) :
  let opId := pushed_conflict_id w in
  let w1 := exec (WebSocket.handleSync data) w in
  (WebSocket.sm_conflict data = Some true ->
   unused_op_id opId w ->
   optimisticOps (content w1) =
     optimisticOps (content w) ++
     [mkOptimisticOperation opId (WebSocket.sm_operation data)
        (WebSocket.sm_entity_type data) (WebSocket.sm_entity_id data)
        (rt_now (runtime w)) None (Some (DObject (WebSocket.sm_data data)))
        OptError (Some "Sync conflict detected")] /\
   notes (content w1) = notes (content w) /\
   folders (content w1) = folders (content w) /\
   requests w1 = requests w /\
   forall resolution,
     let w2 := exec (ContentStore.resolveConflict opId resolution) w1 in
     notes (content w2) = notes (content w) /\
     folders (content w2) = folders (content w) /\
     requests w2 = requests w /\
     offline w2 = offline w /\
     timers w2 = timers w ++ [mkTimer (Some 1000%Z) (TRemoveOptimisticOp opId)] /\
     optimisticOps (content (exec (fire (TRemoveOptimisticOp opId)) w2)) =
       optimisticOps (content w)) /\
  (WebSocket.sm_conflict data <> Some true ->
   requests w1 =
     requests w ++
     [match WebSocket.sm_entity_type data with
      | EntNote => refetch_notes w
      | EntFolder => refetch_folders w
      end] /\
   optimisticOps (content w1) = optimisticOps (content w)).
Proof.
  intros opId w1. split.
  - intros Hc Hfresh. subst w1 opId. unfold pushed_conflict_id, unused_op_id in *.
    destruct w as [rt rn c od q u t ti em rq rs];
      destruct c as [ns fs sn sf sq il er ops]. cbn in Hfresh.
    unfold WebSocket.handleSync. rewrite Hc.
    unfold exec, ContentStore.addOptimisticOp, ContentStore.set, Date_now, modify.
    run. do 4 (split; [reflexivity|]).
    intros resolution. unfold ContentStore.resolveConflict, ContentStore.get,
      ContentStore.updateOptimisticOp, ContentStore.updateNote,
      ContentStore.updateFolder, ContentStore.set, setTimeout, modify, fire,
      ContentStore.removeOptimisticOp. run.
    rewrite find_app_unused by done. destruct resolution; run.
    all: do 5 (split; [reflexivity|]).
    all: rewrite assign_first_app_unused by done; by apply filter_app_unused.
  - intros Hc. subst w1.
    assert (WebSocket.handleSync data =
            match WebSocket.sm_entity_type data with
            | EntNote => WebSocket.unawaited ContentStore.syncNotes
            | EntFolder => WebSocket.unawaited ContentStore.syncFolders
            end) as ->.
    { unfold WebSocket.handleSync.
      destruct (WebSocket.sm_conflict data) as [[]|]; [done|reflexivity|reflexivity]. }
    destruct (WebSocket.sm_entity_type data).
    + split; [apply syncNotes_requests|].
      destruct w as [rt rn c od q u t ti em rq rs];
        destruct c as [ns fs sn sf sq il er ops].
      unfold exec, WebSocket.unawaited, ContentStore.syncNotes,
        try_finally, try_catch, ContentStore.setLoading, ContentStore.setNotes,
        ContentStore.setError, ContentStore.set, Api.notes_list, Api.request, modify.
      run. destruct (remote_notes_list _); reflexivity.
    + split; [apply syncFolders_requests|].
      destruct w as [rt rn c od q u t ti em rq rs];
        destruct c as [ns fs sn sf sq il er ops].
      unfold exec, WebSocket.unawaited, ContentStore.syncFolders,
        try_finally, try_catch, ContentStore.setLoading, ContentStore.setFolders,
        ContentStore.setError, ContentStore.set, Api.folders_list, Api.request, modify.
      run. destruct (remote_folders_list _); reflexivity.
Qed.

Lemma pushed_conflict_witness :
  WebSocket.sm_conflict conflict_pushed = Some true /\
  unused_op_id (pushed_conflict_id editing_world) editing_world /\
  notes (content (exec (ContentStore.resolveConflict (pushed_conflict_id editing_world)
                          ContentStore.Reject)
                    (exec (WebSocket.handleSync conflict_pushed) editing_world))) =
    notes (content editing_world).
Proof.
  assert (H1 : WebSocket.sm_conflict conflict_pushed = Some true) by reflexivity.
  assert (H2 : unused_op_id (pushed_conflict_id editing_world) editing_world)
    by constructor.
  split; [exact H1|]. split; [exact H2|].
  destruct (proj1 (pushed_conflict_can_only_be_dismissed conflict_pushed editing_world)
              H1 H2) as (_ & _ & _ & _ & Hres).
  exact (proj1 (Hres ContentStore.Reject)).
Defined.

Ltac tracked :=
  unfold tracked_once, unused_op_id, temp_id in *;
  cbn [runtime random_next content notes folders optimisticOps] in *;
  rewrite ?Nat.add_0_r, ?Nat.add_1_r in *;
  store_run;
  repeat match goal with
  | H : ?m !! ?id = Some _ |- context [?m !! ?id] => rewrite H
  end;
  store_run;
  match goal with
  | |- context [match ?a with inl _ => _ | inr _ => _ end] => destruct a
  end;
  unfold fire, ContentStore.removeOptimisticOp, ContentStore.set, modify; store_run;
  rewrite assign_first_app_unused by done;
  (split; [eexists; split; [|reflexivity]; reflexivity|]);
  (split; [reflexivity|]);
  by apply filter_app_unused.

(** Property X8.  Each of the eight optimistic mutations, when the entity
    exists and the drawn id is not in use, appends exactly one optimistic
    operation under that id and schedules its removal, one second after a
    success and five after a failure; once that timer has fired the
    optimistic operations are those of before. *)
Theorem optimistic_operations_do_not_accumulate (w : World) :
  (forall data,
     unused_op_id (temp_id w 1) w ->
     tracked_once (ContentStore.createNoteOptimistic data) w (temp_id w 1)) /\
  (forall id data cur,
     notes (content w) !! id = Some cur -> unused_op_id (temp_id w 0) w ->
     tracked_once (ContentStore.updateNoteOptimistic id data) w (temp_id w 0)) /\
  (forall id cur,
     notes (content w) !! id = Some cur -> unused_op_id (temp_id w 0) w ->
     tracked_once (ContentStore.deleteNoteOptimistic id) w (temp_id w 0)) /\
  (forall id folderId cur,
     notes (content w) !! id = Some cur -> unused_op_id (temp_id w 0) w ->
     tracked_once (ContentStore.moveNoteOptimistic id folderId) w (temp_id w 0)) /\
  (forall data,
     unused_op_id (temp_id w 1) w ->
     tracked_once (ContentStore.createFolderOptimistic data) w (temp_id w 1)) /\
  (forall id data cur,
     folders (content w) !! id = Some cur -> unused_op_id (temp_id w 0) w ->
     tracked_once (ContentStore.updateFolderOptimistic id data) w (temp_id w 0)) /\
  (forall id cur,
     folders (content w) !! id = Some cur -> unused_op_id (temp_id w 0) w ->
     tracked_once (ContentStore.deleteFolderOptimistic id) w (temp_id w 0)) /\
  (forall id parentId cur,
     folders (content w) !! id = Some cur -> unused_op_id (temp_id w 0) w ->
     tracked_once (ContentStore.moveFolderOptimistic id parentId) w (temp_id w 0)).
Proof.
  destruct w as [rt rn c od q u t ti em rq rs];
    destruct c as [ns fs sn sf sq il er ops].
  repeat match goal with |- _ /\ _ => split end; intros; tracked.
Qed.

Lemma optimistic_operations_witness :
  notes (content editing_world) !! "n1" = Some note_v3 /\
  unused_op_id (temp_id editing_world 0) editing_world /\
  tracked_once (ContentStore.updateNoteOptimistic "n1" edit_v3) editing_world
    (temp_id editing_world 0).
Proof.
  assert (H1 : notes (content editing_world) !! "n1" = Some note_v3) by reflexivity.
  assert (H2 : unused_op_id (temp_id editing_world 0) editing_world) by constructor.
  split; [exact H1|]. split; [exact H2|].
  exact (proj1 (proj2 (optimistic_operations_do_not_accumulate editing_world))
           "n1" edit_v3 note_v3 H1 H2).
Defined.

(** Property X9.  Updating, deleting or moving a note or a folder the
    projection does not hold throws Note not found (Folder not found): an id
    has been drawn, and nothing else has changed; in particular no request
    was sent. *)
Theorem mutation_of_a_missing_entity (id : string) (w : World) :
  (notes (content w) !! id = None ->
   (forall data,
      ContentStore.updateNoteOptimistic id data w =
        (Throw (Error "Note not found"), with_random_next S w)) /\
   ContentStore.deleteNoteOptimistic id w =
     (Throw (Error "Note not found"), with_random_next S w) /\
   (forall folderId,
      ContentStore.moveNoteOptimistic id folderId w =
        (Throw (Error "Note not found"), with_random_next S w))) /\
  (folders (content w) !! id = None ->
   (forall data,
      ContentStore.updateFolderOptimistic id data w =
        (Throw (Error "Folder not found"), with_random_next S w)) /\
   ContentStore.deleteFolderOptimistic id w =
     (Throw (Error "Folder not found"), with_random_next S w) /\
   (forall parentId,
      ContentStore.moveFolderOptimistic id parentId w =
        (Throw (Error "Folder not found"), with_random_next S w))).
Proof.
  destruct w as [rt rn c od q u t ti em rq rs];
    destruct c as [ns fs sn sf sq il er ops]. cbn.
  split; intros Hnone; repeat match goal with |- _ /\ _ => split end; intros;
    store_run; rewrite Hnone; reflexivity.
Qed.

Lemma missing_entity_witness :
  notes (content editing_world) !! "n7" = None /\
  requests (exec (ContentStore.deleteNoteOptimistic "n7") editing_world) = [] /\
  optimisticOps (content (exec (ContentStore.deleteNoteOptimistic "n7") editing_world))
    = [].
Proof.
  assert (H : notes (content editing_world) !! "n7" = None) by reflexivity.
  split; [exact H|]. unfold exec.
  rewrite (proj1 (proj2 (proj1 (mutation_of_a_missing_entity "n7" editing_world) H))).
  split; reflexivity.
Defined.

(** * The connection *)

Ltac ws_run_step :=
  unfold ws_perform, WebSocket.connect, WebSocket.onopen, WebSocket.onclose,
    WebSocket.onerror, WebSocket.on_connection_timeout, WebSocket.on_reconnect,
    WebSocket.disconnect, WebSocket.on_heartbeat, WebSocket.on_window_online,
    WebSocket.on_window_offline, WebSocket.disconnect, WebSocket.connect,
    WebSocket.stopHeartbeat, WebSocket.startHeartbeat,
    WebSocket.clearConnectionTimer, WebSocket.with_flags,
    WebSocket.with_reconnectAttempts, WebSocket.with_shouldReconnect,
    WebSocket.with_handles in *.

Lemma ws_perform_keeps_shouldReconnect_false a s :
  WebSocket.shouldReconnect s = false ->
  WebSocket.shouldReconnect (fst (ws_perform a s)) = false /\
  Forall (fun e => schedules_reconnect e = false) (snd (ws_perform a s)).
Proof.
  destruct s as [u ra mx ri hi ct ic ig sr w ht cti]. cbn. intros ->.
  destruct a as [tok ref| |c r| |cn|tok ref| | |au tok ref|]; ws_run_step; cbn.
  all: repeat match goal with
  | |- context [if ?b then _ else _] => destruct b; cbn
  | |- context [match ?x with Some _ => _ | None => _ end] => destruct x; cbn
  end.
  all: split; [reflexivity|repeat constructor].
Qed.

Lemma has_token accessToken :
  ~ no_token accessToken -> (str_or accessToken "" =? "")%string = false.
Proof.
  intros Htok. destruct accessToken as [t|]; [|exfalso; apply Htok; by left].
  unfold str_or. destruct (String.eqb_spec t "") as [->|Hne];
    [exfalso; apply Htok; by right|].
  by apply String.eqb_neq.
Qed.

Ltac ws_compute :=
  ws_run_step;
  cbn -[Z.add Z.mul Z.ltb Z.of_nat String.append String.eqb str_or] in *.

Lemma closed_after_disconnect code reason s :
  let s2 := fst (WebSocket.onclose code reason (fst (WebSocket.disconnect s))) in
  WebSocket.isConnected s2 = false /\
  WebSocket.isConnecting s2 = false /\
  WebSocket.url s2 = WebSocket.url s /\
  WebSocket.connectionTimeout s2 = WebSocket.connectionTimeout s.
Proof.
  destruct s as [u ra mx ri hi ct ic ig sr w ht cti].
  unfold WebSocket.disconnect, WebSocket.onclose, WebSocket.stopHeartbeat,
    WebSocket.clearConnectionTimer.
  destruct ht, cti; cbn; repeat split; reflexivity.
Qed.

(** Property X18.  After [disconnect] no reconnection is scheduled any
    more: [shouldReconnect] stays false and no reconnection timer is set,
    whatever follows, a later successful [connect] included.  This does not
    keep the service from connecting again: once the socket has closed, a
    reconnection timer that was already pending and the [online] listener
    of the window still call [connect], which opens a socket when there is
    a token. *)
Theorem disconnect_schedules_no_reconnection
    (s : WebSocket.WebSocketService) (l : list WsAction) :
  let s1 := fst (WebSocket.disconnect s) in
  WebSocket.shouldReconnect s1 = false /\
  WebSocket.shouldReconnect (fst (ws_run l s1)) = false /\
  Forall (fun e => schedules_reconnect e = false) (snd (ws_run l s1)) /\
  forall accessToken code reason,
    ~ no_token accessToken ->
    let s2 := fst (WebSocket.onclose code reason s1) in
    let opened :=
      [WebSocket.NewWebSocket
         (WebSocket.url s +:+ "?token=" +:+ str_or accessToken "");
       WebSocket.SetTimeout WebSocket.ConnectionTimeout
         (WebSocket.connectionTimeout s)] in
    snd (ws_perform (WReconnect accessToken None) s2) = opened /\
    snd (ws_perform (WOnline true accessToken None) s2) = opened.
Proof.
  intros s1.
  assert (H1 : WebSocket.shouldReconnect s1 = false).
  { subst s1. destruct s as [u ra mx ri hi ct ic ig sr w ht cti].
    ws_run_step. cbn. destruct ht, cti; reflexivity. }
  split; [exact H1|].
  assert (Hlater : forall s', WebSocket.shouldReconnect s' = false ->
            WebSocket.shouldReconnect (fst (ws_run l s')) = false /\
            Forall (fun e => schedules_reconnect e = false) (snd (ws_run l s'))).
  { clear. induction l as [|a l IH]; intros s Hs; cbn.
    - split; [exact Hs|constructor].
    - pose proof (ws_perform_keeps_shouldReconnect_false a s Hs) as [Hs1 He1].
      destruct (ws_perform a s) as [s1 e1]. cbn in *.
      specialize (IH s1 Hs1). destruct (ws_run l s1) as [s2 e2]. cbn in *.
      destruct IH as [Hs2 He2]. split; [exact Hs2|]. by apply Forall_app. }
  destruct (Hlater s1 H1) as [Hs He].
  split; [exact Hs|]. split; [exact He|].
  intros accessToken code reason Htok%has_token. subst s1.
  clear H1 Hlater Hs He. cbv zeta.
  pose proof (closed_after_disconnect code reason s) as (Hc & Hg & Hu & Ht).
  set (s2 := fst (WebSocket.onclose code reason (fst (WebSocket.disconnect s)))) in *.
  rewrite <- Hu, <- Ht. clearbody s2. clear Hu Ht s.
  destruct s2 as [u ra mx ri hi ct ic ig sr w ht cti]. cbn in Hc, Hg. subst ic ig.
  unfold ws_perform, WebSocket.on_reconnect, WebSocket.on_window_online,
    WebSocket.connect, WebSocket.with_reconnectAttempts.
  cbn [WebSocket.isConnected WebSocket.isConnecting orb]. rewrite Htok.
  split; reflexivity.
Qed.

Lemma ws_perform_keeps_connecting a s :
  socket_event a = false ->
  WebSocket.isConnecting s = true ->
  WebSocket.isConnecting (fst (ws_perform a s)) = true /\
  Forall (fun e => opens_socket e = false) (snd (ws_perform a s)).
Proof.
  destruct s as [u ra mx ri hi ct ic ig sr w ht cti]. cbn. intros Ha ->.
  destruct a as [tok ref| |c r| |cn|tok ref| | |au tok ref|]; try discriminate;
    ws_run_step; cbn.
  all: rewrite ?orb_true_r; cbn.
  all: repeat match goal with
  | |- context [if ?b then _ else _] => destruct b; cbn
  end.
  all: split; [reflexivity|repeat constructor].
Qed.

(** Property X19.  [connect] without an access token rejects with No access
    token available and leaves [isConnecting] set: the state reads
    connecting, every later [connect] resolves at once without opening a
    socket, and nothing but an event of a socket (there is none) resets the
    flag. *)
Theorem connect_without_token_wedges
    (accessToken : option string) (refused : option JsError)
    (s : WebSocket.WebSocketService) (l : list WsAction) :
  no_token accessToken ->
  WebSocket.isConnected s = false ->
  WebSocket.isConnecting s = false ->
  let '(promise, s1, effects) := WebSocket.connect accessToken refused s in
  promise = WebSocket.Rejected (Error "No access token available") /\
  effects = [] /\
  WebSocket.getConnectionState s1 = WebSocket.StConnecting /\
  (forall accessToken' refused',
     WebSocket.connect accessToken' refused' s1 = (WebSocket.Resolved, s1, [])) /\
  (Forall (fun a => socket_event a = false) l ->
   WebSocket.getConnectionState (fst (ws_run l s1)) = WebSocket.StConnecting /\
   Forall (fun e => opens_socket e = false) (snd (ws_run l s1))).
Proof.
  intros Htok Hc Hg.
  destruct s as [u ra mx ri hi ct ic ig sr w ht cti]. cbn in Hc, Hg. subst ic ig.
  unfold WebSocket.connect. cbn.
  replace (str_or accessToken "" =? "")%string with true
    by (by destruct Htok as [-> | ->]).
  split; [reflexivity|]. split; [reflexivity|]. split; [reflexivity|].
  split; [reflexivity|].
  set (s1 := WebSocket.with_flags false true _).
  assert (H1 : WebSocket.isConnecting s1 = true) by reflexivity.
  clearbody s1. revert s1 H1.
  induction l as [|a l IH]; intros s Hs Hl; cbn.
  - split; [|constructor]. unfold WebSocket.getConnectionState. by rewrite Hs.
  - apply Forall_cons in Hl as [Ha Hl].
    pose proof (ws_perform_keeps_connecting a s Ha Hs) as [Hs1 He1].
    destruct (ws_perform a s) as [s1 e1]. cbn in *.
    specialize (IH s1 Hs1 Hl). destruct (ws_run l s1) as [s2 e2]. cbn in *.
    destruct IH as [Hs2 He2]. split; [exact Hs2|]. by apply Forall_app.
Qed.

Lemma wedge_witness :
  no_token None /\
  WebSocket.isConnected sample_service = false /\
  WebSocket.isConnecting sample_service = false /\
  WebSocket.getConnectionState
    (snd (fst (WebSocket.connect (Some "token") None
                 (snd (fst (WebSocket.connect None None sample_service))))))
    = WebSocket.StConnecting.
Proof.
  assert (H1 : no_token None) by (by left).
  assert (H2 : WebSocket.isConnected sample_service = false) by reflexivity.
  assert (H3 : WebSocket.isConnecting sample_service = false) by reflexivity.
  split; [exact H1|]. split; [exact H2|]. split; [exact H3|].
  pose proof (connect_without_token_wedges None None sample_service [] H1 H2 H3) as H.
  destruct (WebSocket.connect None None sample_service) as [[promise s1] effects].
  destruct H as (_ & _ & Hstate & Hagain & _).
  cbn [fst snd]. rewrite (Hagain (Some "token") None). exact Hstate.
Defined.

Lemma drop_round accessToken s :
  ~ no_token accessToken ->
  let s' := fst (WebSocket.on_reconnect accessToken None
                   (fst (WebSocket.onclose 1006 "" s))) in
  WebSocket.reconnectAttempts s' = (WebSocket.reconnectAttempts s + 1)%Z /\
  WebSocket.shouldReconnect s' = WebSocket.shouldReconnect s /\
  WebSocket.maxReconnectAttempts s' = WebSocket.maxReconnectAttempts s /\
  WebSocket.reconnectInterval s' = WebSocket.reconnectInterval s.
Proof.
  intros Htok%has_token.
  destruct s as [u ra mx ri hi ct ic ig sr w ht cti].
  destruct ht, cti; ws_compute; rewrite Htok; ws_compute; auto.
Qed.

Lemma onclose_schedules s :
  List.filter schedules_reconnect (snd (WebSocket.onclose 1006 "" s)) =
    if WebSocket.shouldReconnect s &&
       (WebSocket.reconnectAttempts s <? WebSocket.maxReconnectAttempts s)%Z
    then [WebSocket.SetTimeout WebSocket.Reconnect
            (WebSocket.reconnectInterval s * WebSocket.reconnectAttempts s)]
    else [].
Proof.
  destruct s as [u ra mx ri hi ct ic ig sr w ht cti].
  destruct ht, cti; ws_compute; destruct (sr && (ra <? mx)%Z); reflexivity.
Qed.

(** Property X20.  After [n] drops in a row since the last successful
    connection, with the reconnection timer firing after each,
    [reconnectAttempts] is [n] and the next drop schedules a reconnection
    after [reconnectInterval] times [n] (so the first follows at once), or
    none once [n] has reached [maxReconnectAttempts]. *)
Theorem reconnection_backoff
    (accessToken : option string) (s : WebSocket.WebSocketService) (n : nat) :
  ~ no_token accessToken ->
  WebSocket.shouldReconnect s = true ->
  let opened := fst (WebSocket.onopen s) in
  let max := WebSocket.maxReconnectAttempts s in
  (Z.of_nat n <= max)%Z ->
  let dropped := drops n accessToken opened in
  WebSocket.reconnectAttempts dropped = Z.of_nat n /\
  List.filter schedules_reconnect (snd (WebSocket.onclose 1006 "" dropped)) =
    if (Z.of_nat n <? max)%Z
    then [WebSocket.SetTimeout WebSocket.Reconnect
            (WebSocket.reconnectInterval s * Z.of_nat n)]
    else [].
Proof.
  intros Htok Hsr opened max _ dropped.
  assert (Hinv : WebSocket.reconnectAttempts dropped = Z.of_nat n /\
                 WebSocket.shouldReconnect dropped = true /\
                 WebSocket.maxReconnectAttempts dropped = max /\
                 WebSocket.reconnectInterval dropped = WebSocket.reconnectInterval s).
  { subst dropped. induction n as [|n IH].
    - subst opened max. destruct s as [u ra mx ri hi ct ic ig sr w ht cti].
      cbn in Hsr. subst sr. destruct cti, ht; ws_compute; auto.
    - destruct IH as (Hra & Hs & Hm & Hi).
      cbn [drops].
      destruct (drop_round accessToken (drops n accessToken opened) Htok)
        as (Hra' & Hs' & Hm' & Hi').
      rewrite Hra', Hs', Hm', Hi', Hra. repeat split; auto. lia. }
  destruct Hinv as (Hra & Hs & Hm & Hi). split; [exact Hra|].
  rewrite onclose_schedules, Hra, Hs, Hm, Hi. reflexivity.
Qed.

Lemma reconnection_backoff_witness :
  ~ no_token (Some "token") /\
  WebSocket.shouldReconnect sample_service = true /\
  List.filter schedules_reconnect
    (snd (WebSocket.onclose 1006 ""
            (drops 1 (Some "token") (fst (WebSocket.onopen sample_service))))) =
    [WebSocket.SetTimeout WebSocket.Reconnect 3000].
Proof.
  assert (H1 : ~ no_token (Some "token")) by (intros [H|H]; discriminate H).
  assert (H2 : WebSocket.shouldReconnect sample_service = true) by reflexivity.
  assert (H3 : (Z.of_nat 1 <= WebSocket.maxReconnectAttempts sample_service)%Z)
    by (cbn; lia).
  split; [exact H1|]. split; [exact H2|].
  exact (proj2 (reconnection_backoff (Some "token") sample_service 1 H1 H2 H3)).
Defined.

Lemma disconnect_witness :
  ~ no_token (Some "token") /\
  snd (ws_perform (WReconnect (Some "token") None)
         (fst (WebSocket.onclose 1000 ""
                 (fst (WebSocket.disconnect (fst (WebSocket.onopen sample_service)))))))
    = [WebSocket.NewWebSocket "ws://localhost:3001/ws?token=token";
       WebSocket.SetTimeout WebSocket.ConnectionTimeout 10000].
Proof.
  assert (H1 : ~ no_token (Some "token")) by (intros [H|H]; discriminate H).
  split; [exact H1|].
  destruct (disconnect_schedules_no_reconnection
              (fst (WebSocket.onopen sample_service)) [])
    as (_ & _ & _ & Hopens).
  pose proof (proj1 (Hopens (Some "token") 1000%Z "" H1)) as Hre.
  cbv zeta in Hre. etrans; [exact Hre|]. vm_compute. reflexivity.
Defined.

(** * The transport *)

Lemma not_ok_401 response :
  ApiClient.status response = 401%Z -> ApiClient.ok response = false.
Proof. unfold ApiClient.ok. intros ->. reflexivity. Qed.

Lemma request_refresh_returns fuel server method body c :
  refresh_is_answered server ->
  exists r c',
    ApiClient.request (S fuel) server method "/auth/refresh" body c = Some (r, c') /\
    is_ApiError r /\
    length (ApiClient.fetched c') = S (length (ApiClient.fetched c)).
Proof.
  intros Hserver. cbn [ApiClient.request]. unfold ApiClient.fetch.
  destruct (server _ _) as [response|] eqn:Hanswer.
  - destruct (ApiClient.ok response) eqn:Hok.
    + destruct (ApiClient.status response =? 204)%Z.
      * eexists _, _. split; [reflexivity|]. cbn. rewrite length_app. cbn. split; [done|lia].
      * destruct (ApiClient.json response).
        -- eexists _, _. split; [reflexivity|]. cbn. rewrite length_app. cbn.
           split; [done|lia].
        -- eexists _, _. split; [reflexivity|]. cbn. rewrite length_app. cbn.
           split; [by eexists|lia].
    + replace (ApiClient.status response =? 401)%Z with false.
      * cbn. eexists _, _. split; [reflexivity|]. cbn. rewrite length_app. cbn.
        split; [by eexists|lia].
      * symmetry. apply Z.eqb_neq. eapply Hserver; [|exact Hanswer]. reflexivity.
  - eexists _, _. split; [reflexivity|]. cbn. rewrite length_app. cbn.
    split; [by eexists|lia].
Qed.

(** Property X21.  When the refresh endpoint never answers 401, [request]
    settles after at most three calls of [fetch], and whatever it throws is
    an [ApiError]: a status is always there, 0 for a network error.  Without
    a refresh token it calls [fetch] once and leaves the tokens and
    [localStorage] as they are. *)
Theorem request_returns_an_ApiError_or_a_value
    (fuel : nat) (server : ApiClient.Server) (method : HttpMethod)
    (endpoint : string) (body : option JsObject) (c : ApiClient.Client) :
  refresh_is_answered server ->
  exists r c',
    ApiClient.request (S (S fuel)) server method endpoint body c = Some (r, c') /\
    is_ApiError r /\
    (length (ApiClient.fetched c) < length (ApiClient.fetched c') <=
     length (ApiClient.fetched c) + 3)%nat /\
    (ApiClient.truthy (ApiClient.refreshToken c) = false ->
     ApiClient.accessToken c' = ApiClient.accessToken c /\
     ApiClient.refreshToken c' = ApiClient.refreshToken c /\
     ApiClient.localStorage c' = ApiClient.localStorage c /\
     ApiClient.fetched c' =
       ApiClient.fetched c ++ [ApiClient.config method endpoint body c]).
Proof.
  intros Hserver.
  remember (S fuel) as fuel1 eqn:Hfuel.
  cbn [ApiClient.request]. unfold ApiClient.fetch at 1.
  set (r1 := ApiClient.config method endpoint body c).
  set (c1 := ApiClient.mkClient _ _ _ _ (ApiClient.fetched c ++ [r1])).
  assert (Hlen1 : length (ApiClient.fetched c1) = S (length (ApiClient.fetched c))).
  { subst c1. cbn. rewrite length_app. cbn. lia. }
  assert (Hdone : forall r,
    is_ApiError r ->
    exists r0 c', Some (r, c1) = Some (r0, c') /\ is_ApiError r0 /\
      (length (ApiClient.fetched c) < length (ApiClient.fetched c') <=
       length (ApiClient.fetched c) + 3)%nat /\
      (ApiClient.truthy (ApiClient.refreshToken c) = false ->
       ApiClient.accessToken c' = ApiClient.accessToken c /\
       ApiClient.refreshToken c' = ApiClient.refreshToken c /\
       ApiClient.localStorage c' = ApiClient.localStorage c /\
       ApiClient.fetched c' = ApiClient.fetched c ++ [r1])).
  { intros r Hr. exists r, c1. split; [reflexivity|]. split; [exact Hr|].
    split; [lia|]. intros _. subst c1. cbn. auto. }
  destruct (server _ _) as [response|]; [|apply Hdone; by eexists].
  destruct (ApiClient.ok response).
  { destruct (ApiClient.status response =? 204)%Z; [by apply Hdone|].
    destruct (ApiClient.json response); [by apply Hdone|apply Hdone; by eexists]. }
  destruct (ApiClient.status response =? 401)%Z; cbn [andb];
    [|apply Hdone; by eexists].
  destruct (ApiClient.truthy (ApiClient.refreshToken c1)) eqn:Htruthy;
    [|apply Hdone; by eexists].
  subst fuel1.
  destruct (request_refresh_returns fuel server POST
              (Some [("refresh_token", ApiClient.refreshToken c1)]) c1 Hserver)
    as (r2 & c2 & -> & _ & Hlen2).
  assert (Hno : ApiClient.truthy (ApiClient.refreshToken c) = false -> False).
  { subst c1. cbn in Htruthy. congruence. }
  destruct r2 as [[tokens|]|e2].
  - unfold ApiClient.fetch.
    destruct (server _ _) as [retry|].
    + destruct (ApiClient.ok retry).
      * destruct (ApiClient.json retry).
        -- eexists _, _. split; [reflexivity|]. split; [done|]. cbn.
           rewrite length_app. cbn. split; [lia|]. intros H. by destruct (Hno H).
        -- eexists _, _. split; [reflexivity|]. split; [by eexists|]. cbn.
           rewrite length_app. cbn. split; [lia|]. intros H. by destruct (Hno H).
      * eexists _, _. split; [reflexivity|]. split; [by eexists|]. cbn.
        rewrite length_app. cbn. split; [lia|]. intros H. by destruct (Hno H).
    + eexists _, _. split; [reflexivity|]. split; [by eexists|]. cbn.
      rewrite length_app. cbn. split; [lia|]. intros H. by destruct (Hno H).
  - eexists _, _. split; [reflexivity|]. split; [by eexists|]. cbn.
    split; [lia|]. intros H. by destruct (Hno H).
  - eexists _, _. split; [reflexivity|]. split; [by eexists|]. cbn.
    split; [lia|]. intros H. by destruct (Hno H).
Qed.

Lemma request_returns_witness :
  exists r c',
    ApiClient.request 2 accepting_server GET "/notes" None signed_in_client
      = Some (r, c') /\
    is_ApiError r /\
    (length (ApiClient.fetched signed_in_client) < length (ApiClient.fetched c') <=
     length (ApiClient.fetched signed_in_client) + 3)%nat /\
    (ApiClient.truthy (ApiClient.refreshToken signed_in_client) = false ->
     ApiClient.accessToken c' = ApiClient.accessToken signed_in_client /\
     ApiClient.refreshToken c' = ApiClient.refreshToken signed_in_client /\
     ApiClient.localStorage c' = ApiClient.localStorage signed_in_client /\
     ApiClient.fetched c' =
       ApiClient.fetched signed_in_client ++
       [ApiClient.config GET "/notes" None signed_in_client]).
Proof.
  apply (request_returns_an_ApiError_or_a_value 0 accepting_server GET "/notes" None
           signed_in_client).
  intros history r response _ Hanswer. injection Hanswer as <-. cbn. discriminate.
Defined.

(** Property X22.  When every answer is 401, the refresh endpoint's too, and
    the client holds a refresh token, [request] never settles: each refresh
    is a [request] of its own that is answered 401 and refreshes again. *)
Theorem refresh_answered_401_never_returns
    (fuel : nat) (server : ApiClient.Server) (method : HttpMethod)
    (endpoint : string) (body : option JsObject) (c : ApiClient.Client) :
  always_401 server ->
  ApiClient.truthy (ApiClient.refreshToken c) = true ->
  ApiClient.request fuel server method endpoint body c = None.
Proof.
  intros Hserver. revert method endpoint body c.
  induction fuel as [|fuel IH]; intros method endpoint body c Htoken; [reflexivity|].
  cbn [ApiClient.request]. unfold ApiClient.fetch.
  destruct (Hserver (ApiClient.fetched c) (ApiClient.config method endpoint body c))
    as (response & -> & Hstatus).
  rewrite (not_ok_401 _ Hstatus), Hstatus. cbn [Z.eqb Pos.eqb andb ApiClient.refreshToken].
  rewrite Htoken. by rewrite IH.
Qed.

Lemma refresh_answered_401_witness :
  ApiClient.request 5 refusing_server GET "/notes" None signed_in_client = None.
Proof.
  apply (refresh_answered_401_never_returns 5 refusing_server GET "/notes" None
           signed_in_client).
  - intros history r. eexists. split; reflexivity.
  - reflexivity.
Defined.

(** Property X23.  The second attempt, after a 401 and a refresh that
    returned tokens, is sent with the new access token.  An answer with a
    body is returned.  An answer that is not ok is reported with the status
    and the data of the first answer, 401.  An ok answer without a JSON
    body, such as 204, or a network failure, clears the renewed tokens and
    throws Authentication failed. *)
Theorem second_attempt_after_refresh
    (fuel : nat) (server : ApiClient.Server) (method : HttpMethod)
    (endpoint : string) (body : option JsObject) (c : ApiClient.Client)
    (first refreshed : ApiClient.Response) (tokens : JsObject)
    (second : option ApiClient.Response) :
  let r1 := ApiClient.config method endpoint body c in
  let c1 := logged r1 c in
  let r2 := refresh_request c1 in
  let c3 :=
    ApiClient.setTokens (js_get tokens "access_token") (js_get tokens "refresh_token")
      (logged r2 c1) in
  let r3 := ApiClient.retry_config method endpoint body c3 in
  let c4 := logged r3 c3 in
  ApiClient.truthy (ApiClient.refreshToken c) = true ->
  server (ApiClient.fetched c) r1 = Some first ->
  ApiClient.status first = 401%Z ->
  server (ApiClient.fetched c1) r2 = Some refreshed ->
  ApiClient.ok refreshed = true ->
  ApiClient.status refreshed <> 204%Z ->
  ApiClient.json refreshed = Some tokens ->
  server (ApiClient.fetched c3) r3 = second ->
  ApiClient.request (S (S fuel)) server method endpoint body c =
    Some
      match second with
      | Some response =>
          if ApiClient.ok response then
            match ApiClient.json response with
            | Some value => (Ok (Some value), c4)
            | None =>
                (Throw (ApiError "Authentication failed" 401 (errorData_of first)),
                 ApiClient.clearTokens c4)
            end
          else
            (Throw (ApiError (ApiClient.message_of (errorData_of first) 401) 401
                      (errorData_of first)), c4)
      | None =>
          (Throw (ApiError "Authentication failed" 401 (errorData_of first)),
           ApiClient.clearTokens c4)
      end.
Proof.
  intros r1 c1 r2 c3 r3 c4 Htoken H1 Hst H2 Hok Hn204 Hjson H3.
  subst c4 r3 c3 r2 c1 r1. unfold refresh_request, logged in *.
  cbn [ApiClient.request]. unfold ApiClient.fetch.
  cbn [ApiClient.fetched ApiClient.accessToken ApiClient.refreshToken
       ApiClient.window ApiClient.localStorage] in *.
  rewrite H1, (not_ok_401 _ Hst), Hst. cbn [Z.eqb Pos.eqb andb].
  rewrite Htoken, H2, Hok.
  replace (ApiClient.status refreshed =? 204)%Z with false
    by (symmetry; by apply Z.eqb_neq).
  rewrite Hjson.
  unfold ApiClient.setTokens in *.
  cbn [ApiClient.fetched ApiClient.accessToken ApiClient.refreshToken
       ApiClient.window ApiClient.localStorage] in *.
  rewrite H3. destruct second as [response|]; [|reflexivity].
  destruct (ApiClient.ok response); [|reflexivity].
  destruct (ApiClient.json response); reflexivity.
Qed.

Lemma second_attempt_witness :
  exists c',
    ApiClient.request 2 renewing_server DELETE "/notes/n1" None signed_in_client =
      Some (Throw (ApiError "Authentication failed" 401 [("error", JString "Unauthorized")]),
            c') /\
    ApiClient.accessToken c' = JNull /\
    ApiClient.localStorage c' = ∅.
Proof.
  eexists. split.
  - rewrite (second_attempt_after_refresh 0 renewing_server DELETE "/notes/n1" None
               signed_in_client
               (ApiClient.mkResponse 401 "Unauthorized" None)
               (ApiClient.mkResponse 200 "OK"
                  (Some [("access_token", JString "a2"); ("refresh_token", JString "r2")]))
               [("access_token", JString "a2"); ("refresh_token", JString "r2")]
               (Some (ApiClient.mkResponse 204 "No Content" None)));
      try reflexivity.
    cbn. discriminate.
  - split; [reflexivity|]. vm_compute. reflexivity.
Defined.

Lemma same_but_tokens_refl c : same_but_tokens c c.
Proof. by split. Qed.

Lemma same_but_tokens_trans c1 c2 c3 :
  same_but_tokens c1 c2 -> same_but_tokens c2 c3 -> same_but_tokens c1 c3.
Proof.
  intros [Hw1 Hk1] [Hw2 Hk2]. split; [congruence|].
  intros key Ha Hr. rewrite Hk2, Hk1; done.
Qed.

Lemma same_but_tokens_fetch server r c :
  same_but_tokens c (snd (ApiClient.fetch server r c)).
Proof. by split. Qed.

Lemma same_but_tokens_setTokens access refresh c :
  same_but_tokens c (ApiClient.setTokens access refresh c).
Proof.
  split; [reflexivity|]. intros key Ha Hr. cbn.
  destruct (ApiClient.window c); [|reflexivity].
  rewrite !lookup_insert_ne; done.
Qed.

Lemma same_but_tokens_clearTokens c :
  same_but_tokens c (ApiClient.clearTokens c).
Proof.
  split; [reflexivity|]. intros key Ha Hr. cbn.
  destruct (ApiClient.window c); [|reflexivity].
  rewrite !lookup_delete_ne; done.
Qed.

Lemma request_same_but_tokens fuel server method endpoint body c r c' :
  ApiClient.request fuel server method endpoint body c = Some (r, c') ->
  same_but_tokens c c'.
Proof.
  revert method endpoint body c r c'.
  induction fuel as [|fuel IH]; intros method endpoint body c r c'; [discriminate|].
  cbn [ApiClient.request].
  pose proof (same_but_tokens_fetch server
                (ApiClient.config method endpoint body c) c) as H1.
  destruct (ApiClient.fetch server (ApiClient.config method endpoint body c) c)
    as [answer c1]. cbn [snd] in H1.
  destruct answer as [response|]; [|by intros [= <- <-]].
  destruct (ApiClient.ok response).
  { destruct (ApiClient.status response =? 204)%Z; [by intros [= <- <-]|].
    destruct (ApiClient.json response); by intros [= <- <-]. }
  destruct ((ApiClient.status response =? 401)%Z &&
            ApiClient.truthy (ApiClient.refreshToken c1)); [|by intros [= <- <-]].
  destruct (ApiClient.request fuel server POST "/auth/refresh" _ c1)
    as [[r2 c2]|] eqn:Hrefresh; [|discriminate].
  apply IH in Hrefresh.
  pose proof (same_but_tokens_trans _ _ _ H1 Hrefresh) as H2.
  assert (Hfail : forall c3, same_but_tokens c2 c3 ->
                    same_but_tokens c (ApiClient.clearTokens c3)).
  { intros c3 H3. eapply same_but_tokens_trans; [exact H2|].
    eapply same_but_tokens_trans; [exact H3|]. apply same_but_tokens_clearTokens. }
  destruct r2 as [[tokens|]|e2].
  - pose proof (same_but_tokens_setTokens (js_get tokens "access_token")
                  (js_get tokens "refresh_token") c2) as H3.
    set (c3 := ApiClient.setTokens _ _ c2) in *.
    pose proof (same_but_tokens_fetch server
                  (ApiClient.retry_config method endpoint body c3) c3) as H4.
    destruct (ApiClient.fetch server _ c3) as [retry c4]. cbn [snd] in H4.
    pose proof (same_but_tokens_trans _ _ _ H3 H4) as H5.
    destruct retry as [retryResponse|].
    + destruct (ApiClient.ok retryResponse).
      * destruct (ApiClient.json retryResponse); intros [= <- <-].
        -- by eapply same_but_tokens_trans.
        -- by apply Hfail.
      * intros [= <- <-]. by eapply same_but_tokens_trans.
    + intros [= <- <-]. by apply Hfail.
  - intros [= <- <-]. apply Hfail, same_but_tokens_refl.
  - intros [= <- <-]. apply Hfail, same_but_tokens_refl.
Qed.

Lemma refresh_settles fuel server body c :
  refresh_is_answered server ->
  exists r c',
    ApiClient.request (S fuel) server POST "/auth/refresh" body c = Some (r, c') /\
    ApiClient.fetched c' =
      ApiClient.fetched c ++ [ApiClient.config POST "/auth/refresh" body c].
Proof.
  intros Hserver. cbn [ApiClient.request]. unfold ApiClient.fetch.
  destruct (server _ _) as [response|] eqn:Hanswer;
    [|eexists _, _; split; reflexivity].
  destruct (ApiClient.ok response).
  { destruct (ApiClient.status response =? 204)%Z;
      [eexists _, _; split; reflexivity|].
    destruct (ApiClient.json response); eexists _, _; split; reflexivity. }
  replace (ApiClient.status response =? 401)%Z with false;
    [eexists _, _; split; reflexivity|].
  symmetry. apply Z.eqb_neq. eapply Hserver; [|exact Hanswer]. reflexivity.
Qed.

Lemma request_settles fuel server method endpoint body c :
  refresh_is_answered server ->
  exists r c' later,
    ApiClient.request (S (S fuel)) server method endpoint body c = Some (r, c') /\
    ApiClient.fetched c' =
      ApiClient.fetched c ++ ApiClient.config method endpoint body c :: later.
Proof.
  intros Hserver.
  remember (S fuel) as fuel1 eqn:Hfuel.
  cbn [ApiClient.request]. unfold ApiClient.fetch at 1.
  set (r1 := ApiClient.config method endpoint body c).
  set (c1 := ApiClient.mkClient _ _ _ _ (ApiClient.fetched c ++ [r1])).
  assert (Hdone : forall r : Outcome (option JsObject),
    exists r0 c' later, Some (r, c1) = Some (r0, c') /\
      ApiClient.fetched c' = ApiClient.fetched c ++ r1 :: later).
  { intros r. by exists r, c1, []. }
  destruct (server _ _) as [response|]; [|apply Hdone].
  destruct (ApiClient.ok response).
  { destruct (ApiClient.status response =? 204)%Z; [apply Hdone|].
    destruct (ApiClient.json response); apply Hdone. }
  destruct ((ApiClient.status response =? 401)%Z &&
            ApiClient.truthy (ApiClient.refreshToken c1)); [|apply Hdone].
  subst fuel1.
  destruct (refresh_settles fuel server
              (Some [("refresh_token", ApiClient.refreshToken c1)]) c1 Hserver)
    as (r2 & c2 & -> & Hlog).
  assert (Hlog2 : ApiClient.fetched c2 =
            ApiClient.fetched c ++
            [r1; ApiClient.config POST "/auth/refresh"
                   (Some [("refresh_token", ApiClient.refreshToken c1)]) c1]).
  { rewrite Hlog. subst c1. cbn. by rewrite <- app_assoc. }
  destruct r2 as [[tokens|]|e2]; [|by eexists _, _, _..].
  unfold ApiClient.fetch.
  assert (Hlog4 : forall r,
    ApiClient.fetched c2 ++ [r] =
      ApiClient.fetched c ++
      r1 :: [ApiClient.config POST "/auth/refresh"
               (Some [("refresh_token", ApiClient.refreshToken c1)]) c1; r]).
  { intros r. rewrite Hlog2. by rewrite <- app_assoc. }
  destruct (server _ _) as [retry|]; [|eexists _, _, _; split; [reflexivity|apply Hlog4]].
  destruct (ApiClient.ok retry);
    [|eexists _, _, _; split; [reflexivity|apply Hlog4]].
  destruct (ApiClient.json retry); eexists _, _, _; (split; [reflexivity|apply Hlog4]).
Qed.

(** Property X24.  In a browser the tokens survive a reload as strings: a
    client constructed from the [localStorage] that [setTokens] wrote holds
    the string of either token, and one constructed after [clearTokens]
    holds none and is not authenticated.  Neither touches another key of
    [localStorage]. *)
Theorem tokens_survive_a_reload
    (access refresh : JsVal) (c : ApiClient.Client) :
  ApiClient.window c = true ->
  let reloaded :=
    ApiClient.constructor true
      (ApiClient.localStorage (ApiClient.setTokens access refresh c)) in
  let signed_out :=
    ApiClient.constructor true (ApiClient.localStorage (ApiClient.clearTokens c)) in
  ApiClient.accessToken reloaded = JString (ApiClient.to_string access) /\
  ApiClient.refreshToken reloaded = JString (ApiClient.to_string refresh) /\
  ApiClient.accessToken signed_out = JNull /\
  ApiClient.refreshToken signed_out = JNull /\
  ApiClient.isAuthenticated signed_out = false /\
  same_but_tokens c (ApiClient.setTokens access refresh c) /\
  same_but_tokens c (ApiClient.clearTokens c).
Proof.
  intros Hwindow reloaded signed_out. subst reloaded signed_out.
  unfold ApiClient.constructor, ApiClient.isAuthenticated. cbn. rewrite Hwindow.
  rewrite lookup_insert_ne by done.
  rewrite !lookup_insert_eq.
  rewrite lookup_delete_ne by done.
  rewrite !lookup_delete_eq. cbn.
  repeat match goal with |- _ /\ _ => split end; try reflexivity.
  - apply same_but_tokens_setTokens.
  - apply same_but_tokens_clearTokens.
Qed.

Lemma tokens_reload_witness :
  ApiClient.window signed_in_client = true /\
  ApiClient.accessToken
    (ApiClient.constructor true
       (ApiClient.localStorage
          (ApiClient.setTokens (JString "a2") (JString "r2") signed_in_client))) =
    JString "a2".
Proof.
  split; [reflexivity|].
  exact (proj1 (tokens_survive_a_reload (JString "a2") (JString "r2") signed_in_client
                  eq_refl)).
Defined.

(** Property X25.  When the refresh endpoint never answers 401,
    [auth.logout] settles, with the outcome of its request, and whatever
    that was the client then holds no token, is not authenticated, and in a
    browser both tokens are gone from [localStorage] while its other keys
    are as before.  The first call of [fetch] is the POST of /auth/logout
    with the token held before. *)
Theorem logout_clears_the_tokens
    (fuel : nat) (server : ApiClient.Server) (c : ApiClient.Client) :
  refresh_is_answered server ->
  exists r c1,
    ApiClient.request (S (S fuel)) server POST "/auth/logout" None c = Some (r, c1) /\
    let c' := ApiClient.clearTokens c1 in
    ApiClient.logout (S (S fuel)) server c =
      Some (match r with Ok _ => Ok tt | Throw e => Throw e end, c') /\
    ApiClient.accessToken c' = JNull /\
    ApiClient.refreshToken c' = JNull /\
    ApiClient.isAuthenticated c' = false /\
    same_but_tokens c c' /\
    (ApiClient.window c = true ->
     ApiClient.localStorage c' !! "access_token" = None /\
     ApiClient.localStorage c' !! "refresh_token" = None) /\
    head (drop (length (ApiClient.fetched c)) (ApiClient.fetched c')) =
      Some (ApiClient.config POST "/auth/logout" None c).
Proof.
  intros Hserver. unfold ApiClient.logout.
  destruct (request_settles fuel server POST "/auth/logout" None c Hserver)
    as (r & c1 & later & Hrun & Hlog).
  exists r, c1. split; [exact Hrun|]. rewrite Hrun.
  pose proof (request_same_but_tokens _ _ _ _ _ _ _ _ Hrun) as Hsame.
  assert (Hclear : same_but_tokens c (ApiClient.clearTokens c1)).
  { eapply same_but_tokens_trans; [exact Hsame|]. apply same_but_tokens_clearTokens. }
  assert (Hkeys : ApiClient.window c = true ->
     ApiClient.localStorage (ApiClient.clearTokens c1) !! "access_token" = None /\
     ApiClient.localStorage (ApiClient.clearTokens c1) !! "refresh_token" = None).
  { intros Hw. cbn. rewrite (proj1 Hsame), Hw.
    rewrite lookup_delete_ne by done. by rewrite !lookup_delete_eq. }
  assert (Hfirst :
    head (drop (length (ApiClient.fetched c))
            (ApiClient.fetched (ApiClient.clearTokens c1))) =
      Some (ApiClient.config POST "/auth/logout" None c)).
  { cbn [ApiClient.clearTokens ApiClient.fetched]. rewrite Hlog.
    by rewrite drop_app_length. }
  cbv zeta. split; [by destruct r|].
  repeat match goal with |- _ /\ _ => split end;
    try reflexivity; try exact Hclear; try apply Hkeys; exact Hfirst.
Qed.

Lemma logout_witness :
  exists r c',
    ApiClient.logout 2 refusing_logout signed_in_client = Some (r, c') /\
    ApiClient.isAuthenticated c' = false /\
    ApiClient.localStorage c' !! "refresh_token" = None.
Proof.
  destruct (logout_clears_the_tokens 0 refusing_logout signed_in_client)
    as (r & c1 & _ & Hrun & _ & _ & Hauth & _ & Hkeys & _).
  - intros history request response Hendpoint. unfold refusing_logout.
    rewrite Hendpoint. cbn. intros [= <-]. cbn. discriminate.
  - eexists _, _. split; [exact Hrun|]. split; [exact Hauth|].
    apply Hkeys. reflexivity.
Defined.
